(** * SmartSpend AI: expense parsing, budget alerts and time archiving

    A shallow embedding of the TypeScript sources
    ([utils/parser.ts], [utils/alerts.ts], [utils/date.ts], [utils/groq.ts],
    [services/time.ts], [components/Dashboard.tsx],
    [components/BudgetSetup.tsx], [types.ts]) and the properties of the
    specification that are stated about them.

    Conventions of the model.
    - A JavaScript [number] is an exact rational ([Q]) in the first parts;
      binary64 rounding, infinities and NaN are outside them, except where
      a function returns NaN on its own ([parseFloat]), which is then an
      [option]. The thresholds of the alert engine hinge on the rounding:
      the engine is given once more on binary64 numbers ([Engine64]), and
      what is said of the value of a sum or of a product in exact
      arithmetic is said of whole amounts.
    - A JavaScript string is a [string] of bytes; the text functions
      ([toLowerCase], [trim], the regular expression classes) are the ASCII
      ones, bytes above 127 are letters of no case and no class.
    - A [Date] is its time value, the milliseconds since the epoch; the local
      time zone is a fixed offset [tz] (milliseconds east of UTC). *)

From stdpp Require Import base option list strings gmap.
From Stdlib Require Import ZArith QArith Qround Ascii String Lia Lqa.
From Stdlib Require DecimalString.

Local Open Scope string_scope.
Local Open Scope Z_scope.

(** ** JavaScript strings *)

Module JS.

Definition isUpper (c : ascii) : bool :=
  (65 <=? nat_of_ascii c)%nat && (nat_of_ascii c <=? 90)%nat.

Definition isLower (c : ascii) : bool :=
  (97 <=? nat_of_ascii c)%nat && (nat_of_ascii c <=? 122)%nat.

Definition isDigit (c : ascii) : bool :=
  (48 <=? nat_of_ascii c)%nat && (nat_of_ascii c <=? 57)%nat.

(** [\w]: letters, digits and the underscore. *)
Definition isWordChar (c : ascii) : bool :=
  isUpper c || isLower c || isDigit c || (nat_of_ascii c =? 95)%nat.

(** [\s] and the characters [trim] removes: TAB, LF, VT, FF, CR, space. *)
Definition isSpace (c : ascii) : bool :=
  ((9 <=? nat_of_ascii c)%nat && (nat_of_ascii c <=? 13)%nat)
  || (nat_of_ascii c =? 32)%nat.

Definition lowerChar (c : ascii) : ascii :=
  if isUpper c then ascii_of_nat (nat_of_ascii c + 32) else c.

Definition upperChar (c : ascii) : ascii :=
  if isLower c then ascii_of_nat (nat_of_ascii c - 32) else c.

Fixpoint toLowerCase (s : string) : string :=
  match s with
  | EmptyString => EmptyString
  | String c s' => String (lowerChar c) (toLowerCase s')
  end.

(** [s.startsWith(p)] *)
Definition startsWith (s p : string) : bool := String.prefix p s.

(** [s.includes(w)]: [w] occurs at some position of [s]. *)
Fixpoint includes (s w : string) : bool :=
  String.prefix w s ||
  match s with
  | EmptyString => false
  | String _ s' => includes s' w
  end.

Fixpoint trimStart (s : string) : string :=
  match s with
  | EmptyString => EmptyString
  | String c s' => if isSpace c then trimStart s' else s
  end.

(** Drops the trailing white space: a character is kept when something
    is kept after it or it is not white space itself. *)
Fixpoint trimEnd (s : string) : string :=
  match s with
  | EmptyString => EmptyString
  | String c s' =>
      match trimEnd s' with
      | EmptyString => if isSpace c then EmptyString else String c EmptyString
      | t => String c t
      end
  end.

Definition trim (s : string) : string := trimEnd (trimStart s).

(** [s.split(/,|\n/)]: the pieces between the separators, empty ones
    included; the empty string splits into one empty piece. *)
Fixpoint splitOn (sep : ascii -> bool) (s : string) : list string :=
  match s with
  | EmptyString => [EmptyString]
  | String c s' =>
      if sep c then EmptyString :: splitOn sep s'
      else match splitOn sep s' with
           | [] => [String c EmptyString]
           | piece :: pieces => String c piece :: pieces
           end
  end.

Fixpoint drop (n : nat) (s : string) : string :=
  match n, s with
  | O, _ => s
  | S n', String _ s' => drop n' s'
  | S _, EmptyString => EmptyString
  end.

(** [s.replace(pat, '')] with a string pattern: the first occurrence of
    [pat] is removed, [s] is unchanged when there is none. *)
Fixpoint removeFirst (s pat : string) : string :=
  if String.prefix pat s then drop (String.length pat) s
  else match s with
       | EmptyString => EmptyString
       | String c s' => String c (removeFirst s' pat)
       end.

(** [s.replace(/,/g, '')] and [s.replace(/\s+/g, '')]: every character of
    the class is removed. *)
Fixpoint removeAll (p : ascii -> bool) (s : string) : string :=
  match s with
  | EmptyString => EmptyString
  | String c s' => if p c then removeAll p s' else String c (removeAll p s')
  end.

(** [s.charAt(0).toUpperCase() + s.slice(1)] *)
Definition capitalize (s : string) : string :=
  match s with
  | EmptyString => EmptyString
  | String c s' => String (upperChar c) s'
  end.

(** Decimal rendering of an integer, as a template literal does it. *)
Definition showZ (z : Z) : string :=
  DecimalString.NilZero.string_of_int (Z.to_int z).

(** [String(n).padStart(w, '0')] for a natural number. *)
Fixpoint zeros (n : nat) : string :=
  match n with
  | O => EmptyString
  | S n' => String "0" (zeros n')
  end.

Definition padZ (w : nat) (z : Z) : string :=
  let s := showZ z in zeros (w - String.length s) +:+ s.

(** The value of a digit character and of a run of digits. *)
Definition digitValue (c : ascii) : Z := Z.of_nat (nat_of_ascii c) - 48.

Fixpoint digitsValue (acc : Z) (s : string) : Z :=
  match s with
  | EmptyString => acc
  | String c s' => digitsValue (10 * acc + digitValue c) s'
  end.

(** The leading digits of a string and what follows them. *)
Fixpoint spanDigits (s : string) : string * string :=
  match s with
  | String c s' =>
      if isDigit c then let '(ds, rest) := spanDigits s' in (String c ds, rest)
      else (EmptyString, s)
  | EmptyString => (EmptyString, EmptyString)
  end.

(** The exponent part [e], [e+] or [e-] followed by digits, when the
    string starts with one. *)
Definition exponentPart (s : string) : Z :=
  match s with
  | String c r =>
      if Ascii.eqb (lowerChar c) "e" then
        let '(neg, r') :=
          match r with
          | String "-" r' => (true, r')
          | String "+" r' => (false, r')
          | _ => (false, r)
          end in
        let '(ds, _) := spanDigits r' in
        if (String.length ds =? 0)%nat then 0
        else if neg then - digitsValue 0 ds else digitsValue 0 ds
      else 0
  | EmptyString => 0
  end.

(** [parseFloat(s)]: leading white space is skipped and the longest prefix
    that is a decimal literal is read; [None] is NaN. The literal
    [Infinity] is outside the model. *)
Definition parseFloat (s : string) : option Q :=
  let s0 := trimStart s in
  let '(neg, s1) :=
    match s0 with
    | String "-" r => (true, r)
    | String "+" r => (false, r)
    | _ => (false, s0)
    end in
  let '(ip, s2) := spanDigits s1 in
  let '(fp, s3) :=
    match s2 with
    | String "." r => spanDigits r
    | _ => (EmptyString, s2)
    end in
  if ((String.length ip =? 0) && (String.length fp =? 0))%nat then None
  else
    let mantissa := Qmake (digitsValue 0 (ip +:+ fp))
                          (Z.to_pos (10 ^ Z.of_nat (String.length fp))) in
    let scaled := (mantissa * Qpower 10 (exponentPart s3))%Q in
    Some (if neg then - scaled else scaled)%Q.

End JS.

(** ** The Date object

    The time value of a [Date] is an integer number of milliseconds since
    1970-01-01T00:00:00Z. The calendar is the proleptic Gregorian one. Local
    time is the time value shifted by the zone offset [tz], in
    milliseconds; months and week days are numbered as [getMonth] and
    [getDay] number them (January is 0, Sunday is 0). *)

Module Date.

Definition msPerHour : Z := 3600000.
Definition msPerDay : Z := 86400000.

Definition Day (t : Z) : Z := t / msPerDay.
Definition TimeWithinDay (t : Z) : Z := t mod msPerDay.

(** Year, month (0 to 11) and day of the month of a day number. *)
Definition civil (d : Z) : Z * Z * Z :=
  let z := d + 719468 in
  let era := z / 146097 in
  let doe := z - era * 146097 in
  let yoe := (doe - doe / 1460 + doe / 36524 - doe / 146096) / 365 in
  let doy := doe - (365 * yoe + yoe / 4 - yoe / 100) in
  let mp := (5 * doy + 2) / 153 in
  let dom := doy - (153 * mp + 2) / 5 + 1 in
  let m := if mp <? 10 then mp + 2 else mp - 10 in
  let y := yoe + era * 400 in
  (if m <=? 1 then y + 1 else y, m, dom).

(** [MakeDay(year, month, date)]: the day number of a calendar date; the
    day of the month may lie outside the month. *)
Definition MakeDay (year month date : Z) : Z :=
  let y := if month <=? 1 then year - 1 else year in
  let era := y / 400 in
  let yoe := y - era * 400 in
  let mp := if month <=? 1 then month + 10 else month - 2 in
  let doy := (153 * mp + 2) / 5 in
  let doe := yoe * 365 + yoe / 4 - yoe / 100 + doy in
  era * 146097 + doe - 719468 + (date - 1).

Definition YearFromTime (t : Z) : Z := fst (fst (civil (Day t))).
Definition MonthFromTime (t : Z) : Z := snd (fst (civil (Day t))).
Definition DateFromTime (t : Z) : Z := snd (civil (Day t)).
Definition WeekDay (t : Z) : Z := (Day t + 4) mod 7.
Definition HourFromTime (t : Z) : Z := TimeWithinDay t / msPerHour.
Definition MinFromTime (t : Z) : Z := (TimeWithinDay t / 60000) mod 60.
Definition SecFromTime (t : Z) : Z := (TimeWithinDay t / 1000) mod 60.
Definition msFromTime (t : Z) : Z := t mod 1000.

Section Local.
(** Offset of local time from UTC, in milliseconds. *)
Variable tz : Z.

Definition LocalTime (t : Z) : Z := t + tz.
Definition UTC (l : Z) : Z := l - tz.

Definition getFullYear (t : Z) : Z := YearFromTime (LocalTime t).
Definition getMonth (t : Z) : Z := MonthFromTime (LocalTime t).
Definition getDate (t : Z) : Z := DateFromTime (LocalTime t).
Definition getDay (t : Z) : Z := WeekDay (LocalTime t).

(** [d.setHours(h)]: the hour is replaced, minutes, seconds and
    milliseconds are kept; [h] may be negative. *)
Definition setHours1 (t h : Z) : Z :=
  let l := LocalTime t in
  UTC (Day l * msPerDay + h * msPerHour + TimeWithinDay l mod msPerHour).

(** [d.setHours(h, m, s, ms)] *)
Definition setHours (t h m s ms : Z) : Z :=
  UTC (Day (LocalTime t) * msPerDay + h * msPerHour + m * 60000 + s * 1000 + ms).

(** [d.setDate(n)]: day [n] of the month of [d], same time of day. *)
Definition setDate (t n : Z) : Z :=
  let l := LocalTime t in
  UTC (MakeDay (YearFromTime l) (MonthFromTime l) n * msPerDay + TimeWithinDay l).

(** [new Date(0)] with [setFullYear(y, m, d)] and [setHours(0, 0, 0, 0)]:
    local midnight of a calendar date. *)
Definition localMidnight (y m d : Z) : Z := UTC (MakeDay y m d * msPerDay).

Definition dayName (wd : Z) : string :=
  nth (Z.to_nat wd) ["Sun"; "Mon"; "Tue"; "Wed"; "Thu"; "Fri"; "Sat"] "".

Definition monthName (m : Z) : string :=
  nth (Z.to_nat m)
    ["Jan"; "Feb"; "Mar"; "Apr"; "May"; "Jun";
     "Jul"; "Aug"; "Sep"; "Oct"; "Nov"; "Dec"] "".

(** [d.toDateString()], as in "Mon Dec 30 2024". *)
Definition toDateString (t : Z) : string :=
  let l := LocalTime t in
  let y := YearFromTime l in
  dayName (WeekDay l) +:+ " " +:+ monthName (MonthFromTime l) +:+ " "
  +:+ JS.padZ 2 (DateFromTime l) +:+ " "
  +:+ (if y <? 0 then "-" else "") +:+ JS.padZ 4 (Z.abs y).
End Local.

(** [d.toISOString()], as in "2024-12-30T18:30:00.000Z"; years outside
    0..9999 are written with a sign and six digits. *)
Definition toISOString (t : Z) : string :=
  let y := YearFromTime t in
  (if (0 <=? y) && (y <=? 9999) then JS.padZ 4 y
   else (if y <? 0 then "-" else "+") +:+ JS.padZ 6 (Z.abs y))
  +:+ "-" +:+ JS.padZ 2 (MonthFromTime t + 1)
  +:+ "-" +:+ JS.padZ 2 (DateFromTime t)
  +:+ "T" +:+ JS.padZ 2 (HourFromTime t)
  +:+ ":" +:+ JS.padZ 2 (MinFromTime t)
  +:+ ":" +:+ JS.padZ 2 (SecFromTime t)
  +:+ "." +:+ JS.padZ 3 (msFromTime t) +:+ "Z".

(** The time value of a UTC calendar instant, for writing examples. *)
Definition ofUTC (y m d hh mm : Z) : Z :=
  MakeDay y (m - 1) d * msPerDay + hh * msPerHour + mm * 60000.

End Date.

(** ** Numbers *)

Module Number.
(** [x > y] and [x >= y] on numbers. *)
Definition gt (x y : Q) : bool := negb (Qle_bool x y).
Definition ge (x y : Q) : bool := Qle_bool y x.

(** Truthiness of a number: zero is falsy. *)
Definition truthy (x : Q) : bool := negb (Qeq_bool x 0%Q).

(** [Math.round]: the nearest integer, halves upwards. *)
Definition round (x : Q) : Z := Qfloor (x + (1 # 2))%Q.

(** [Math.floor] *)
Definition floor (x : Q) : Z := Qfloor x.
End Number.

(** ** types.ts *)

Inductive TransactionCategory : Set :=
  | Groceries | Outings | BodyCare | Orders | Miscellaneous
  | Petrol | Bills | Savings | Other.

(** The string a member of the union type is at run time. *)
Definition categoryName (c : TransactionCategory) : string :=
  match c with
  | Groceries => "Groceries"
  | Outings => "Outings"
  | BodyCare => "BodyCare"
  | Orders => "Orders"
  | Miscellaneous => "Miscellaneous"
  | Petrol => "Petrol"
  | Bills => "Bills"
  | Savings => "Savings"
  | Other => "Other"
  end.

Definition category_eqb (a b : TransactionCategory) : bool :=
  String.eqb (categoryName a) (categoryName b).

(** The field [date] of a transaction holds the [toISOString] rendering of
    an instant (App.tsx writes [parsed.date.toISOString()]); the model keeps
    the instant, [dateString] is the stored text. *)
Module Transaction.
Record t : Type := mk {
  id : string;
  amount : Q;
  category : TransactionCategory;
  description : string;
  date : Z;
  timestamp : Z
}.
Definition dateString (tx : t) : string := Date.toISOString (date tx).
End Transaction.

(** [weeklyCategoryLimits] is an object keyed by category; the association
    list keeps its keys in insertion order, as [Object.keys] lists them. The
    field is absent from the budgets BudgetSetup creates. *)
Module BudgetAllocations.
Record t : Type := mk {
  weeklyLimit : Q;
  monthlyLimit : Q;
  savingsTarget : Q;
  weeklyCategoryLimits : option (list (TransactionCategory * Q))
}.
End BudgetAllocations.

Module BudgetState.
Record t : Type := mk {
  monthlyIncome : Q;
  allocations : BudgetAllocations.t;
  isSet : bool
}.
End BudgetState.

Inductive BudgetBucket : Set := Weekly | Monthly | SavingsBucket.

Definition bucket_eqb (a b : BudgetBucket) : bool :=
  match a, b with
  | Weekly, Weekly | Monthly, Monthly | SavingsBucket, SavingsBucket => true
  | _, _ => false
  end.

Definition CATEGORY_BUCKET_MAP (c : TransactionCategory) : BudgetBucket :=
  match c with
  | Groceries => Weekly
  | Outings => Weekly
  | BodyCare => Weekly
  | Orders => Weekly
  | Miscellaneous => Weekly
  | Petrol => Weekly
  | Other => Weekly
  | Bills => Monthly
  | Savings => SavingsBucket
  end.

Module HistoryMeta.
Record t : Type := mk {
  lastActiveWeek : string;
  lastActiveMonth : string
}.
End HistoryMeta.

(** [obj[key]] on an object kept as an association list. *)
Fixpoint lookupCategory {A : Type} (o : list (TransactionCategory * A))
    (key : TransactionCategory) : option A :=
  match o with
  | [] => None
  | (k, v) :: o' => if category_eqb k key then Some v else lookupCategory o' key
  end.

(** [transactions.reduce((sum, t) => sum + t.amount, 0)] *)
Definition sumAmounts (transactions : list Transaction.t) : Q :=
  fold_left (fun sum t => sum + Transaction.amount t)%Q transactions 0%Q.

(** ** utils/date.ts *)

Section DateUtils.
Variable tz : Z.

(** The inner [getMonday] of [isSameWeek]: Sunday counts as day 7, the
    hour is set back by 24 hours for each day after Monday, and the
    calendar date that results is rendered. The result of [isSameWeek] is
    the comparison of the two renderings; the clones [d1] and [d2] that
    the function also moves to their Mondays do not reach it. *)
Definition getMonday (d : Z) : string :=
  let day := if Date.getDay tz d =? 0 then 7 else Date.getDay tz d in
  let date := if negb (day =? 1) then Date.setHours1 tz d (-24 * (day - 1)) else d in
  Date.toDateString tz date.

Definition isSameWeek (date1 date2 : Z) : bool :=
  String.eqb (getMonday date1) (getMonday date2).
End DateUtils.

(** ** utils/alerts.ts *)

Inductive AlertType : Set := success | warning | critical.

Module AlertItem.
Record t : Type := mk {
  id : string;
  type : AlertType;
  title : string;
  message : string
}.
End AlertItem.

Section Alerts.
Variable tz : Z.
(** The text a template literal inserts for a number. *)
Variable show : Q -> string.

Definition percentOf (spent limit : Q) : string :=
  JS.showZ (Number.round ((spent / limit) * 100)%Q).

Definition todayStr (now : Z) : string :=
  hd "" (JS.splitOn (Ascii.eqb "T") (Date.toISOString now)).

Definition currentMonthStr (now : Z) : string :=
  String.substring 0 7 (todayStr now).

Definition weeklyBucketTotal (now : Z) (transactions : list Transaction.t) : Q :=
  sumAmounts
    (List.filter
       (fun t => isSameWeek tz (Transaction.date t) now
                 && bucket_eqb (CATEGORY_BUCKET_MAP (Transaction.category t)) Weekly)
       transactions).

Definition monthlyBucketTotal (now : Z) (transactions : list Transaction.t) : Q :=
  sumAmounts
    (List.filter
       (fun t =>
          let isThisMonth := JS.startsWith (Transaction.dateString t) (currentMonthStr now) in
          isThisMonth && bucket_eqb (CATEGORY_BUCKET_MAP (Transaction.category t)) Monthly)
       transactions).

Definition currentSavings (budget : BudgetState.t) (transactions : list Transaction.t) : Q :=
  (BudgetState.monthlyIncome budget - sumAmounts transactions)%Q.

Definition catSpent (now : Z) (transactions : list Transaction.t)
    (cat : TransactionCategory) : Q :=
  sumAmounts
    (List.filter
       (fun t => isSameWeek tz (Transaction.date t) now
                 && category_eqb (Transaction.category t) cat)
       transactions).

(** The alerts of the weekly spending limit. *)
Definition weeklyAlerts (now : Z) (budget : BudgetState.t)
    (transactions : list Transaction.t) : list AlertItem.t :=
  let total := weeklyBucketTotal now transactions in
  let weeklyLimit := BudgetAllocations.weeklyLimit (BudgetState.allocations budget) in
  if Number.gt weeklyLimit 0%Q then
    if Number.gt total weeklyLimit then
      [ AlertItem.mk
          ("weekly-critical-" +:+ todayStr now)
          critical
          "Weekly Limit Exceeded"
          ("You've spent ₹" +:+ show total +:+ " / ₹" +:+ show weeklyLimit
           +:+ " this week.") ]
    else if Number.ge total (weeklyLimit * (8 # 10))%Q then
      [ AlertItem.mk
          ("weekly-warning-" +:+ todayStr now)
          warning
          "Approaching Weekly Limit"
          ("You've used " +:+ percentOf total weeklyLimit
           +:+ "% of your weekly limit (₹" +:+ show total +:+ " / ₹"
           +:+ show weeklyLimit +:+ ").") ]
    else []
  else [].

(** The body of the [forEach] over the keys of the category limits. *)
Definition categoryAlert (now : Z) (transactions : list Transaction.t)
    (categoryLimits : list (TransactionCategory * Q))
    (cat : TransactionCategory) : list AlertItem.t :=
  let limit := match lookupCategory categoryLimits cat with
               | Some l => if Number.truthy l then l else 0%Q
               | None => 0%Q
               end in
  if Qle_bool limit 0%Q then []
  else
    let spent := catSpent now transactions cat in
    if Number.gt spent limit then
      [ AlertItem.mk
          ("weekly-cat-critical-" +:+ categoryName cat +:+ "-" +:+ todayStr now)
          critical
          (categoryName cat +:+ " Limit Exceeded")
          ("You've spent ₹" +:+ show spent +:+ " on " +:+ categoryName cat
           +:+ ", exceeding your ₹" +:+ show limit +:+ " limit.") ]
    else if Number.ge spent (limit * (8 # 10))%Q then
      [ AlertItem.mk
          ("weekly-cat-warning-" +:+ categoryName cat +:+ "-" +:+ todayStr now)
          warning
          (categoryName cat +:+ " Budget Low")
          ("You've used " +:+ percentOf spent limit +:+ "% of your "
           +:+ categoryName cat +:+ " budget.") ]
    else [].

Definition categoryAlerts (now : Z) (budget : BudgetState.t)
    (transactions : list Transaction.t) : list AlertItem.t :=
  let categoryLimits :=
    match BudgetAllocations.weeklyCategoryLimits (BudgetState.allocations budget) with
    | Some o => o
    | None => []
    end in
  flat_map (categoryAlert now transactions categoryLimits) (map fst categoryLimits).

(** The alerts of the monthly expense limit. *)
Definition monthlyAlerts (now : Z) (budget : BudgetState.t)
    (transactions : list Transaction.t) : list AlertItem.t :=
  let total := monthlyBucketTotal now transactions in
  let monthlyLimit := BudgetAllocations.monthlyLimit (BudgetState.allocations budget) in
  if Number.gt monthlyLimit 0%Q then
    if Number.gt total monthlyLimit then
      [ AlertItem.mk
          ("monthly-critical-" +:+ currentMonthStr now)
          critical
          "Monthly Expense Limit Exceeded"
          ("Monthly bills/expenses are ₹" +:+ show total +:+ ", exceeding the ₹"
           +:+ show monthlyLimit +:+ " limit.") ]
    else if Number.ge total (monthlyLimit * (8 # 10))%Q then
      [ AlertItem.mk
          ("monthly-warning-" +:+ currentMonthStr now)
          warning
          "Approaching Monthly Expense Limit"
          ("You've used " +:+ percentOf total monthlyLimit
           +:+ "% of your monthly expense limit.") ]
    else []
  else [].

(** The alerts of the savings goal. *)
Definition savingsAlerts (now : Z) (budget : BudgetState.t)
    (transactions : list Transaction.t) : list AlertItem.t :=
  let savings := currentSavings budget transactions in
  let savingsTarget := BudgetAllocations.savingsTarget (BudgetState.allocations budget) in
  if Number.gt savingsTarget 0%Q then
    if Number.ge savings savingsTarget then
      [ AlertItem.mk
          ("savings-success-" +:+ currentMonthStr now)
          success
          "Savings Goal Reached! 🎉"
          ("You have ₹" +:+ show savings +:+ " saved, meeting your ₹"
           +:+ show savingsTarget +:+ " goal.") ]
    else
      [ AlertItem.mk
          ("savings-warning-" +:+ currentMonthStr now)
          warning
          "Savings Below Goal"
          ("Current savings (₹" +:+ show savings +:+ ") are below your target (₹"
           +:+ show savingsTarget +:+ "). Reduce spending to recover.") ]
  else [].

(** [generateAlerts(budget, transactions)], evaluated at the instant
    [now]: the four groups are pushed in this order. *)
Definition generateAlerts (now : Z) (budget : BudgetState.t)
    (transactions : list Transaction.t) : list AlertItem.t :=
  weeklyAlerts now budget transactions
  ++ categoryAlerts now budget transactions
  ++ monthlyAlerts now budget transactions
  ++ savingsAlerts now budget transactions.
End Alerts.

(** *** Reading a list of alerts

    An alert belongs to a limit by its identifier: the two identifiers
    under which [generateAlerts] reports on the limit. *)

Definition weeklyLimitIds (now : Z) : list string :=
  [ "weekly-critical-" +:+ todayStr now; "weekly-warning-" +:+ todayStr now ].

Definition categoryLimitIds (now : Z) (cat : TransactionCategory) : list string :=
  [ "weekly-cat-critical-" +:+ categoryName cat +:+ "-" +:+ todayStr now;
    "weekly-cat-warning-" +:+ categoryName cat +:+ "-" +:+ todayStr now ].

Definition monthlyLimitIds (now : Z) : list string :=
  [ "monthly-critical-" +:+ currentMonthStr now;
    "monthly-warning-" +:+ currentMonthStr now ].

(** The list holds an alert of severity [ty] for the limit [ids]. *)
Definition emits (alerts : list AlertItem.t) (ids : list string) (ty : AlertType) : Prop :=
  exists a, In a alerts /\ In (AlertItem.id a) ids /\ AlertItem.type a = ty.

(** The threshold rule of a spend limit: critical exactly above the
    limit, warning exactly from 80% of the limit up to the limit. *)
Definition thresholdRule (alerts : list AlertItem.t) (ids : list string)
    (limit spend : Q) : Prop :=
  (emits alerts ids critical <-> (limit < spend)%Q)
  /\ (emits alerts ids warning <->
       ((80 # 100) * limit <= spend)%Q /\ ~ (limit < spend)%Q).

(** A savings alert is one whose identifier starts with [savings-]. *)
Definition isSavingsAlert (a : AlertItem.t) : bool :=
  JS.startsWith (AlertItem.id a) "savings-".

(** The sum of the amounts of a list of transactions, as a sum is
    written: the amount of each transaction, added up. *)
Definition totalOf (transactions : list Transaction.t) : Q :=
  fold_right Qplus 0%Q (map Transaction.amount transactions).

(** The transaction with another date. *)
Definition redated (d : Z) (t : Transaction.t) : Transaction.t :=
  Transaction.mk (Transaction.id t) (Transaction.amount t) (Transaction.category t)
    (Transaction.description t) d (Transaction.timestamp t).

(** The test of [monthlyBucketTotal] on the date alone: the stored date
    starts with the current month. *)
Definition isThisMonth (now : Z) (t : Transaction.t) : bool :=
  JS.startsWith (Transaction.dateString t) (currentMonthStr now).

Definition inMonthlyBucket (t : Transaction.t) : bool :=
  bucket_eqb (CATEGORY_BUCKET_MAP (Transaction.category t)) Monthly.

(** ** components/Dashboard.tsx *)

Module Dashboard.

(** The figure of the Monthly Expenses card. *)
Definition monthlyBucketSpent (transactions : list Transaction.t) : Q :=
  sumAmounts
    (List.filter
       (fun t => bucket_eqb (CATEGORY_BUCKET_MAP (Transaction.category t)) Monthly)
       transactions).

(** The total and the balance shown in the header. *)
Definition totalSpent (transactions : list Transaction.t) : Q :=
  fold_left (fun acc t => acc + Transaction.amount t)%Q transactions 0%Q.

Definition remainingTotal (budget : BudgetState.t)
    (transactions : list Transaction.t) : Q :=
  (BudgetState.monthlyIncome budget - totalSpent transactions)%Q.

(** The local state of the inline editor. *)
Record EditState : Type := mkEdit {
  editing : option BudgetBucket;
  editValue : string
}.

(** What a call of a handler does: the editor state it leaves, the
    budget it passes to [onUpdateBudget] if it calls it, and the message
    it shows with [alert] if it shows one. *)
Record Outcome : Type := mkOutcome {
  edit : EditState;
  updated : option BudgetState.t;
  alerted : option string
}.

Section Handlers.
Variable show : Q -> string.

Definition handleStartEdit (key : BudgetBucket) (currentVal : Q) : EditState :=
  mkEdit (Some key) (show currentVal).

Definition handleSaveEdit (st : EditState) (budget : BudgetState.t) : Outcome :=
  match editing st with
  | None => mkOutcome st None None
  | Some key =>
      match JS.parseFloat (editValue st) with
      | Some val =>
          if Number.ge val 0%Q then
            if bucket_eqb key SavingsBucket
               && Number.gt val (BudgetState.monthlyIncome budget) then
              mkOutcome
                (mkEdit None
                   (show (BudgetAllocations.savingsTarget
                            (BudgetState.allocations budget))))
                None
                (Some ("Savings goal cannot exceed monthly income (₹"
                       +:+ show (BudgetState.monthlyIncome budget) +:+ ")"))
            else
              let a := BudgetState.allocations budget in
              let newAllocations :=
                BudgetAllocations.mk
                  (if bucket_eqb key Weekly then val
                   else BudgetAllocations.weeklyLimit a)
                  (if bucket_eqb key Monthly then val
                   else BudgetAllocations.monthlyLimit a)
                  (if bucket_eqb key SavingsBucket then val
                   else BudgetAllocations.savingsTarget a)
                  (BudgetAllocations.weeklyCategoryLimits a) in
              mkOutcome
                (mkEdit None (editValue st))
                (Some (BudgetState.mk (BudgetState.monthlyIncome budget)
                                      newAllocations
                                      (BudgetState.isSet budget)))
                None
          else mkOutcome (mkEdit None (editValue st)) None None
      | None => mkOutcome (mkEdit None (editValue st)) None None
      end
  end.
End Handlers.

End Dashboard.

(** ** components/BudgetSetup.tsx *)

Module BudgetSetup.

Inductive AllocationKey : Set := weeklyLimit | monthlyLimit | savingsTarget.

(** The state of the form: the text of the income field and the three
    allocations. *)
Record State : Type := mk {
  income : string;
  allocWeekly : Q;
  allocMonthly : Q;
  allocSavings : Q
}.

Definition initial : State := mk "" 0 0 0.

Definition handleIncomeChange (st : State) (val : string) : State :=
  match JS.parseFloat val with
  | Some num =>
      if Number.gt num 0%Q then
        mk val
           (inject_Z (Number.floor ((num * (3 # 10)) / 4)%Q))
           (inject_Z (Number.floor (num * (5 # 10))%Q))
           (inject_Z (Number.floor (num * (2 # 10))%Q))
      else mk val (allocWeekly st) (allocMonthly st) (allocSavings st)
  | None => mk val (allocWeekly st) (allocMonthly st) (allocSavings st)
  end.

Definition handleAllocationChange (st : State) (key : AllocationKey)
    (val : string) : State :=
  let num := match JS.parseFloat val with Some n => n | None => 0%Q end in
  match key with
  | weeklyLimit => mk (income st) num (allocMonthly st) (allocSavings st)
  | monthlyLimit => mk (income st) (allocWeekly st) num (allocSavings st)
  | savingsTarget => mk (income st) (allocWeekly st) (allocMonthly st) num
  end.

Definition totalAllocated (st : State) : Q :=
  ((allocWeekly st * 4) + allocMonthly st + allocSavings st)%Q.

Definition incomeNum (st : State) : Q :=
  match JS.parseFloat (income st) with
  | Some n => if Number.truthy n then n else 0%Q
  | None => 0%Q
  end.

Definition remaining (st : State) : Q := (incomeNum st - totalAllocated st)%Q.

Definition isValid (st : State) : bool :=
  Number.gt (incomeNum st) 0%Q && Number.gt (allocWeekly st) 0%Q.

(** [handleSubmit]: the budget passed to [onComplete], if it is called.
    The allocations object of the form has no [weeklyCategoryLimits]. *)
Definition handleSubmit (st : State) : option BudgetState.t :=
  if isValid st then
    Some (BudgetState.mk (incomeNum st)
            (BudgetAllocations.mk (allocWeekly st) (allocMonthly st)
               (allocSavings st) None)
            true)
  else None.

End BudgetSetup.

(** ** App.tsx: the budget held by the application *)

Module App.
(** [handleBudgetComplete], which BudgetSetup calls as [onComplete] and
    Dashboard as [onUpdateBudget]: the budget is replaced. *)
Definition handleBudgetComplete (budget newBudget : BudgetState.t) : BudgetState.t :=
  newBudget.
End App.

(** ** Regular expressions

    A backtracking matcher in the style of the language definition: a
    pattern run at a position gives the positions where a match of it can
    end, in the order in which backtracking tries them. The first one is
    the match [String.prototype.match] reports. *)

Module Regex.

Inductive t : Type :=
  | Eps                              (* the empty pattern *)
  | Class (p : ascii -> bool)        (* one character of a class *)
  | Seq (r1 r2 : t)                  (* r1 r2 *)
  | Alt (r1 r2 : t)                  (* r1|r2, r1 is tried first *)
  | Star (r : t)                     (* r*, greedy *)
  | Group (r : t)                    (* (r), the capturing group 1 *)
  | WordBoundary.                    (* \b *)

(** [r?] and [r+], greedy. *)
Definition Opt (r : t) : t := Alt r Eps.
Definition Plus (r : t) : t := Seq r (Star r).

(** A literal character under the flag [i]. *)
Definition Chr (c : ascii) : t :=
  Class (fun x => Ascii.eqb (JS.lowerChar x) (JS.lowerChar c)).

Fixpoint Lit (s : string) : t :=
  match s with
  | EmptyString => Eps
  | String c s' => Seq (Chr c) (Lit s')
  end.

(** A position in the input: the character before it, the text after
    it, and what group 1 has captured so far. *)
Record pos : Type := mkPos {
  prev : option ascii;
  rest : string;
  cap : option string
}.

Fixpoint take (n : nat) (s : string) : string :=
  match n, s with
  | S n', String c s' => String c (take n' s')
  | _, _ => EmptyString
  end.

(** The text between a position and a later one. *)
Definition between (p q : pos) : string :=
  take (String.length (rest p) - String.length (rest q)) (rest p).

Definition isWordAt (c : option ascii) : bool :=
  match c with
  | Some x => JS.isWordChar x
  | None => false
  end.

Definition next (p : pos) : option ascii :=
  match rest p with
  | String c _ => Some c
  | EmptyString => None
  end.

Definition atBoundary (p : pos) : bool :=
  xorb (isWordAt (prev p)) (isWordAt (next p)).

(** Greedy iteration: one more round of [f] that consumes something and
    then the iteration again, before stopping here. [n] bounds the
    number of rounds; the length of the remaining text is enough. *)
Fixpoint iterate (n : nat) (f : pos -> list pos) (p : pos) : list pos :=
  match n with
  | O => [p]
  | S n' =>
      flat_map
        (fun q =>
           if (String.length (rest q) <? String.length (rest p))%nat
           then iterate n' f q else [])
        (f p)
      ++ [p]
  end.

Fixpoint run (r : t) (p : pos) : list pos :=
  match r with
  | Eps => [p]
  | Class c =>
      match rest p with
      | String x s => if c x then [mkPos (Some x) s (cap p)] else []
      | EmptyString => []
      end
  | Seq r1 r2 => flat_map (run r2) (run r1 p)
  | Alt r1 r2 => run r1 p ++ run r2 p
  | Star r' => iterate (String.length (rest p)) (run r') p
  | Group r' =>
      map (fun q => mkPos (prev q) (rest q) (Some (between p q))) (run r' p)
  | WordBoundary => if atBoundary p then [p] else []
  end.

(** The result of a successful match: the matched text and group 1. *)
Record result : Type := mkResult {
  matched : string;
  group1 : option string
}.

(** The match that starts at the position after [before], if any. *)
Definition matchAt (r : t) (before : option ascii) (s : string) : option result :=
  let p := mkPos before s None in
  match run r p with
  | q :: _ => Some (mkResult (between p q) (cap q))
  | [] => None
  end.

(** [s.match(r)] without the flag [g]: the start positions are tried
    from left to right, the end of the text included. *)
Fixpoint searchFrom (r : t) (before : option ascii) (s : string) : option result :=
  match matchAt r before s with
  | Some m => Some m
  | None =>
      match s with
      | String c s' => searchFrom r (Some c) s'
      | EmptyString => None
      end
  end.

Definition exec (r : t) (s : string) : option result := searchFrom r None s.

End Regex.

(** ** utils/parser.ts *)

Module ParsedExpense.
Record t : Type := mk {
  amount : option Q;
  category : option TransactionCategory;
  description : string;
  date : Z
}.
End ParsedExpense.

Section Parser.
Variable tz : Z.

Import Regex.

(** The amount pattern
    [/(?:rs\.?|₹)?\s*(\d+(?:,\d+)*(?:\.\d{1,2})?)\b/i], by its parts:
    [rs\.?|₹], [\d+] and [\d+(?:,\d+)*(?:\.\d{1,2})?]. *)
Definition currencyMarker : Regex.t :=
  Alt (Seq (Lit "rs") (Opt (Chr "."))) (Lit "₹").

Definition digits : Regex.t := Plus (Class JS.isDigit).

Definition numberPattern : Regex.t :=
  Seq digits
 (Seq (Star (Seq (Chr ",") digits))
      (Opt (Seq (Chr ".") (Seq (Class JS.isDigit) (Opt (Class JS.isDigit)))))).

Definition amountRegex : Regex.t :=
  Seq (Opt currencyMarker)
 (Seq (Star (Class JS.isSpace))
 (Seq (Group numberPattern)
      WordBoundary)).

(** The keyword table, in the order [Object.entries] lists it. *)
Definition keywords : list (TransactionCategory * list string) :=
  [ (Groceries, ["groceries"; "grocery"; "vegetables"; "fruits"; "milk"; "bread";
                 "market"; "supermarket"; "food"; "ration"]);
    (Outings, ["outings"; "outing"; "restaurant"; "cafe"; "coffee"; "tea"; "dinner";
               "lunch"; "breakfast"; "movie"; "cinema"; "concert"; "uber"; "ola";
               "cab"; "taxi"; "hotel"; "trip"; "party"; "fun"]);
    (BodyCare, ["body care"; "bodycare"; "personal care"; "salon"; "spa"; "haircut";
                "gym"; "medicine"; "pharmacy"; "doctor"; "hospital"; "cream"; "soap";
                "shampoo"; "conditioner"; "lotion"; "face wash"; "skincare"; "makeup";
                "cosmetics"; "medical"; "health"; "toothbrush"; "paste"]);
    (Orders, ["orders"; "order"; "amazon"; "flipkart"; "meesho"; "myntra"; "zomato";
              "swiggy"; "blinkit"; "zepto"; "online"; "delivery"]);
    (Petrol, ["petrol"; "diesel"; "fuel"; "gas"; "shell"; "hp"; "station"; "pump"]);
    (Miscellaneous, ["miscellaneous"; "misc"; "gift"; "donation"; "other"; "random"]);
    (Bills, ["bills"; "bill"; "electricity"; "rent"; "wifi"; "internet"; "recharge";
             "subscription"; "mobile"; "water"; "fee"; "utility"]);
    (Savings, ["save"; "savings"; "invest"; "mutual fund"; "sip"; "deposit"]);
    (Other, []) ].

(** The loop over the table: the first entry one of whose words occurs
    in the text. *)
Fixpoint scanKeywords (table : list (TransactionCategory * list string))
    (lowerText : string) : option TransactionCategory :=
  match table with
  | [] => None
  | (cat, words) :: table' =>
      if existsb (fun word => JS.includes lowerText word) words then Some cat
      else scanKeywords table' lowerText
  end.

Definition amountTruthy (amount : option Q) : bool :=
  match amount with
  | Some a => Number.truthy a
  | None => false
  end.

Definition parseExpenseInput (now : Z) (text : string) : ParsedExpense.t :=
  let lowerText := JS.toLowerCase text in
  (* 1. Extract Amount *)
  let amountMatch := Regex.exec amountRegex lowerText in
  let amount :=
    match amountMatch with
    | Some m =>
        JS.parseFloat
          (JS.removeAll (Ascii.eqb ",")
             (match group1 m with Some g => g | None => EmptyString end))
    | None => None
    end in
  (* 2. Extract Category *)
  let category := scanKeywords keywords lowerText in
  let category :=
    match category with
    | None => if amountTruthy amount then Some Miscellaneous else None
    | Some c => Some c
    end in
  (* 3. Extract Date *)
  let date :=
    if JS.includes lowerText "yesterday"
    then Date.setDate tz now (Date.getDate tz now - 1)
    else now in
  (* 4. Clean Description *)
  let description :=
    match amountMatch with
    | Some m => JS.trim (JS.removeFirst text (matched m))
    | None => text
    end in
  let description :=
    if (String.length description =? 0)%nat then
      match category with
      | Some c => categoryName c +:+ " expense"
      | None => "Expense"
      end
    else description in
  ParsedExpense.mk amount category (JS.capitalize description) date.

Definition isSeparator (c : ascii) : bool :=
  Ascii.eqb c "," || Ascii.eqb c "010".

Definition hasAmount (item : ParsedExpense.t) : bool :=
  match ParsedExpense.amount item with
  | Some _ => true
  | None => false
  end.

Definition parseMultipleExpenses (now : Z) (text : string) : list ParsedExpense.t :=
  let chunks :=
    List.filter (fun c => (0 <? String.length c)%nat)
      (map JS.trim (JS.splitOn isSeparator text)) in
  let results := List.filter hasAmount (map (parseExpenseInput now) chunks) in
  if (List.length results =? 0)%nat then
    let single := parseExpenseInput now text in
    if amountTruthy (ParsedExpense.amount single) then [single] else []
  else results.
End Parser.

(** *** Where the amount pattern can match

    A digit that ends a word: it is followed by the end of the text or by
    a character that is not a word character. Every match of
    [amountRegex] ends at such a digit. *)

Definition headOf (s : string) : option ascii :=
  match s with
  | String c _ => Some c
  | EmptyString => None
  end.

Fixpoint hasDigitBoundary (s : string) : bool :=
  match s with
  | String c s' =>
      (JS.isDigit c && negb (Regex.isWordAt (headOf s'))) || hasDigitBoundary s'
  | EmptyString => false
  end.

(** The last character of a text, [before] when it is empty. *)
Fixpoint lastOr (before : option ascii) (s : string) : option ascii :=
  match s with
  | EmptyString => before
  | String c s' => lastOr (Some c) s'
  end.

(** [q] is reached from [p] by consuming the text [u]. *)
Definition reach (p q : Regex.pos) (u : string) : Prop :=
  Regex.rest p = u +:+ Regex.rest q /\ Regex.prev q = lastOr (Regex.prev p) u.

(** The character before the position is a digit. *)
Definition endsDigit (q : Regex.pos) : Prop :=
  exists d, Regex.prev q = Some d /\ JS.isDigit d = true.

(** *** Reading the keyword table

    What the specification says of the category scan, in its words: a
    keyword occurs somewhere in the lowercased text, and the first entry
    of the table with such a keyword wins. *)

Definition occursIn (w s : string) : Prop :=
  exists a b, s = a +:+ w +:+ b.

Definition matchesEntry (lowerText : string)
    (entry : TransactionCategory * list string) : Prop :=
  exists w, In w (snd entry) /\ occursIn w lowerText.

Definition firstMatch (table : list (TransactionCategory * list string))
    (lowerText : string) (c : TransactionCategory) : Prop :=
  exists before words after,
    table = (before ++ (c, words) :: after)%list
    /\ matchesEntry lowerText (c, words)
    /\ Forall (fun entry => ~ matchesEntry lowerText entry) before.

(** ** utils/groq.ts *)

Module Groq.

(** The values of the language that [JSON.parse] builds, and
    [undefined], which reading an absent property gives. An object is
    the list of its own properties. *)
#[warnings="-register-all"]
Inductive value : Type :=
  | VUndefined
  | VNull
  | VBool (b : bool)
  | VNum (n : Q)
  | VStr (s : string)
  | VArr (items : list value)
  | VObj (fields : list (string * value)).

Fixpoint ownProperty (fields : list (string * value)) (name : string) : option value :=
  match fields with
  | [] => None
  | (k, v) :: fields' => if String.eqb k name then Some v else ownProperty fields' name
  end.

(** [v.name] for the names read in this file ([expenses], [amount],
    [category], [description], [date]), which no prototype defines:
    reading from [undefined] or [null] throws ([None]), an absent
    property is [undefined]. *)
Definition get (v : value) (name : string) : option value :=
  match v with
  | VUndefined | VNull => None
  | VObj fields =>
      Some (match ownProperty fields name with Some x => x | None => VUndefined end)
  | _ => Some VUndefined
  end.

Definition truthy (v : value) : bool :=
  match v with
  | VUndefined | VNull => false
  | VBool b => b
  | VNum n => Number.truthy n
  | VStr s => negb (String.eqb s "")
  | VArr _ | VObj _ => true
  end.

(** [a || b] *)
Definition orElse (a b : value) : value := if truthy a then a else b.

(** The properties every object inherits from [Object.prototype]. *)
Definition objectPrototype : list string :=
  [ "constructor"; "__defineGetter__"; "__defineSetter__"; "hasOwnProperty";
    "__lookupGetter__"; "__lookupSetter__"; "isPrototypeOf";
    "propertyIsEnumerable"; "toString"; "valueOf"; "__proto__";
    "toLocaleString" ].

(** What [CATEGORY_MAP[key]] can be: a category of the table, or a
    member of [Object.prototype] when the key names one. *)
Inductive Normalized : Type :=
  | Enum (c : TransactionCategory)
  | Inherited (name : string).

(** The normalization table. *)
Definition CATEGORY_MAP : gmap string TransactionCategory :=
  list_to_map
    [ ("Groceries", Groceries); ("Grocery", Groceries); ("Food", Groceries);
      ("Outings", Outings); ("Outing", Outings); ("Restaurant", Outings);
      ("Entertainment", Outings);
      ("BodyCare", BodyCare); ("Body Care", BodyCare);
      ("Personal Care", BodyCare); ("Health", BodyCare);
      ("Orders", Orders); ("Order", Orders); ("Shopping", Orders);
      ("Petrol", Petrol); ("Fuel", Petrol); ("Transport", Petrol);
      ("Miscellaneous", Miscellaneous); ("Misc", Miscellaneous);
      ("Bills", Bills);
      ("Savings", Savings);
      ("Other", Other) ].

(** [CATEGORY_MAP[key]]: [None] is [undefined]; every other result is
    truthy. *)
Definition lookupMap (key : string) : option Normalized :=
  match CATEGORY_MAP !! key with
  | Some c => Some (Enum c)
  | None =>
      if existsb (String.eqb key) objectPrototype then Some (Inherited key)
      else None
  end.

(** The date of a candidate: [new Date(...)] may be invalid. *)
Inductive DateValue : Type :=
  | InvalidDate
  | At (t : Z).

(** The objects the function returns. Their declared type is
    ParsedExpense, which is not checked at run time: the fields hold
    whatever the expressions of the [map] callback evaluate to. *)
Record Candidate : Type := mkCandidate {
  amount : value;
  category : Normalized;
  description : value;
  date : DateValue
}.

(** What awaiting the completion and [JSON.parse] give: a failure (the
    request rejects, there is no content, or the content is not JSON),
    or the parsed value. *)
Inductive Reply : Type :=
  | Failed
  | Parsed (result : value).

Section Adapter.
Variable show : Q -> string.
(** [new Date(v)] for a truthy value: [None] when the conversion
    throws. *)
Variable newDate : value -> option DateValue.
Variable now : Z.

(** [Array.prototype.join] with a comma: [undefined] and [null] are
    the empty string. *)
Fixpoint joinWith (f : value -> option string) (items : list value) : option string :=
  match items with
  | [] => Some ""
  | x :: items' =>
      e ← match x with
          | VUndefined | VNull => Some ""
          | _ => f x
          end;
      match items' with
      | [] => Some e
      | _ => r ← joinWith f items'; Some (e +:+ "," +:+ r)
      end
  end.

(** [ToPropertyKey] of a value: [None] when the conversion throws
    (an object whose own [toString] is not a function). *)
Fixpoint toPropertyKey (v : value) : option string :=
  match v with
  | VUndefined => Some "undefined"
  | VNull => Some "null"
  | VBool true => Some "true"
  | VBool false => Some "false"
  | VNum n => Some (show n)
  | VStr s => Some s
  | VArr items => joinWith toPropertyKey items
  | VObj fields =>
      match ownProperty fields "toString" with
      | Some _ => None
      | None => Some "[object Object]"
      end
  end.

(** [CATEGORY_MAP[rawCat] || CATEGORY_MAP[rawCat.replace(/\s+/g, '')]
    || 'Miscellaneous']: only a string has a [replace] method, the
    second lookup throws for anything else. *)
Definition normalize (rawCat : value) : option Normalized :=
  key ← toPropertyKey rawCat;
  match lookupMap key with
  | Some c => Some c
  | None =>
      match rawCat with
      | VStr s =>
          match lookupMap (JS.removeAll JS.isSpace s) with
          | Some c => Some c
          | None => Some (Enum Miscellaneous)
          end
      | _ => None
      end
  end.

(** The callback of [expenses.map]: [None] when it throws. *)
Definition toCandidate (input : string) (item : value) : option Candidate :=
  cat ← get item "category";
  let rawCat := orElse cat (VStr "Miscellaneous") in
  normalizedCat ← normalize rawCat;
  amt ← get item "amount";
  desc ← get item "description";
  d ← get item "date";
  when ← (if truthy d then newDate d else Some (At now));
  Some (mkCandidate amt normalizedCat (orElse desc (VStr input)) when).

(** [e.amount !== null] *)
Definition amountNotNull (e : Candidate) : bool :=
  match amount e with
  | VNull => false
  | _ => true
  end.

Definition parseExpenseWithAI (input : string) (reply : Reply) : list Candidate :=
  if String.eqb input "" || (String.length (JS.trim input) <? 3)%nat then []
  else
    match reply with
    | Failed => []
    | Parsed result =>
        match get result "expenses" with
        | None => []
        | Some e =>
            let expenses := match e with VArr items => items | _ => [] end in
            match mapM (toCandidate input) expenses with
            | Some candidates => List.filter amountNotNull candidates
            | None => []
            end
        end
    end.
End Adapter.

End Groq.

(** ** date-fns

    The functions of the library that services/time.ts calls, after the
    library's own definitions; all of them read the local time. *)

Module DateFns.
Section Local.
Variable tz : Z.

Definition MILLISECONDS_IN_WEEK : Z := 604800000.

Definition getYear (date : Z) : Z := Date.getFullYear tz date.

(** [startOfWeek(date, { weekStartsOn: 1 })] *)
Definition startOfISOWeek (date : Z) : Z :=
  let day := Date.getDay tz date in
  let diff := (if day <? 1 then 7 else 0) + day - 1 in
  Date.setHours tz (Date.setDate tz date (Date.getDate tz date - diff)) 0 0 0 0.

Definition getISOWeekYear (date : Z) : Z :=
  let year := Date.getFullYear tz date in
  let startOfNextYear := startOfISOWeek (Date.localMidnight tz (year + 1) 0 4) in
  let startOfThisYear := startOfISOWeek (Date.localMidnight tz year 0 4) in
  if date >=? startOfNextYear then year + 1
  else if date >=? startOfThisYear then year
  else year - 1.

Definition startOfISOWeekYear (date : Z) : Z :=
  startOfISOWeek (Date.localMidnight tz (getISOWeekYear date) 0 4).

Definition getISOWeek (date : Z) : Z :=
  let diff := startOfISOWeek date - startOfISOWeekYear date in
  Number.round (inject_Z diff / inject_Z MILLISECONDS_IN_WEEK)%Q + 1.

(** [format(date, 'yyyy-MM')] *)
Definition format_yyyy_MM (date : Z) : string :=
  let y := Date.getFullYear tz date in
  (if y <? 0 then "-" else "") +:+ JS.padZ 4 (Z.abs y)
  +:+ "-" +:+ JS.padZ 2 (Date.getMonth tz date + 1).
End Local.
End DateFns.

(** ** services/time.ts *)

Inductive StatsStatus : Set := active | completed.

Module WeeklyStats.
Record t : Type := mk {
  weekId : string;
  startDate : string;
  endDate : string;
  totalSpent : Q;
  totalSaved : Q;
  categoryBreakdown : list (TransactionCategory * Q);
  status : StatsStatus
}.
End WeeklyStats.

Module MonthlyStats.
Record t : Type := mk {
  monthId : string;
  monthName : string;
  totalSpent : Q;
  totalSaved : Q;
  categoryBreakdown : list (TransactionCategory * Q);
  weeks : list WeeklyStats.t;
  isFinalized : bool
}.
End MonthlyStats.

(** The documents of one user in the store. *)
Module UserDocs.
Record t : Type := mk {
  settings_meta : option HistoryMeta.t;
  transactions : list Transaction.t;
  history_weeks : gmap string WeeklyStats.t;
  history_months : gmap string MonthlyStats.t
}.
Definition empty : t := mk None [] ∅ ∅.
End UserDocs.

(** A document written by [setDoc] or [updateDoc]. *)
Inductive Write : Type :=
  | WriteMeta (userId : string) (meta : HistoryMeta.t)
  | WriteWeek (userId weekId : string) (stats : WeeklyStats.t)
  | WriteMonth (userId monthId : string) (stats : MonthlyStats.t).

Definition isSnapshot (w : Write) : bool :=
  match w with
  | WriteMeta _ _ => false
  | WriteWeek _ _ _ | WriteMonth _ _ _ => true
  end.

(** The store: the documents of every user, and the writes made so far,
    oldest first. *)
Module Firestore.
Record t : Type := mk {
  users : gmap string UserDocs.t;
  writes : list Write
}.

Definition docsOf (db : t) (userId : string) : UserDocs.t :=
  default UserDocs.empty (users db !! userId).
End Firestore.

(** An asynchronous computation on the store: it leaves a store and
    either resolves to a value or rejects ([None]). *)
Definition Async (A : Type) : Type := Firestore.t -> option A * Firestore.t.

Definition resolve {A : Type} (a : A) : Async A := fun db => (Some a, db).
Definition reject {A : Type} : Async A := fun db => (None, db).

(** [const x = await c; k x] *)
Definition await {A B : Type} (c : Async A) (k : A -> Async B) : Async B :=
  fun db =>
    match c db with
    | (Some a, db') => k a db'
    | (None, db') => (None, db')
    end.

Notation "'let*' x ':=' c 'in' k" := (await c (fun x => k))
  (at level 10, x pattern, c at level 100, k at level 200).

Section StoreOps.

Definition getMeta (userId : string) : Async (option HistoryMeta.t) :=
  fun db => (Some (UserDocs.settings_meta (Firestore.docsOf db userId)), db).

Definition getTransactions (userId : string) : Async (list Transaction.t) :=
  fun db => (Some (UserDocs.transactions (Firestore.docsOf db userId)), db).

Definition putDocs (db : Firestore.t) (userId : string) (d : UserDocs.t)
    (w : Write) : Firestore.t :=
  Firestore.mk (<[userId := d]> (Firestore.users db)) (Firestore.writes db ++ [w]).

(** [setDoc(metaRef, meta)] *)
Definition setMeta (userId : string) (meta : HistoryMeta.t) : Async unit :=
  fun db =>
    let d := Firestore.docsOf db userId in
    (Some tt,
     putDocs db userId
       (UserDocs.mk (Some meta) (UserDocs.transactions d)
          (UserDocs.history_weeks d) (UserDocs.history_months d))
       (WriteMeta userId meta)).

(** [updateDoc(metaRef, fields)]: rejects when the document is missing. *)
Definition updateMeta (userId : string) (f : HistoryMeta.t -> HistoryMeta.t) : Async unit :=
  fun db =>
    match UserDocs.settings_meta (Firestore.docsOf db userId) with
    | Some meta => setMeta userId (f meta) db
    | None => (None, db)
    end.

Definition setWeek (userId weekId : string) (stats : WeeklyStats.t) : Async unit :=
  fun db =>
    let d := Firestore.docsOf db userId in
    (Some tt,
     putDocs db userId
       (UserDocs.mk (UserDocs.settings_meta d) (UserDocs.transactions d)
          (<[weekId := stats]> (UserDocs.history_weeks d)) (UserDocs.history_months d))
       (WriteWeek userId weekId stats)).

Definition setMonth (userId monthId : string) (stats : MonthlyStats.t) : Async unit :=
  fun db =>
    let d := Firestore.docsOf db userId in
    (Some tt,
     putDocs db userId
       (UserDocs.mk (UserDocs.settings_meta d) (UserDocs.transactions d)
          (UserDocs.history_weeks d) (<[monthId := stats]> (UserDocs.history_months d)))
       (WriteMonth userId monthId stats)).
End StoreOps.

Module TimeService.
Section Service.
Variable tz : Z.
(** [format(new Date(monthId + "-01"), 'MMMM yyyy')]: the name of a
    stored month; date-fns throws when the text is not a date
    ([None]). *)
Variable monthNameOf : string -> option string.

(** Generates IDs like "2025-W12" *)
Definition getCurrentWeekId (date : Z) : string :=
  JS.showZ (DateFns.getYear tz date) +:+ "-W" +:+ JS.showZ (DateFns.getISOWeek tz date).

(** Generates IDs like "2025-03" *)
Definition getCurrentMonthId (date : Z) : string :=
  DateFns.format_yyyy_MM tz date.

(** [breakdown[cat] = (breakdown[cat] || 0) + amount] *)
Fixpoint addTo (breakdown : list (TransactionCategory * Q))
    (cat : TransactionCategory) (amount : Q) : list (TransactionCategory * Q) :=
  match breakdown with
  | [] => [(cat, (0 + amount)%Q)]
  | (k, v) :: breakdown' =>
      if category_eqb k cat
      then (k, ((if Number.truthy v then v else 0) + amount)%Q) :: breakdown'
      else (k, v) :: addTo breakdown' cat amount
  end.

(** The [forEach] that both statistics share: savings are summed
    apart, everything else is spent. *)
Definition tally (relevantTx : list Transaction.t)
    : Q * Q * list (TransactionCategory * Q) :=
  fold_left
    (fun '(spent, saved, breakdown) tx =>
       if category_eqb (Transaction.category tx) Savings
       then (spent, (saved + Transaction.amount tx)%Q, breakdown)
       else ((spent + Transaction.amount tx)%Q, saved,
             addTo breakdown (Transaction.category tx) (Transaction.amount tx)))
    relevantTx (0%Q, 0%Q, []).

Definition calculateStatsForWeekId (transactions : list Transaction.t)
    (weekId : string) : WeeklyStats.t :=
  let relevantTx :=
    List.filter
      (fun tx => String.eqb (getCurrentWeekId (Transaction.date tx)) weekId)
      transactions in
  let '(spent, saved, breakdown) := tally relevantTx in
  WeeklyStats.mk weekId "" "" spent saved breakdown completed.

Definition calculateStatsForMonthId (transactions : list Transaction.t)
    (monthId : string) : option MonthlyStats.t :=
  let relevantTx :=
    List.filter
      (fun tx => String.eqb (DateFns.format_yyyy_MM tz (Transaction.date tx)) monthId)
      transactions in
  name ← monthNameOf monthId;
  let '(spent, saved, breakdown) := tally relevantTx in
  Some (MonthlyStats.mk monthId name spent saved breakdown [] true).

Definition archiveWeek (userId weekId : string) : Async unit :=
  let* allTx := getTransactions userId in
  let weekStats := calculateStatsForWeekId allTx weekId in
  setWeek userId weekId weekStats.

Definition archiveMonth (userId monthId : string) : Async unit :=
  let* allTx := getTransactions userId in
  match calculateStatsForMonthId allTx monthId with
  | Some monthStats => setMonth userId monthId monthStats
  | None => reject
  end.

(** The week check of [init]: when the stored week is not the
    current one it is archived and the meta document moves on. *)
Definition checkWeek (userId : string) (meta : HistoryMeta.t)
    (currentWeekId : string) : Async unit :=
  if negb (String.eqb (HistoryMeta.lastActiveWeek meta) currentWeekId) then
    let* _ := archiveWeek userId (HistoryMeta.lastActiveWeek meta) in
    updateMeta userId
      (fun m => HistoryMeta.mk currentWeekId (HistoryMeta.lastActiveMonth m))
  else resolve tt.

(** The month check of [init]. *)
Definition checkMonth (userId : string) (meta : HistoryMeta.t)
    (currentMonthId : string) : Async unit :=
  if negb (String.eqb (HistoryMeta.lastActiveMonth meta) currentMonthId) then
    let* _ := archiveMonth userId (HistoryMeta.lastActiveMonth meta) in
    updateMeta userId
      (fun m => HistoryMeta.mk (HistoryMeta.lastActiveWeek m) currentMonthId)
  else resolve tt.

(** [init(userId)], run at the instant [now]. Both checks read the
    meta document as it was when [init] started. *)
Definition init (now : Z) (userId : string) : Async unit :=
  if String.eqb userId "" then resolve tt
  else
    let* metaSnap := getMeta userId in
    let currentWeekId := getCurrentWeekId now in
    let currentMonthId := getCurrentMonthId now in
    match metaSnap with
    | None =>
        (* First run, initialize meta *)
        setMeta userId (HistoryMeta.mk currentWeekId currentMonthId)
    | Some meta =>
        let* _ := checkWeek userId meta currentWeekId in
        checkMonth userId meta currentMonthId
    end.
End Service.
End TimeService.

(** ** The week identifier of the specification

    [{ISOYear}-W{ISOWeekNumber}]: the year is the ISO week-numbering year,
    which date-fns computes as [getISOWeekYear]. *)

Definition isoWeekId (tz : Z) (date : Z) : string :=
  JS.showZ (DateFns.getISOWeekYear tz date) +:+ "-W"
  +:+ JS.showZ (DateFns.getISOWeek tz date).

(** The invariant of the budget that the specification states. *)
Definition savingsWithinIncome (b : BudgetState.t) : Prop :=
  (BudgetAllocations.savingsTarget (BudgetState.allocations b)
   <= BudgetState.monthlyIncome b)%Q.

(** ** Reading the normalization of a label

    The label in all its spellings that differ by letter case only, and
    the outcome of the two lookups on a string label. *)

Fixpoint caseVariants (s : string) : list string :=
  match s with
  | EmptyString => [EmptyString]
  | String c s' =>
      flat_map
        (fun v => [String (JS.lowerChar c) v; String (JS.upperChar (JS.lowerChar c)) v])
        (caseVariants s')
  end.

Definition normalizeLabel (label : string) : Groq.Normalized :=
  match Groq.lookupMap label with
  | Some c => c
  | None =>
      match Groq.lookupMap (JS.removeAll JS.isSpace label) with
      | Some c => c
      | None => Groq.Enum Miscellaneous
      end
  end.

Definition isTableKey (label : string) : bool :=
  match Groq.CATEGORY_MAP !! label with
  | Some _ => true
  | None => false
  end.

Definition isMiscellaneous (n : Groq.Normalized) : bool :=
  match n with
  | Groq.Enum Miscellaneous => true
  | _ => false
  end.

(** ** Reading the store after a run of the archiver

    The meta document names the current week, and the current month or a
    month whose name cannot be rendered (so that archiving it rejects
    before it writes). *)

Definition afterRun (tz : Z) (monthNameOf : string -> option string)
    (now : Z) (db : Firestore.t) (userId : string) : Prop :=
  exists month,
    UserDocs.settings_meta (Firestore.docsOf db userId)
    = Some (HistoryMeta.mk (TimeService.getCurrentWeekId tz now) month)
    /\ (month = TimeService.getCurrentMonthId tz now
        \/ monthNameOf month = None).

(** The snapshots among the writes of a store. *)
Definition snapshots (db : Firestore.t) : list Write :=
  List.filter isSnapshot (Firestore.writes db).

(** ** Sample data

    Concrete inputs on which the properties below are exercised. *)

Module Sample.
(** Indian Standard Time, UTC+05:30. *)
Definition IST : Z := 19800000.

(** A rendering of numbers for the samples: integers in decimal, any
    other number as its floor followed by a mark. *)
Definition show (q : Q) : string :=
  if Qeq_bool (inject_Z (Qfloor q)) q then JS.showZ (Qfloor q)
  else JS.showZ (Qfloor q) +:+ "...".

(** The [n] day numbers from [d] on. *)
Fixpoint daysFrom (d : Z) (n : nat) : list Z :=
  match n with
  | O => []
  | S n' => d :: daysFrom (d + 1) n'
  end.

(** Friday 14 March 2025, 10:00 UTC. *)
Definition now : Z := Date.ofUTC 2025 3 14 10 0.

Definition tx (id : string) (amount : Q) (cat : TransactionCategory) (date : Z)
    : Transaction.t :=
  Transaction.mk id amount cat "" date date.

Definition budget : BudgetState.t :=
  BudgetState.mk 50000
    (BudgetAllocations.mk 1000 2000 10000 (Some [(Groceries, 500%Q); (Outings, 0%Q)]))
    true.

(** 800 of groceries this week, a bill this month and one in January. *)
Definition transactions : list Transaction.t :=
  [ tx "1" 800 Groceries (Date.ofUTC 2025 3 12 9 0);
    tx "2" 1700 Bills (Date.ofUTC 2025 3 3 9 0);
    tx "3" 500 Bills (Date.ofUTC 2025 1 15 9 0) ].

(** A stand-in for the rendering of month names. *)
Definition monthNameOf (monthId : string) : option string := Some monthId.

(** The store of a user last seen in week 9 of February 2025. *)
Definition store : Firestore.t :=
  Firestore.mk
    {[ "u1" := UserDocs.mk (Some (HistoryMeta.mk "2025-W9" "2025-02"))
                 transactions ∅ ∅ ]}
    [].
End Sample.

(** * The rest of the application

    The other functions of the files above, and the components and
    services around them: the week range of [utils/date.ts], the
    notifications, the spending analytics, the weekly view and the
    handlers of the application that add and delete transactions. *)

From Stdlib Require Import Qpower.
From Stdlib Require DecimalPos.
From Stdlib Require Import Sorted.

(** ** utils/date.ts, continued *)

Section WeekRange.
Variable tz : Z.

(** [getWeekRange(date)]: the Monday 00:00:00.000 and the Sunday
    23:59:59.999 around [date]. *)
Definition getWeekRange (date : Z) : Z * Z :=
  let day := if Date.getDay tz date =? 0 then 7 else Date.getDay tz date in
  let start := Date.setDate tz date (Date.getDate tz date - (day - 1)) in
  let start := Date.setHours tz start 0 0 0 0 in
  let end_ := Date.setDate tz start (Date.getDate tz start + 6) in
  let end_ := Date.setHours tz end_ 23 59 59 999 in
  (start, end_).
End WeekRange.

(** *** Reading the calendar

    The check on one day of a 400-year era that the year, the month and
    the day of the month that [civil] computes are in range, and the index
    of the Monday-to-Sunday week of a local day (day 0, 1 January 1970,
    was a Thursday). *)

Definition eraDayInRange (doe : Z) : bool :=
  let yoe := (doe - doe / 1460 + doe / 36524 - doe / 146096) / 365 in
  let doy := doe - (365 * yoe + yoe / 4 - yoe / 100) in
  let mp := (5 * doy + 2) / 153 in
  let dom := doy - (153 * mp + 2) / 5 + 1 in
  (0 <=? yoe) && (yoe <=? 399) && (0 <=? mp) && (mp <=? 11)
  && (1 <=? dom) && (dom <=? 31).

Definition weekIndex (tz : Z) (t : Z) : Z :=
  (Date.Day (Date.LocalTime tz t) + 3) / 7.

(** The rendering of a local day number by [toDateString]. *)
Definition dayString (d : Z) : string :=
  let '(y, m, dom) := Date.civil d in
  Date.dayName ((d + 4) mod 7) +:+ " " +:+ Date.monthName m +:+ " "
  +:+ JS.padZ 2 dom +:+ " "
  +:+ (if y <? 0 then "-" else "") +:+ JS.padZ 4 (Z.abs y).

(** What a run of decimal digits denotes, read by the library. *)
Definition readDigits (s : string) : option Z :=
  match DecimalString.NilEmpty.uint_of_string s with
  | Some d => Some (Z.of_N (N.of_uint d))
  | None => None
  end.

(** ** services/notifications.ts *)

Module NotificationService.
Inductive NotificationPermission : Set := default | denied | granted.

(** A notification handed to the browser: its title, body and tag. *)
Record Notification : Type := mkNotification {
  title : string;
  body : string;
  tag : string
}.

Definition hasPermission (permission : NotificationPermission) : bool :=
  match permission with
  | granted => true
  | _ => false
  end.

(** [send(title, body, tag)]: the notifications the browser is asked to
    show, through the service worker or the [Notification] constructor. *)
Definition send (permission : NotificationPermission) (title body tag : string)
    : list Notification :=
  if hasPermission permission then [mkNotification title body tag] else [].
End NotificationService.

(** ** utils/alerts.ts, continued *)

Definition alertType_eqb (a b : AlertType) : bool :=
  match a, b with
  | success, success | warning, warning | critical, critical => true
  | _, _ => false
  end.

(** [checkAndSendNotifications(alerts)], once the notification service
    is loaded: the notifications sent, in order. *)
Definition checkAndSendNotifications
    (permission : NotificationService.NotificationPermission)
    (alerts : list AlertItem.t) : list NotificationService.Notification :=
  if negb (NotificationService.hasPermission permission) then []
  else
    flat_map
      (fun alert =>
         if alertType_eqb (AlertItem.type alert) critical
            || alertType_eqb (AlertItem.type alert) warning
            || alertType_eqb (AlertItem.type alert) success
         then NotificationService.send permission (AlertItem.title alert)
                (AlertItem.message alert) (AlertItem.id alert)
         else [])
      alerts.

(** ** Reading the statistics

    The sum of the values of a category breakdown, and the test of the
    archiver on the category of a transaction. *)

Definition breakdownTotal (breakdown : list (TransactionCategory * Q)) : Q :=
  fold_right Qplus 0%Q (map snd breakdown).

Definition isSaving (tx : Transaction.t) : bool :=
  category_eqb (Transaction.category tx) Savings.

(** The store [db'] differs from [db] for the user [userId] at most, whose
    transactions it keeps, and its log of writes continues the log of
    [db]. *)
Definition onlyTouches (userId : string) (db db' : Firestore.t) : Prop :=
  (forall u, u <> userId -> Firestore.users db' !! u = Firestore.users db !! u)
  /\ UserDocs.transactions (Firestore.docsOf db' userId)
     = UserDocs.transactions (Firestore.docsOf db userId)
  /\ exists ws, Firestore.writes db' = (Firestore.writes db ++ ws)%list.

(** ** Reading an allocation

    The allocation of a budget that a bucket of the dashboard edits. *)

Definition allocationOf (key : BudgetBucket) (a : BudgetAllocations.t) : Q :=
  match key with
  | Weekly => BudgetAllocations.weeklyLimit a
  | Monthly => BudgetAllocations.monthlyLimit a
  | SavingsBucket => BudgetAllocations.savingsTarget a
  end.

(** ** utils/analytics.ts *)

Module Analytics.

Record CategoryBreakdown : Type := mkBreakdown {
  name : string;
  amount : Q;
  percentage : Z;
  count : Z
}.

Record SpendingAnalytics : Type := mk {
  totalSpent : Q;
  breakdown : list CategoryBreakdown;
  topCategories : list CategoryBreakdown;
  personalPurchases : list Transaction.t;
  insights : list string
}.

(** The keyword table, in the order [Object.entries] lists it. *)
Definition KEYWORD_MAP : list (string * string) :=
  [ ("zomato", "Food Delivery");
    ("swiggy", "Food Delivery");
    ("uber eats", "Food Delivery");
    ("blinkit", "Groceries");
    ("zepto", "Groceries");
    ("bigbasket", "Groceries");
    ("instamart", "Groceries");
    ("dmart", "Groceries");
    ("grocery", "Groceries");
    ("petrol", "Petrol / Transport");
    ("fuel", "Petrol / Transport");
    ("uber", "Petrol / Transport");
    ("ola", "Petrol / Transport");
    ("rapido", "Petrol / Transport");
    ("netflix", "Subscriptions");
    ("spotify", "Subscriptions");
    ("prime", "Subscriptions");
    ("youtube", "Subscriptions") ].

(** The loop over the table: the sub-category of the first keyword that
    occurs in the description. *)
Fixpoint scanSubCategory (entries : list (string * string)) (desc : string)
    : option string :=
  match entries with
  | [] => None
  | (keyword, subCat) :: entries' =>
      if JS.includes desc keyword then Some subCat
      else scanSubCategory entries' desc
  end.

Definition getGranularCategory (t : Transaction.t) : string :=
  let category := categoryName (Transaction.category t) in
  (* 1. Personal is a top-level override *)
  if String.eqb category "Personal" then "Personal Purchases"
  else
    (* 2. Keyword matching for sub-categories *)
    let desc := JS.toLowerCase (Transaction.description t) in
    match scanSubCategory KEYWORD_MAP desc with
    | Some subCat => subCat
    | None =>
        (* 3. Fallback to main category with nicer formatting *)
        if String.eqb category "Food" then "Food & Dining"
        else if String.eqb category "Transport" then "Petrol / Transport"
        else if String.eqb category "Bills" then "Bills & Utilities"
        else category
    end.

(** [categoryMap], an object keyed by the names [getGranularCategory]
    returns (none of them names a property that objects inherit), with
    its keys in insertion order: the entry of [name] is created at zero
    when it is missing, then the amount is added and the count goes up
    by one. *)
Fixpoint bump (categoryMap : list (string * (Q * Z))) (name : string) (amount : Q)
    : list (string * (Q * Z)) :=
  match categoryMap with
  | [] => [(name, ((0 + amount)%Q, 0 + 1))]
  | (k, (a, c)) :: categoryMap' =>
      if String.eqb k name then (k, ((a + amount)%Q, c + 1)) :: categoryMap'
      else (k, (a, c)) :: bump categoryMap' name amount
  end.

(** [Array.prototype.sort] with the comparator [(a, b) => b.amount -
    a.amount]: the sort is stable, so it is the insertion of each element
    before the first of the later elements that is not above it. *)
Fixpoint insert (x : CategoryBreakdown) (l : list CategoryBreakdown)
    : list CategoryBreakdown :=
  match l with
  | [] => [x]
  | y :: l' => if Qle_bool (amount y) (amount x) then x :: y :: l' else y :: insert x l'
  end.

Definition sort (l : list CategoryBreakdown) : list CategoryBreakdown :=
  fold_right insert [] l.

(** [breakdown.find(b => b.name === n)] *)
Definition find (n : string) (l : list CategoryBreakdown) : option CategoryBreakdown :=
  List.find (fun b => String.eqb (name b) n) l.

Section Analytics.
(** [n.toLocaleString()] *)
Variable toLocaleString : Q -> string.

Definition generateAnalytics (transactions : list Transaction.t) : SpendingAnalytics :=
  let totalSpent := sumAmounts transactions in
  let '(categoryMap, personalPurchases) :=
    fold_left
      (fun '(categoryMap, personalPurchases) t =>
         (* Collect personal purchases separately for the specific section *)
         let personalPurchases :=
           if String.eqb (categoryName (Transaction.category t)) "Personal"
           then (personalPurchases ++ [t])%list else personalPurchases in
         let categoryName := getGranularCategory t in
         (bump categoryMap categoryName (Transaction.amount t), personalPurchases))
      transactions ([], []) in
  (* Convert map to array and sort *)
  let breakdown :=
    sort
      (map
         (fun '(name, (amount, count)) =>
            mkBreakdown name amount
              (if Number.gt totalSpent 0%Q
               then Number.round ((amount / totalSpent) * 100)%Q
               else 0)
              count)
         categoryMap) in
  let topCategories := firstn 3 breakdown in
  (* Generate Smart Insights *)
  let insights :=
    match breakdown with
    | [] => []
    | top :: _ =>
        (["Most of your money was spent on " +:+ name top +:+ " this month (â‚¹"
          +:+ toLocaleString (amount top) +:+ ")."]
         ++ match find "Food Delivery" breakdown with
            | Some foodDelivery =>
                if 20 <? percentage foodDelivery
                then ["You've spent " +:+ JS.showZ (percentage foodDelivery)
                      +:+ "% of your budget on Food Delivery. Cooking at home could save you money!"]
                else []
            | None => []
            end
         ++ match find "Personal Purchases" breakdown with
            | Some personal =>
                if Number.gt (amount personal) (totalSpent * (15 # 100))%Q
                then ["Personal purchases are higher than average ("
                      +:+ JS.showZ (percentage personal) +:+ "% of total)."]
                else []
            | None => []
            end)%list
    end in
  mk totalSpent breakdown topCategories personalPurchases insights.
End Analytics.

End Analytics.

(** *** Reading a breakdown

    The row that [generateAnalytics] makes of an entry of its map, and
    the totals of a list of rows. *)

Definition rowOf (totalSpent : Q) (e : string * (Q * Z)) : Analytics.CategoryBreakdown :=
  let '(name, (amount, count)) := e in
  Analytics.mkBreakdown name amount
    (if Number.gt totalSpent 0%Q then Number.round ((amount / totalSpent) * 100)%Q else 0)
    count.

Definition amountsOf (l : list Analytics.CategoryBreakdown) : Q :=
  fold_right Qplus 0%Q (map Analytics.amount l).

Definition countsOf (l : list Analytics.CategoryBreakdown) : Z :=
  fold_right Z.add 0 (map Analytics.count l).

(** ** components/WeeklySpending.tsx *)

Module WeeklySpending.

Definition MANDATORY_CATEGORIES : list TransactionCategory :=
  [Groceries; Outings; BodyCare; Orders; Miscellaneous; Petrol].

(** [o[key] = v] on an object kept as an association list: the value
    of an existing key is replaced where it stands, a new key goes to
    the end. *)
Fixpoint assign (o : list (TransactionCategory * Q)) (key : TransactionCategory)
    (v : Q) : list (TransactionCategory * Q) :=
  match o with
  | [] => [(key, v)]
  | (k, x) :: o' =>
      if category_eqb k key then (k, v) :: o' else (k, x) :: assign o' key v
  end.

(** [o[key] || 0] and [o?.[key] || 0] *)
Definition valueOr0 (o : list (TransactionCategory * Q)) (key : TransactionCategory) : Q :=
  match lookupCategory o key with
  | Some v => if Number.truthy v then v else 0%Q
  | None => 0%Q
  end.

Section Component.
Variable tz : Z.

(** 1. Filter for Current Week *)
Definition weeklyTransactions (now : Z) (transactions : list Transaction.t)
    : list Transaction.t :=
  List.filter
    (fun t => isSameWeek tz (Transaction.date t) now
              && bucket_eqb (CATEGORY_BUCKET_MAP (Transaction.category t)) Weekly)
    transactions.

(** 2. Calculate Spend per Category *)
Definition categorySpend (weeklyTransactions : list Transaction.t)
    : list (TransactionCategory * Q) :=
  let spend := fold_left (fun spend cat => assign spend cat 0%Q) MANDATORY_CATEGORIES [] in
  fold_left
    (fun spend t =>
       if existsb (category_eqb (Transaction.category t)) MANDATORY_CATEGORIES
       then assign spend (Transaction.category t)
              (valueOr0 spend (Transaction.category t) + Transaction.amount t)%Q
       else spend)
    weeklyTransactions spend.

(** 3. Overall Stats *)
Definition totalWeeklySpent (weeklyTransactions : list Transaction.t) : Q :=
  fold_left (fun acc t => acc + Transaction.amount t)%Q weeklyTransactions 0%Q.

Definition remaining (budget : BudgetState.t) (weeklyTransactions : list Transaction.t) : Q :=
  (BudgetAllocations.weeklyLimit (BudgetState.allocations budget)
   - totalWeeklySpent weeklyTransactions)%Q.

(** The card of a category: what was spent, the limit, and the two
    flags that colour it. *)
Definition spent (now : Z) (transactions : list Transaction.t)
    (cat : TransactionCategory) : Q :=
  valueOr0 (categorySpend (weeklyTransactions now transactions)) cat.

Definition limit (budget : BudgetState.t) (cat : TransactionCategory) : Q :=
  match BudgetAllocations.weeklyCategoryLimits (BudgetState.allocations budget) with
  | Some limits => valueOr0 limits cat
  | None => 0%Q
  end.

Definition isOver (now : Z) (budget : BudgetState.t) (transactions : list Transaction.t)
    (cat : TransactionCategory) : bool :=
  Number.gt (spent now transactions cat) (limit budget cat)
  && Number.gt (limit budget cat) 0%Q.

Definition isNear (now : Z) (budget : BudgetState.t) (transactions : list Transaction.t)
    (cat : TransactionCategory) : bool :=
  Number.gt (spent now transactions cat) (limit budget cat * (8 # 10))%Q
  && negb (isOver now budget transactions cat).
End Component.

(** [handleSaveEdit]: the budget passed to [onUpdateBudget], if it is
    called; the editor is closed in every case. *)
Definition handleSaveEdit (editingCategory : option TransactionCategory)
    (editValue : string) (budget : BudgetState.t) : option BudgetState.t :=
  match editingCategory with
  | None => None
  | Some cat =>
      match JS.parseFloat editValue with
      | Some val =>
          if Number.ge val 0%Q then
            let a := BudgetState.allocations budget in
            let newLimits :=
              assign
                (match BudgetAllocations.weeklyCategoryLimits a with
                 | Some limits => limits
                 | None => []
                 end)
                cat val in
            Some (BudgetState.mk (BudgetState.monthlyIncome budget)
                    (BudgetAllocations.mk (BudgetAllocations.weeklyLimit a)
                       (BudgetAllocations.monthlyLimit a)
                       (BudgetAllocations.savingsTarget a)
                       (Some newLimits))
                    (BudgetState.isSet budget))
          else None
      | None => None
      end
  end.

End WeeklySpending.

(** ** App.tsx: the transactions held by the application *)

Module AuthenticatedApp.

(** [handleAddTransaction(parsed)]: the list of transactions it leaves.
    [userId] is [user?.id]; [idNow] and [tsNow] are the two readings
    of the clock. *)
Definition handleAddTransaction (userId : option string) (idNow tsNow : Z)
    (parsed : ParsedExpense.t) (prev : list Transaction.t) : list Transaction.t :=
  match ParsedExpense.amount parsed, ParsedExpense.category parsed, userId with
  | Some amount, Some category, Some id =>
      if negb (Number.truthy amount) || String.eqb id "" then prev
      else
        let newTransaction :=
          Transaction.mk (JS.showZ idNow) amount category
            (ParsedExpense.description parsed) (ParsedExpense.date parsed) tsNow in
        newTransaction :: prev
  | _, _, _ => prev
  end.

(** [handleDeleteTransaction(id)] *)
Definition handleDeleteTransaction (userId : option string) (id : string)
    (prev : list Transaction.t) : list Transaction.t :=
  match userId with
  | Some uid =>
      if String.eqb uid "" then prev
      else List.filter (fun t => negb (String.eqb (Transaction.id t) id)) prev
  | None => prev
  end.

End AuthenticatedApp.

(** *** Reading the weekly view *)

Definition isMandatory (t : Transaction.t) : bool :=
  existsb (category_eqb (Transaction.category t)) WeeklySpending.MANDATORY_CATEGORIES.

Definition inCategory (cat : TransactionCategory) (t : Transaction.t) : bool :=
  category_eqb (Transaction.category t) cat.

(** *** Whole amounts

    The application holds its amounts as binary64 numbers and rounds every
    sum and product. On whole numbers the exact arithmetic of this model
    is the arithmetic of the code: a sum of whole amounts that are not
    negative is exact as long as it stays below 2^53, the product
    [x * 0.8] of a whole multiple of five is exact, and so are, up to
    10^12, the integer parts of the shares [x * 0.5], [x * 0.3 / 4] and
    [x * 0.2] of a whole number. The properties that depend on the value
    of a sum or of such a product are stated for these amounts. *)

Definition isWhole (q : Q) : bool := Qeq_bool (inject_Z (Qfloor q)) q.

Definition wholeUpTo (bound : Z) (q : Q) : bool :=
  isWhole q && Qle_bool 0 q && Qle_bool q (inject_Z bound).

Definition wholeAmounts (transactions : list Transaction.t) : bool :=
  forallb (fun t => isWhole (Transaction.amount t) && Qle_bool 0 (Transaction.amount t))
    transactions
  && Qle_bool (totalOf transactions) (inject_Z (2 ^ 53 - 1)).

(** A whole multiple of five from 0 to 2^53 - 1. *)
Definition wholeFives (q : Q) : bool :=
  wholeUpTo (2 ^ 53 - 1) q && (Qfloor q mod 5 =? 0).
(** * Amounts as binary64 numbers

    A JavaScript number is an IEEE 754 binary64 value, and every [+], [-],
    [*] and [/] rounds its exact result to the nearest such value, ties to
    even. The alert engine compares a sum of amounts with a limit and with
    the product [limit * 0.8], so the rounding decides its thresholds: it
    is given here once more, on these numbers, operation for operation. *)

From Stdlib Require Import SpecFloat.

Module Binary64.
Definition t : Type := spec_float.

Definition prec : Z := 53.
Definition emax : Z := 1024.

Definition add : t -> t -> t := SFadd prec emax.
Definition sub : t -> t -> t := SFsub prec emax.
Definition mul : t -> t -> t := SFmul prec emax.
Definition div : t -> t -> t := SFdiv prec emax.

Definition zero : t := S754_zero false.

(** The number an integer literal denotes. *)
Definition ofZ (z : Z) : t := binary_normalize prec emax z 0 false.

(** The number a decimal literal denotes, the binary64 value nearest to
    it: the correctly rounded quotient of numerator and denominator, both
    below 2^53 for a literal of at most 15 digits. *)
Definition ofDecimal (q : Q) : t := div (ofZ (Qnum q)) (ofZ (Zpos (Qden q))).

(** [x > y], [x >= y] and [x <= y]: false when either side is NaN. *)
Definition gt (x y : t) : bool := SFltb y x.
Definition ge (x y : t) : bool := SFleb y x.
Definition le (x y : t) : bool := SFleb x y.

(** Truthiness of a number: the zeros and NaN are falsy. *)
Definition truthy (x : t) : bool :=
  match x with
  | S754_zero _ | S754_nan => false
  | _ => true
  end.

(** [Math.round]: the nearest integer, halves upwards; a negative number
    that rounds to zero gives the negative zero. *)
Definition round (x : t) : t :=
  match x with
  | S754_finite s m e =>
      let v := if s then Z.neg m else Z.pos m in
      let n := if 0 <=? e then v * 2 ^ e
               else (2 * v + 2 ^ (- e)) / 2 ^ (1 - e) in
      if n =? 0 then S754_zero s else ofZ n
  | _ => x
  end.

(** The order of the numbers, as propositions. *)
Definition lt (x y : t) : Prop := SFltb x y = true.
Definition leq (x y : t) : Prop := SFleb x y = true.

(** The whole part of a finite number. *)
Definition toZ (x : t) : Z :=
  match x with
  | S754_finite s m e =>
      let v := if s then Z.neg m else Z.pos m in
      if 0 <=? e then v * 2 ^ e else v / 2 ^ (- e)
  | _ => 0
  end.

(** The number is one of the whole numbers 0 to 2^53 - 1. *)
Definition isWhole (x : t) : Prop := exists n, 0 <= n < 2 ^ 53 /\ x = ofZ n.
End Binary64.

(** The form in which binary64 holds a whole number from 1 to 2^53 - 1: a
    mantissa of 53 digits and the exponent that scales it. *)
Definition canonical (x : Binary64.t) (n : Z) : Prop :=
  exists q e,
    x = S754_finite false q e /\ Z.pos (digits2_pos q) = 53 /\ -52 <= e <= 0
    /\ Z.pos q = n * 2 ^ (- e).

(** ** types.ts, with amounts as numbers *)

Module Engine64.

Module Transaction.
Record t : Type := mk {
  id : string;
  amount : Binary64.t;
  category : TransactionCategory;
  description : string;
  date : Z;
  timestamp : Z
}.
Definition dateString (tx : t) : string := Date.toISOString (date tx).
End Transaction.

Module BudgetAllocations.
Record t : Type := mk {
  weeklyLimit : Binary64.t;
  monthlyLimit : Binary64.t;
  savingsTarget : Binary64.t;
  weeklyCategoryLimits : option (list (TransactionCategory * Binary64.t))
}.
End BudgetAllocations.

Module BudgetState.
Record t : Type := mk {
  monthlyIncome : Binary64.t;
  allocations : BudgetAllocations.t;
  isSet : bool
}.
End BudgetState.

(** [transactions.reduce((sum, t) => sum + t.amount, 0)] *)
Definition sumAmounts (transactions : list Transaction.t) : Binary64.t :=
  fold_left (fun sum t => Binary64.add sum (Transaction.amount t)) transactions
    Binary64.zero.

(** ** utils/alerts.ts, with amounts as numbers *)

Section Alerts.
Variable tz : Z.
(** The text a template literal inserts for a number. *)
Variable show : Binary64.t -> string.

Definition percentOf (spent limit : Binary64.t) : string :=
  show (Binary64.round (Binary64.mul (Binary64.div spent limit) (Binary64.ofZ 100))).

Definition weeklyBucketTotal (now : Z) (transactions : list Transaction.t)
    : Binary64.t :=
  sumAmounts
    (List.filter
       (fun t => isSameWeek tz (Transaction.date t) now
                 && bucket_eqb (CATEGORY_BUCKET_MAP (Transaction.category t)) Weekly)
       transactions).

Definition monthlyBucketTotal (now : Z) (transactions : list Transaction.t)
    : Binary64.t :=
  sumAmounts
    (List.filter
       (fun t =>
          let isThisMonth := JS.startsWith (Transaction.dateString t) (currentMonthStr now) in
          isThisMonth && bucket_eqb (CATEGORY_BUCKET_MAP (Transaction.category t)) Monthly)
       transactions).

Definition currentSavings (budget : BudgetState.t) (transactions : list Transaction.t)
    : Binary64.t :=
  Binary64.sub (BudgetState.monthlyIncome budget) (sumAmounts transactions).

Definition catSpent (now : Z) (transactions : list Transaction.t)
    (cat : TransactionCategory) : Binary64.t :=
  sumAmounts
    (List.filter
       (fun t => isSameWeek tz (Transaction.date t) now
                 && category_eqb (Transaction.category t) cat)
       transactions).

(** The alerts of the weekly spending limit. *)
Definition weeklyAlerts (now : Z) (budget : BudgetState.t)
    (transactions : list Transaction.t) : list AlertItem.t :=
  let total := weeklyBucketTotal now transactions in
  let weeklyLimit := BudgetAllocations.weeklyLimit (BudgetState.allocations budget) in
  if Binary64.gt weeklyLimit Binary64.zero then
    if Binary64.gt total weeklyLimit then
      [ AlertItem.mk
          ("weekly-critical-" +:+ todayStr now)
          critical
          "Weekly Limit Exceeded"
          ("You've spent ₹" +:+ show total +:+ " / ₹" +:+ show weeklyLimit
           +:+ " this week.") ]
    else if Binary64.ge total (Binary64.mul weeklyLimit (Binary64.ofDecimal (8 # 10))) then
      [ AlertItem.mk
          ("weekly-warning-" +:+ todayStr now)
          warning
          "Approaching Weekly Limit"
          ("You've used " +:+ percentOf total weeklyLimit
           +:+ "% of your weekly limit (₹" +:+ show total +:+ " / ₹"
           +:+ show weeklyLimit +:+ ").") ]
    else []
  else [].

(** The body of the [forEach] over the keys of the category limits. *)
Definition categoryAlert (now : Z) (transactions : list Transaction.t)
    (categoryLimits : list (TransactionCategory * Binary64.t))
    (cat : TransactionCategory) : list AlertItem.t :=
  let limit := match lookupCategory categoryLimits cat with
               | Some l => if Binary64.truthy l then l else Binary64.zero
               | None => Binary64.zero
               end in
  if Binary64.le limit Binary64.zero then []
  else
    let spent := catSpent now transactions cat in
    if Binary64.gt spent limit then
      [ AlertItem.mk
          ("weekly-cat-critical-" +:+ categoryName cat +:+ "-" +:+ todayStr now)
          critical
          (categoryName cat +:+ " Limit Exceeded")
          ("You've spent ₹" +:+ show spent +:+ " on " +:+ categoryName cat
           +:+ ", exceeding your ₹" +:+ show limit +:+ " limit.") ]
    else if Binary64.ge spent (Binary64.mul limit (Binary64.ofDecimal (8 # 10))) then
      [ AlertItem.mk
          ("weekly-cat-warning-" +:+ categoryName cat +:+ "-" +:+ todayStr now)
          warning
          (categoryName cat +:+ " Budget Low")
          ("You've used " +:+ percentOf spent limit +:+ "% of your "
           +:+ categoryName cat +:+ " budget.") ]
    else [].

Definition categoryAlerts (now : Z) (budget : BudgetState.t)
    (transactions : list Transaction.t) : list AlertItem.t :=
  let categoryLimits :=
    match BudgetAllocations.weeklyCategoryLimits (BudgetState.allocations budget) with
    | Some o => o
    | None => []
    end in
  flat_map (categoryAlert now transactions categoryLimits) (map fst categoryLimits).

(** The alerts of the monthly expense limit. *)
Definition monthlyAlerts (now : Z) (budget : BudgetState.t)
    (transactions : list Transaction.t) : list AlertItem.t :=
  let total := monthlyBucketTotal now transactions in
  let monthlyLimit := BudgetAllocations.monthlyLimit (BudgetState.allocations budget) in
  if Binary64.gt monthlyLimit Binary64.zero then
    if Binary64.gt total monthlyLimit then
      [ AlertItem.mk
          ("monthly-critical-" +:+ currentMonthStr now)
          critical
          "Monthly Expense Limit Exceeded"
          ("Monthly bills/expenses are ₹" +:+ show total +:+ ", exceeding the ₹"
           +:+ show monthlyLimit +:+ " limit.") ]
    else if Binary64.ge total (Binary64.mul monthlyLimit (Binary64.ofDecimal (8 # 10))) then
      [ AlertItem.mk
          ("monthly-warning-" +:+ currentMonthStr now)
          warning
          "Approaching Monthly Expense Limit"
          ("You've used " +:+ percentOf total monthlyLimit
           +:+ "% of your monthly expense limit.") ]
    else []
  else [].

(** The alerts of the savings goal. *)
Definition savingsAlerts (now : Z) (budget : BudgetState.t)
    (transactions : list Transaction.t) : list AlertItem.t :=
  let savings := currentSavings budget transactions in
  let savingsTarget := BudgetAllocations.savingsTarget (BudgetState.allocations budget) in
  if Binary64.gt savingsTarget Binary64.zero then
    if Binary64.ge savings savingsTarget then
      [ AlertItem.mk
          ("savings-success-" +:+ currentMonthStr now)
          success
          "Savings Goal Reached! 🎉"
          ("You have ₹" +:+ show savings +:+ " saved, meeting your ₹"
           +:+ show savingsTarget +:+ " goal.") ]
    else
      [ AlertItem.mk
          ("savings-warning-" +:+ currentMonthStr now)
          warning
          "Savings Below Goal"
          ("Current savings (₹" +:+ show savings +:+ ") are below your target (₹"
           +:+ show savingsTarget +:+ "). Reduce spending to recover.") ]
  else [].

(** [generateAlerts(budget, transactions)], evaluated at the instant
    [now]: the four groups are pushed in this order. *)
Definition generateAlerts (now : Z) (budget : BudgetState.t)
    (transactions : list Transaction.t) : list AlertItem.t :=
  weeklyAlerts now budget transactions
  ++ categoryAlerts now budget transactions
  ++ monthlyAlerts now budget transactions
  ++ savingsAlerts now budget transactions.
End Alerts.

End Engine64.

(** *** Reading the engine's sums

    What the specification says of the three spends and of the savings,
    in its words: the amounts of the transactions that count, added up in
    the order of the list, from zero. A transaction counts for the week
    when its local day lies in the Monday-to-Sunday week of the current
    instant, and for the month when its date, read in UTC as it is stored,
    lies in the calendar month of the current instant. *)

#[global] Instance TransactionCategory_eq_dec : EqDecision TransactionCategory.
Proof. solve_decision. Defined.

Definition sumOf (amounts : list Binary64.t) : Binary64.t :=
  fold_left Binary64.add amounts Binary64.zero.

Definition inWeekOf (tz now : Z) (t : Engine64.Transaction.t) : bool :=
  weekIndex tz (Engine64.Transaction.date t) =? weekIndex tz now.

Definition inMonthOf (now : Z) (t : Engine64.Transaction.t) : bool :=
  (Date.YearFromTime (Engine64.Transaction.date t) =? Date.YearFromTime now)
  && (Date.MonthFromTime (Engine64.Transaction.date t) =? Date.MonthFromTime now).

Definition inBucket (b : BudgetBucket) (t : Engine64.Transaction.t) : bool :=
  bucket_eqb (CATEGORY_BUCKET_MAP (Engine64.Transaction.category t)) b.

Definition spendOf (counts : Engine64.Transaction.t -> bool)
    (transactions : list Engine64.Transaction.t) : Binary64.t :=
  sumOf (map Engine64.Transaction.amount (List.filter counts transactions)).

Definition weekSpend (tz now : Z) (transactions : list Engine64.Transaction.t)
    : Binary64.t :=
  spendOf (fun t => inWeekOf tz now t && inBucket Weekly t) transactions.

Definition categorySpend (tz now : Z) (cat : TransactionCategory)
    (transactions : list Engine64.Transaction.t) : Binary64.t :=
  spendOf (fun t => inWeekOf tz now t
                    && bool_decide (Engine64.Transaction.category t = cat))
    transactions.

Definition monthSpend (now : Z) (transactions : list Engine64.Transaction.t)
    : Binary64.t :=
  spendOf (fun t => inMonthOf now t && inBucket Monthly t) transactions.

(** The threshold rule of a spend limit on these numbers: critical
    exactly above the limit, warning exactly from the product
    [limit * 0.8] up to the limit. *)
Definition thresholds (alerts : list AlertItem.t) (ids : list string)
    (limit spend : Binary64.t) : Prop :=
  (emits alerts ids critical <-> Binary64.lt limit spend)
  /\ (emits alerts ids warning <->
       Binary64.leq (Binary64.mul limit (Binary64.ofDecimal (8 # 10))) spend
       /\ ~ Binary64.lt limit spend).

(** The spend in exact arithmetic, and the threshold rule in the words of
    the specification: critical exactly above the limit, warning exactly
    from 80% of the limit up to the limit. *)
Definition exactSpend (counts : Engine64.Transaction.t -> bool)
    (transactions : list Engine64.Transaction.t) : Z :=
  fold_right Z.add 0
    (map (fun t => Binary64.toZ (Engine64.Transaction.amount t))
       (List.filter counts transactions)).

Definition exactRule (alerts : list AlertItem.t) (ids : list string)
    (limit spend : Z) : Prop :=
  (emits alerts ids critical <-> limit < spend)
  /\ (emits alerts ids warning <-> 80 * limit <= 100 * spend /\ ~ limit < spend).

(** The amounts are whole numbers that are not negative and add up to
    less than 2^53. *)
Definition wholeAmounts64 (transactions : list Engine64.Transaction.t) : Prop :=
  Forall (fun t => Binary64.isWhole (Engine64.Transaction.amount t)) transactions
  /\ exactSpend (fun _ => true) transactions < 2 ^ 53.

(** The transaction with another date. *)
Definition redated64 (d : Z) (t : Engine64.Transaction.t) : Engine64.Transaction.t :=
  Engine64.Transaction.mk (Engine64.Transaction.id t) (Engine64.Transaction.amount t)
    (Engine64.Transaction.category t) (Engine64.Transaction.description t) d
    (Engine64.Transaction.timestamp t).

(** ** Sample amounts *)

Module Sample64.
(** A rendering of numbers for the samples: the sign, the significand and
    the binary exponent. *)
Definition show (x : Binary64.t) : string :=
  match x with
  | S754_zero _ => "0"
  | S754_infinity s => if s then "-Infinity" else "Infinity"
  | S754_nan => "NaN"
  | S754_finite s m e =>
      (if s then "-" else "") +:+ JS.showZ (Z.pos m) +:+ "*2^" +:+ JS.showZ e
  end.

Definition tx (id : string) (amount : Q) (cat : TransactionCategory) (date : Z)
    : Engine64.Transaction.t :=
  Engine64.Transaction.mk id (Binary64.ofDecimal amount) cat "" date date.

Definition limits (weekly monthly savings : Q)
    (categories : option (list (TransactionCategory * Binary64.t)))
    : Engine64.BudgetAllocations.t :=
  Engine64.BudgetAllocations.mk (Binary64.ofDecimal weekly) (Binary64.ofDecimal monthly)
    (Binary64.ofDecimal savings) categories.

Definition budget : Engine64.BudgetState.t :=
  Engine64.BudgetState.mk (Binary64.ofZ 50000)
    (limits 1000 2000 10000
       (Some [(Groceries, Binary64.ofZ 500); (Outings, Binary64.zero)]))
    true.

(** 800 of groceries this week and 90 the week before, a bill this month
    and one in January. *)
Definition transactions : list Engine64.Transaction.t :=
  [ tx "1" 800 Groceries (Date.ofUTC 2025 3 12 9 0);
    tx "2" 1700 Bills (Date.ofUTC 2025 3 3 9 0);
    tx "3" 500 Bills (Date.ofUTC 2025 1 15 9 0);
    tx "4" 90 Groceries (Date.ofUTC 2025 3 5 9 0) ].

(** A weekly limit of 101 and 80.80 spent this week. *)
Definition budget101 : Engine64.BudgetState.t :=
  Engine64.BudgetState.mk (Binary64.ofZ 50000) (limits 101 0 0 None) true.

Definition spent8080 : list Engine64.Transaction.t :=
  [ tx "1" (8080 # 100) Groceries (Date.ofUTC 2025 3 12 9 0) ].

(** A weekly limit of 209 and four purchases of 209.00 in all. *)
Definition budget209 : Engine64.BudgetState.t :=
  Engine64.BudgetState.mk (Binary64.ofZ 50000) (limits 209 0 0 None) true.

Definition spent209 : list Engine64.Transaction.t :=
  [ tx "1" (3258 # 100) Groceries (Date.ofUTC 2025 3 10 9 0);
    tx "2" (14765 # 100) Outings (Date.ofUTC 2025 3 11 9 0);
    tx "3" (2855 # 100) Petrol (Date.ofUTC 2025 3 12 9 0);
    tx "4" (22 # 100) Other (Date.ofUTC 2025 3 13 9 0) ].

(** An income of 1000, a savings target of 912.82 and 87.18 spent. *)
Definition budget1000 : Engine64.BudgetState.t :=
  Engine64.BudgetState.mk (Binary64.ofZ 1000) (limits 0 0 (91282 # 100) None) true.

Definition spent8718 : list Engine64.Transaction.t :=
  [ tx "1" (8718 # 100) Groceries (Date.ofUTC 2024 11 2 9 0) ].
End Sample64.

(** *** Reading a text

    No character of the text satisfies [p]. *)
Fixpoint lacks (p : ascii -> bool) (s : string) : bool :=
  match s with
  | EmptyString => true
  | String c s' => negb (p c) && lacks p s'
  end.

(** A year, as [toISOString] writes the years 0 to 9999: four characters,
    the first a digit, none of them a [T]. *)
Definition yearText (s : string) : bool :=
  (String.length s =? 4)%nat
  && lacks (Ascii.eqb "T") s
  && match s with
     | String c _ => JS.isDigit c
     | EmptyString => false
     end.

(** A month or a day of the month: two characters, none of them a [T]. *)
Definition pairText (s : string) : bool :=
  (String.length s =? 2)%nat && lacks (Ascii.eqb "T") s.

(** *** Reading the splitter

    What the specification says of the chunks, in its words. The text is
    cut at its commas and line feeds: it is the pieces in their order with
    one comma or one line feed between neighbours, and no piece holds
    either. A piece is trimmed: the chunk is the piece without a margin of
    white space on each side, and neither starts nor ends with a blank.
    The white space is that of JavaScript, each character as the text
    holds it in UTF-8: the six blanks of ASCII, the no-break space, the
    ogham space mark, the spaces U+2000 to U+200A, the line and paragraph
    separators, the narrow no-break space, the medium mathematical space,
    the ideographic space and the byte order mark. *)

Definition plain (piece : string) : Prop :=
  ~ occursIn "," piece /\ ~ occursIn (String "010" "") piece.

Inductive cutAt : string -> list string -> Prop :=
  | cutAt_last (piece : string) :
      plain piece -> cutAt piece [piece]
  | cutAt_more (piece : string) (c : ascii) (rest : string) (pieces : list string) :
      plain piece -> c = ","%char \/ c = "010"%char -> cutAt rest pieces ->
      cutAt (piece +:+ String c rest) (piece :: pieces).

Definition utf8 (bytes : list nat) : string :=
  fold_right (fun b s => String (ascii_of_nat b) s) "" bytes.

Definition whiteSpace : list string :=
  map utf8
    (List.app
       [ [9]; [10]; [11]; [12]; [13]; [32]; [194; 160]; [225; 154; 128] ]%nat
       (List.app
          (map (fun b => [226; 128; b]%nat) (seq 128 11))
          [ [226; 128; 168]; [226; 128; 169]; [226; 128; 175]; [226; 129; 159];
            [227; 128; 128]; [239; 187; 191] ]%nat)).

Definition blank (c : option ascii) : Prop :=
  exists x, c = Some x /\ In x [" "; "009"; "010"; "011"; "012"; "013"]%char.

Inductive margin : string -> Prop :=
  | margin_nil : margin ""
  | margin_more (w s : string) : In w whiteSpace -> margin s -> margin (w +:+ s).

Definition trimmed (piece chunk : string) : Prop :=
  exists a b,
    piece = a +:+ chunk +:+ b /\ margin a /\ margin b
    /\ ~ blank (headOf chunk) /\ ~ blank (lastOr None chunk).

Module Sample4.
(** Purchases and a note, on two lines. *)
Definition text : string :=
  "tea 20, bus 15" +:+ String "010" "  rs. 1,200 rent , ," +:+ String "009" " later ".
End Sample4.
(** * Properties *)

#[local] Arguments String.append !_ _ : simpl nomatch.

(** ** The model on concrete inputs *)

(** The calendar: day numbers and calendar dates agree, from 1900 to
    2199, and the week days are the known ones. *)
Example calendar_round_trip :
  forallb
    (fun d => let '(y, m, dom) := Date.civil d in Date.MakeDay y m dom =? d)
    (Sample.daysFrom (-25567) (Z.to_nat 109573)) = true.
Proof. vm_compute. reflexivity. Qed.

Example date_rendering :
  Date.toISOString (Date.ofUTC 2024 12 30 18 30) = "2024-12-30T18:30:00.000Z"
  /\ Date.toDateString Sample.IST (Date.ofUTC 2024 12 30 18 30) = "Tue Dec 31 2024"
  /\ Date.toDateString 0 (Date.ofUTC 2000 3 1 0 0) = "Wed Mar 01 2000"
  /\ Date.toISOString (-1) = "1969-12-31T23:59:59.999Z".
Proof. repeat split; vm_compute; reflexivity. Qed.

(** Sunday 16 March 2025 is in the week of Monday 10 March, and not in
    the week of Monday 17 March. *)
Example isSameWeek_sunday :
  isSameWeek Sample.IST (Date.ofUTC 2025 3 16 12 0) (Date.ofUTC 2025 3 10 12 0) = true
  /\ isSameWeek Sample.IST (Date.ofUTC 2025 3 16 12 0) (Date.ofUTC 2025 3 17 12 0) = false.
Proof. split; vm_compute; reflexivity. Qed.

(** The amount pattern: the left-most match, greedy, with backtracking
    out of decimals that do not end at a word boundary. *)
Example amountRegex_matches :
  Regex.exec amountRegex "spent rs. 1,200.505 on x"
  = Some (Regex.mkResult "rs. 1,200" (Some "1,200"))
  /\ Regex.exec amountRegex "12abc 3.5.7" = Some (Regex.mkResult " 3.5" (Some "3.5"))
  /\ Regex.exec amountRegex "₹200" = Some (Regex.mkResult "₹200" (Some "200"))
  /\ Regex.exec amountRegex "room 12b" = None.
Proof. repeat split; vm_compute; reflexivity. Qed.

Example parseExpenseInput_groceries :
  parseExpenseInput Sample.IST Sample.now "Spent 1,200.50 on groceries"
  = ParsedExpense.mk (Some (120050 # 100)%Q) (Some Groceries) "Spent on groceries"
      Sample.now.
Proof. vm_compute. reflexivity. Qed.

Example parseFloat_literals :
  JS.parseFloat "  -12.50abc" = Some (- (1250 # 100))%Q
  /\ JS.parseFloat ".5" = Some (5 # 10)%Q
  /\ JS.parseFloat "abc" = None
  /\ JS.parseFloat "" = None.
Proof. repeat split; vm_compute; reflexivity. Qed.

(** ** Comparisons of numbers *)

Lemma gt_true (x y : Q) : Number.gt x y = true <-> (y < x)%Q.
Proof.
  unfold Number.gt. rewrite negb_true_iff.
  destruct (Qle_bool x y) eqn:E.
  - apply Qle_bool_iff in E. split; [discriminate | intros H; lra].
  - split; [intros _ | reflexivity].
    apply Qnot_le_lt. intros H. apply Qle_bool_iff in H. congruence.
Qed.

Lemma gt_false (x y : Q) : Number.gt x y = false <-> (x <= y)%Q.
Proof.
  unfold Number.gt. rewrite negb_false_iff. apply Qle_bool_iff.
Qed.

Lemma ge_true (x y : Q) : Number.ge x y = true <-> (y <= x)%Q.
Proof. unfold Number.ge. apply Qle_bool_iff. Qed.

Lemma ge_false (x y : Q) : Number.ge x y = false <-> (x < y)%Q.
Proof.
  unfold Number.ge. destruct (Qle_bool y x) eqn:E.
  - apply Qle_bool_iff in E. split; [discriminate | intros H; lra].
  - split; [intros _ | reflexivity].
    apply Qnot_le_lt. intros H. apply Qle_bool_iff in H. congruence.
Qed.

Lemma truthy_pos (x : Q) : (0 < x)%Q -> Number.truthy x = true.
Proof.
  intros H. unfold Number.truthy. rewrite negb_true_iff.
  destruct (Qeq_bool x 0) eqn:E; [| reflexivity].
  apply Qeq_bool_iff in E. lra.
Qed.

(** ** The alert engine *)

Section AlertProofs.
Variable tz : Z.
Variable show : Q -> string.

Lemma emits_app (l1 l2 : list AlertItem.t) ids ty :
  emits (l1 ++ l2) ids ty <-> emits l1 ids ty \/ emits l2 ids ty.
Proof.
  unfold emits. split.
  - intros (a & Ha & Hid & Hty). apply in_app_or in Ha as [Ha | Ha]; eauto 6.
  - intros [(a & Ha & H) | (a & Ha & H)]; exists a; (split; [| exact H]);
      apply in_or_app; auto.
Qed.

Lemma emits_nil ids ty : ~ emits [] ids ty.
Proof. intros (a & Ha & _). exact Ha. Qed.

(** No alert of a list whose identifiers avoid [ids] is reported for
    [ids]. *)
Lemma emits_foreign (l : list AlertItem.t) ids ty :
  (forall a, In a l -> ~ In (AlertItem.id a) ids) -> ~ emits l ids ty.
Proof. intros H (a & Ha & Hid & _). exact (H a Ha Hid). Qed.

Lemma emits_single (a : AlertItem.t) ids ty :
  emits [a] ids ty <-> In (AlertItem.id a) ids /\ AlertItem.type a = ty.
Proof.
  unfold emits. split.
  - intros (b & [<- | []] & H). exact H.
  - intros H. exists a. split; [left; reflexivity | exact H].
Qed.

(** Where the identifiers of each group of alerts lie. *)
Lemma weeklyAlerts_ids now budget txs a :
  In a (weeklyAlerts tz show now budget txs) -> In (AlertItem.id a) (weeklyLimitIds now).
Proof.
  unfold weeklyAlerts, weeklyLimitIds.
  repeat match goal with |- context [if ?b then _ else _] => destruct b end;
    simpl; intros H; intuition (subst; simpl; auto).
Qed.

Lemma monthlyAlerts_ids now budget txs a :
  In a (monthlyAlerts show now budget txs) -> In (AlertItem.id a) (monthlyLimitIds now).
Proof.
  unfold monthlyAlerts, monthlyLimitIds.
  repeat match goal with |- context [if ?b then _ else _] => destruct b end;
    simpl; intros H; intuition (subst; simpl; auto).
Qed.

Lemma categoryAlert_ids now txs limits cat a :
  In a (categoryAlert tz show now txs limits cat) ->
  In (AlertItem.id a) (categoryLimitIds now cat).
Proof.
  unfold categoryAlert, categoryLimitIds.
  repeat match goal with |- context [if ?b then _ else _] => destruct b end;
    simpl; intros H; intuition (subst; simpl; auto).
Qed.

Lemma savingsAlerts_ids now budget txs a :
  In a (savingsAlerts show now budget txs) -> isSavingsAlert a = true.
Proof.
  unfold savingsAlerts.
  repeat match goal with |- context [if ?b then _ else _] => destruct b end;
    simpl; intros H; intuition (subst; reflexivity).
Qed.

(** The identifiers of different limits are different. *)
Ltac distinct_ids :=
  unfold weeklyLimitIds, categoryLimitIds, monthlyLimitIds;
  cbv [In String.append categoryName];
  intuition (subst; try reflexivity; try congruence).

Lemma weekly_not_category now cat i :
  In i (weeklyLimitIds now) -> ~ In i (categoryLimitIds now cat).
Proof. distinct_ids. Qed.

Lemma weekly_not_monthly now i :
  In i (weeklyLimitIds now) -> ~ In i (monthlyLimitIds now).
Proof. distinct_ids. Qed.

Lemma category_not_monthly now cat i :
  In i (categoryLimitIds now cat) -> ~ In i (monthlyLimitIds now).
Proof. distinct_ids. Qed.

Lemma category_ids_inj now c c' i :
  In i (categoryLimitIds now c) -> In i (categoryLimitIds now c') -> c = c'.
Proof.
  destruct c, c'; distinct_ids.
Qed.

Lemma savings_not_spend now a :
  isSavingsAlert a = true ->
  ~ In (AlertItem.id a) (weeklyLimitIds now)
  /\ (forall cat, ~ In (AlertItem.id a) (categoryLimitIds now cat))
  /\ ~ In (AlertItem.id a) (monthlyLimitIds now).
Proof.
  unfold isSavingsAlert, JS.startsWith. intros H.
  split; [| split; [intros cat |]]; intros Hin; revert H;
    unfold weeklyLimitIds, categoryLimitIds, monthlyLimitIds in Hin;
    cbv [In] in Hin;
    intuition (match goal with E : _ = AlertItem.id a |- _ => rewrite <- E in * end;
               cbv [String.append] in *; simpl in *; congruence).
Qed.

(** The two-branch test that every spend limit goes through. *)
Lemma thresholdRule_group ids (c w : AlertItem.t) (limit spend : Q) :
  In (AlertItem.id c) ids -> AlertItem.type c = critical ->
  In (AlertItem.id w) ids -> AlertItem.type w = warning ->
  thresholdRule
    (if Number.gt spend limit then [c]
     else if Number.ge spend (limit * (8 # 10))%Q then [w] else [])
    ids limit spend.
Proof.
  intros Hc Tc Hw Tw. unfold thresholdRule.
  destruct (Number.gt spend limit) eqn:G.
  - apply gt_true in G. rewrite !emits_single, Tc. split.
    + tauto.
    + split; [intros [_ ?]; discriminate | tauto].
  - apply gt_false in G.
    destruct (Number.ge spend (limit * (8 # 10))%Q) eqn:E.
    + apply ge_true in E. rewrite !emits_single, Tw. split.
      * split; [intros [_ ?]; discriminate | intros ?; lra].
      * split; [intros _; split; lra | tauto].
    + apply ge_false in E. split.
      * split; [intros H; destruct (emits_nil _ _ H) | intros ?; lra].
      * split; [intros H; destruct (emits_nil _ _ H) | intros [? _]; lra].
Qed.

Lemma thresholdRule_ext (l l' : list AlertItem.t) ids limit spend :
  (forall ty, emits l' ids ty <-> emits l ids ty) ->
  thresholdRule l ids limit spend -> thresholdRule l' ids limit spend.
Proof. unfold thresholdRule. intros H [H1 H2]. rewrite !H. tauto. Qed.

Lemma category_eqb_eq (a b : TransactionCategory) :
  category_eqb a b = true <-> a = b.
Proof. destruct a, b; cbv; split; congruence. Qed.

Lemma lookupCategory_key {A : Type} (o : list (TransactionCategory * A)) cat v :
  lookupCategory o cat = Some v -> In cat (map fst o).
Proof.
  induction o as [| [k x] o IH]; simpl; [discriminate |].
  destruct (category_eqb k cat) eqn:E.
  - apply category_eqb_eq in E. auto.
  - auto.
Qed.

(** Among the alerts of all the categories, those of one category are
    the ones its own round of the loop pushed. *)
Lemma emits_category now txs limits keys cat ty :
  In cat keys ->
  emits (flat_map (categoryAlert tz show now txs limits) keys)
        (categoryLimitIds now cat) ty
  <-> emits (categoryAlert tz show now txs limits cat) (categoryLimitIds now cat) ty.
Proof.
  intros Hkey. unfold emits. split.
  - intros (a & Ha & Hid & Hty). apply in_flat_map in Ha as (c & Hc & Ha).
    pose proof (categoryAlert_ids _ _ _ _ _ Ha) as Hid'.
    rewrite (category_ids_inj _ _ _ _ Hid Hid'). eauto.
  - intros (a & Ha & H). exists a. split; [| exact H].
    apply in_flat_map. eauto.
Qed.

Lemma emits_weekly now budget txs ty :
  emits (generateAlerts tz show now budget txs) (weeklyLimitIds now) ty
  <-> emits (weeklyAlerts tz show now budget txs) (weeklyLimitIds now) ty.
Proof.
  unfold generateAlerts. rewrite !emits_app. split; [| tauto].
  intros [H | [H | [H | H]]]; [exact H | exfalso; revert H ..];
    apply emits_foreign; intros a Ha Hid.
  - unfold categoryAlerts in Ha. apply in_flat_map in Ha as (c & _ & Ha).
    apply categoryAlert_ids in Ha. exact (weekly_not_category _ _ _ Hid Ha).
  - apply monthlyAlerts_ids in Ha. exact (weekly_not_monthly _ _ Hid Ha).
  - apply savingsAlerts_ids in Ha. apply (savings_not_spend now) in Ha. tauto.
Qed.

Lemma emits_monthly now budget txs ty :
  emits (generateAlerts tz show now budget txs) (monthlyLimitIds now) ty
  <-> emits (monthlyAlerts show now budget txs) (monthlyLimitIds now) ty.
Proof.
  unfold generateAlerts. rewrite !emits_app. split; [| tauto].
  intros [H | [H | [H | H]]]; [exfalso; revert H | exfalso; revert H | exact H
                              | exfalso; revert H];
    apply emits_foreign; intros a Ha Hid.
  - apply weeklyAlerts_ids in Ha. exact (weekly_not_monthly _ _ Ha Hid).
  - unfold categoryAlerts in Ha. apply in_flat_map in Ha as (c & _ & Ha).
    apply categoryAlert_ids in Ha. exact (category_not_monthly _ _ _ Ha Hid).
  - apply savingsAlerts_ids in Ha. apply (savings_not_spend now) in Ha. tauto.
Qed.

Lemma emits_categories now budget txs cat ty :
  emits (generateAlerts tz show now budget txs) (categoryLimitIds now cat) ty
  <-> emits (categoryAlerts tz show now budget txs) (categoryLimitIds now cat) ty.
Proof.
  unfold generateAlerts. rewrite !emits_app. split; [| tauto].
  intros [H | [H | [H | H]]]; [exfalso; revert H | exact H | exfalso; revert H ..];
    apply emits_foreign; intros a Ha Hid.
  - apply weeklyAlerts_ids in Ha. exact (weekly_not_category _ _ _ Ha Hid).
  - apply monthlyAlerts_ids in Ha. exact (category_not_monthly _ _ _ Hid Ha).
  - apply savingsAlerts_ids in Ha. apply (savings_not_spend now) in Ha.
    destruct Ha as (_ & Ha & _). exact (Ha cat Hid).
Qed.

Lemma weekly_rule now budget txs :
  (0 < BudgetAllocations.weeklyLimit (BudgetState.allocations budget))%Q ->
  thresholdRule (generateAlerts tz show now budget txs) (weeklyLimitIds now)
    (BudgetAllocations.weeklyLimit (BudgetState.allocations budget))
    (weeklyBucketTotal tz now txs).
Proof.
  intros Hpos. eapply thresholdRule_ext; [apply emits_weekly |].
  unfold weeklyAlerts. apply gt_true in Hpos. rewrite Hpos.
  apply thresholdRule_group; unfold weeklyLimitIds; simpl; auto.
Qed.

Lemma monthly_rule now budget txs :
  (0 < BudgetAllocations.monthlyLimit (BudgetState.allocations budget))%Q ->
  thresholdRule (generateAlerts tz show now budget txs) (monthlyLimitIds now)
    (BudgetAllocations.monthlyLimit (BudgetState.allocations budget))
    (monthlyBucketTotal now txs).
Proof.
  intros Hpos. eapply thresholdRule_ext; [apply emits_monthly |].
  unfold monthlyAlerts. apply gt_true in Hpos. rewrite Hpos.
  apply thresholdRule_group; unfold monthlyLimitIds; simpl; auto.
Qed.

Lemma category_rule now budget txs limits cat limit :
  BudgetAllocations.weeklyCategoryLimits (BudgetState.allocations budget) = Some limits ->
  lookupCategory limits cat = Some limit ->
  (0 < limit)%Q ->
  thresholdRule (generateAlerts tz show now budget txs) (categoryLimitIds now cat)
    limit (catSpent tz now txs cat).
Proof.
  intros Hl Hc Hpos. eapply thresholdRule_ext; [apply emits_categories |].
  unfold categoryAlerts. rewrite Hl.
  eapply thresholdRule_ext;
    [intros ty; apply emits_category, (lookupCategory_key _ _ _ Hc) |].
  unfold categoryAlert. rewrite Hc, (truthy_pos _ Hpos).
  destruct (Qle_bool limit 0) eqn:E; [apply Qle_bool_iff in E; lra |].
  apply thresholdRule_group; unfold categoryLimitIds; simpl; auto.
Qed.
End AlertProofs.

(** ** The savings goal *)

Lemma sumAmounts_from (l : list Transaction.t) (acc : Q) :
  (fold_left (fun sum t => sum + Transaction.amount t) l acc == acc + totalOf l)%Q.
Proof.
  revert acc. induction l as [| t l IH]; intros acc; unfold totalOf; simpl.
  - lra.
  - rewrite IH. unfold totalOf. lra.
Qed.

Lemma sumAmounts_total (l : list Transaction.t) : (sumAmounts l == totalOf l)%Q.
Proof. unfold sumAmounts. rewrite sumAmounts_from. lra. Qed.

Lemma filter_none {A : Type} (f : A -> bool) (l : list A) :
  (forall a, In a l -> f a = false) -> List.filter f l = [].
Proof.
  induction l as [| x l IH]; simpl; intros H; [reflexivity |].
  rewrite (H x) by auto. auto.
Qed.

Lemma filter_all {A : Type} (f : A -> bool) (l : list A) :
  (forall a, In a l -> f a = true) -> List.filter f l = l.
Proof.
  induction l as [| x l IH]; simpl; intros H; [reflexivity |].
  rewrite (H x) by auto. f_equal. auto.
Qed.

Lemma not_savings_alert now a :
  In (AlertItem.id a) (weeklyLimitIds now)
  \/ (exists cat, In (AlertItem.id a) (categoryLimitIds now cat))
  \/ In (AlertItem.id a) (monthlyLimitIds now) ->
  isSavingsAlert a = false.
Proof.
  intros H. destruct (isSavingsAlert a) eqn:E; [| reflexivity].
  destruct (savings_not_spend now a E) as (H1 & H2 & H3).
  destruct H as [H | [[cat H] | H]]; [destruct (H1 H) | destruct (H2 cat H) | destruct (H3 H)].
Qed.

(** The savings alerts of [generateAlerts] are the ones its last block
    pushes. *)
Lemma only_savings_block tz show now budget txs :
  List.filter isSavingsAlert (generateAlerts tz show now budget txs)
  = savingsAlerts show now budget txs.
Proof.
  unfold generateAlerts. rewrite !List.filter_app.
  rewrite (filter_none _ (weeklyAlerts _ _ _ _ _)),
          (filter_none _ (categoryAlerts _ _ _ _ _)),
          (filter_none _ (monthlyAlerts _ _ _ _)),
          (filter_all _ (savingsAlerts _ _ _ _)).
  - reflexivity.
  - intros a. apply savingsAlerts_ids.
  - intros a Ha. apply (not_savings_alert now). right; right.
    exact (monthlyAlerts_ids _ _ _ _ _ Ha).
  - intros a Ha. apply (not_savings_alert now). right; left.
    unfold categoryAlerts in Ha. apply in_flat_map in Ha as (c & _ & Ha).
    exists c. exact (categoryAlert_ids _ _ _ _ _ _ _ Ha).
  - intros a Ha. apply (not_savings_alert now). left.
    exact (weeklyAlerts_ids _ _ _ _ _ _ Ha).
Qed.

(** ** The Monthly Expenses figure of the dashboard *)

Lemma filter_filter {A : Type} (f g : A -> bool) (l : list A) :
  List.filter g (List.filter f l) = List.filter (fun x => f x && g x) l.
Proof.
  induction l as [| x l IH]; simpl; [reflexivity |].
  destruct (f x); simpl; [destruct (g x) |]; rewrite IH; reflexivity.
Qed.

Lemma filter_map_redated (f : Z -> Z) (l : list Transaction.t) :
  List.filter inMonthlyBucket (map (fun t => redated (f (Transaction.date t)) t) l)
  = map (fun t => redated (f (Transaction.date t)) t) (List.filter inMonthlyBucket l).
Proof.
  induction l as [| t l IH]; simpl; [reflexivity |].
  change (inMonthlyBucket (redated (f (Transaction.date t)) t))
    with (inMonthlyBucket t).
  destruct (inMonthlyBucket t); simpl; rewrite IH; reflexivity.
Qed.

Lemma sumAmounts_redated (f : Z -> Z) (l : list Transaction.t) :
  sumAmounts (map (fun t => redated (f (Transaction.date t)) t) l) = sumAmounts l.
Proof.
  unfold sumAmounts. generalize 0%Q.
  induction l as [| t l IH]; intros acc; simpl; [reflexivity | apply IH].
Qed.

(** C9. The Monthly Expenses figure of the dashboard is the sum of the
    amounts of all the transactions whose category is in the Monthly
    bucket: it is the same whatever the dates of the transactions are. The
    alert engine's [monthlyBucketTotal] is that figure for the
    transactions dated in the current month only, and the two differ as
    soon as a Monthly transaction of another month exists. *)
Theorem dashboard_monthly_unfiltered :
  (forall txs,
     (Dashboard.monthlyBucketSpent txs == totalOf (List.filter inMonthlyBucket txs))%Q)
  /\ (forall (f : Z -> Z) txs,
        Dashboard.monthlyBucketSpent (map (fun t => redated (f (Transaction.date t)) t) txs)
        = Dashboard.monthlyBucketSpent txs)
  /\ (forall now txs,
        monthlyBucketTotal now txs
        = Dashboard.monthlyBucketSpent (List.filter (isThisMonth now) txs))
  /\ (Dashboard.monthlyBucketSpent Sample.transactions == 2200)%Q
  /\ (monthlyBucketTotal Sample.now Sample.transactions == 1700)%Q.
Proof.
  split; [intros txs; apply sumAmounts_total |].
  split.
  { intros f txs. unfold Dashboard.monthlyBucketSpent.
    change (fun t => bucket_eqb (CATEGORY_BUCKET_MAP (Transaction.category t)) Monthly)
      with inMonthlyBucket.
    rewrite filter_map_redated. apply sumAmounts_redated. }
  split.
  { intros now txs. unfold monthlyBucketTotal, Dashboard.monthlyBucketSpent.
    rewrite filter_filter. reflexivity. }
  split; vm_compute; reflexivity.
Qed.

(** ** The category scan of the parser *)

Lemma prefix_spec (w s : string) :
  String.prefix w s = true <-> exists b, s = w +:+ b.
Proof.
  revert s. induction w as [| c w IH]; intros s.
  - split; [intros _; exists s; reflexivity | intros _; destruct s; reflexivity].
  - destruct s as [| d s]; simpl.
    + split; [discriminate | intros [b H]; discriminate].
    + destruct (ascii_dec c d) as [-> | Hne].
      * rewrite IH. split; intros [b H]; exists b; simpl in *; congruence.
      * split; [discriminate | intros [b H]; simpl in H; congruence].
Qed.

Lemma includes_spec (s w : string) :
  JS.includes s w = true <-> occursIn w s.
Proof.
  unfold occursIn. induction s as [| c s IH].
  - unfold JS.includes. rewrite orb_false_r, prefix_spec. split.
    + intros [b H]. exists EmptyString, b. exact H.
    + intros (a & b & H). destruct a; [eauto | discriminate].
  - change (JS.includes (String c s) w)
      with (String.prefix w (String c s) || JS.includes s w).
    rewrite orb_true_iff, prefix_spec, IH. split.
    + intros [[b H] | (a & b & H)].
      * exists EmptyString, b. exact H.
      * exists (String c a), b. simpl. congruence.
    + intros (a & b & H). destruct a as [| d a]; [left; eauto |].
      right. exists a, b. simpl in H. congruence.
Qed.

Lemma existsb_matches (lowerText : string) (c : TransactionCategory) (words : list string) :
  existsb (fun word => JS.includes lowerText word) words = true
  <-> matchesEntry lowerText (c, words).
Proof.
  unfold matchesEntry. rewrite existsb_exists. simpl.
  split; intros (w & Hw & H); exists w; (split; [exact Hw |]);
    apply includes_spec; exact H.
Qed.

(** The loop returns a category exactly when it is the first match. *)
Lemma scanKeywords_first table lowerText c :
  scanKeywords table lowerText = Some c <-> 
  exists before words after,
    table = (before ++ (c, words) :: after)%list
    /\ matchesEntry lowerText (c, words)
    /\ Forall (fun entry => ~ matchesEntry lowerText entry) before.
Proof.
  induction table as [| [k ws] table IH]; simpl.
  - split; [discriminate |]. intros (b & w & a & H & _). destruct b; discriminate.
  - destruct (existsb _ ws) eqn:E.
    + apply (existsb_matches lowerText k) in E. split.
      * intros [= <-]. exists [], ws, table. auto.
      * intros (b & w & a & H & Hm & Hb). destruct b as [| e b].
        -- simpl in H. congruence.
        -- simpl in H. injection H as <- _. apply Forall_inv in Hb. tauto.
    + assert (Hno : ~ matchesEntry lowerText (k, ws)).
      { intros H. apply (existsb_matches lowerText k) in H. congruence. }
      rewrite IH. split.
      * intros (b & w & a & -> & Hm & Hb). exists ((k, ws) :: b), w, a. auto.
      * intros (b & w & a & H & Hm & Hb). destruct b as [| e b]; simpl in H.
        -- injection H as <- <- _. tauto.
        -- injection H as <- ->. apply Forall_inv_tail in Hb. eauto 6.
Qed.

Lemma scanKeywords_none table lowerText :
  scanKeywords table lowerText = None <->
  Forall (fun entry => ~ matchesEntry lowerText entry) table.
Proof.
  induction table as [| [k ws] table IH]; simpl.
  - split; auto.
  - destruct (existsb _ ws) eqn:E.
    + apply (existsb_matches lowerText k) in E. split; [discriminate |].
      intros H. apply Forall_inv in H. tauto.
    + rewrite IH. split.
      * intros H. constructor; [| exact H].
        intros Hm. apply (existsb_matches lowerText k) in Hm. congruence.
      * apply Forall_inv_tail.
Qed.

Lemma parseExpenseInput_category tz now text c :
  scanKeywords keywords (JS.toLowerCase text) = Some c ->
  ParsedExpense.category (parseExpenseInput tz now text) = Some c.
Proof.
  intros H. unfold parseExpenseInput. cbv zeta. cbn [ParsedExpense.category].
  rewrite H. reflexivity.
Qed.

(** C3, with the example as the specification has it, fails: "zomato order
    for dinner, 300" is not put in Orders. *)
Lemma zomato_dinner_not_orders :
  ParsedExpense.category
    (parseExpenseInput Sample.IST Sample.now "zomato order for dinner, 300")
  <> Some Orders.
Proof. vm_compute. discriminate. Qed.

(** C3, amended. For every text, the category the parser extracts is the
    first category, in the order of the keyword table, one of whose
    keywords occurs somewhere in the lowercased text. Outings comes
    before Orders in the table, so "zomato order for dinner, 300", which
    has "dinner" of Outings and "zomato" of Orders, is put in Outings;
    split at the comma by [parseMultipleExpenses], it gives one item, "300",
    of category Miscellaneous. *)
Theorem category_first_match (tz now : Z) :
  (forall text c,
     firstMatch keywords (JS.toLowerCase text) c ->
     ParsedExpense.category (parseExpenseInput tz now text) = Some c)
  /\ ParsedExpense.category (parseExpenseInput tz now "zomato order for dinner, 300")
     = Some Outings
  /\ map ParsedExpense.category (parseMultipleExpenses tz now "zomato order for dinner, 300")
     = [Some Miscellaneous].
Proof.
  split.
  - intros text c H. apply parseExpenseInput_category, scanKeywords_first. exact H.
  - split; vm_compute; reflexivity.
Qed.

(** "Lunch at Zomato cafe" has keywords of Outings and of Orders, and none
    of Groceries: it is put in Outings. *)
Lemma category_first_match_witness :
  ParsedExpense.category (parseExpenseInput Sample.IST Sample.now "Lunch at Zomato cafe")
  = Some Outings.
Proof.
  apply (proj1 (category_first_match Sample.IST Sample.now)).
  apply scanKeywords_first. vm_compute. reflexivity.
Defined.

(** ** The regular expression matcher *)

Section RegexProofs.
Import Regex.

Lemma append_assoc (a b c : string) : (a +:+ b) +:+ c = a +:+ (b +:+ c).
Proof. induction a as [| x a IH]; simpl; [reflexivity | rewrite IH; reflexivity]. Qed.

Lemma append_empty_r (a : string) : a +:+ "" = a.
Proof. induction a as [| x a IH]; simpl; [reflexivity | rewrite IH; reflexivity]. Qed.

Lemma lastOr_app (o : option ascii) (a b : string) :
  lastOr o (a +:+ b) = lastOr (lastOr o a) b.
Proof. revert o. induction a as [| x a IH]; intros o; simpl; [reflexivity | apply IH]. Qed.

Lemma reach_refl (p : pos) : reach p p "".
Proof. split; reflexivity. Qed.

Lemma reach_trans (p q r : pos) (u v : string) :
  reach p q u -> reach q r v -> reach p r (u +:+ v).
Proof.
  intros [H1 H2] [H3 H4]. split.
  - rewrite H1, H3, append_assoc. reflexivity.
  - rewrite H4, H2, lastOr_app. reflexivity.
Qed.

Lemma iterate_reach (f : pos -> list pos) :
  (forall p q, In q (f p) -> exists u, reach p q u) ->
  forall n p q, In q (iterate n f p) -> exists u, reach p q u.
Proof.
  intros Hf. induction n as [| n IH]; intros p q; simpl.
  - intros [<- | []]. exists "". apply reach_refl.
  - intros H. apply in_app_or in H as [H | [<- | []]].
    + apply in_flat_map in H as (m & Hm & H).
      destruct (String.length (rest m) <? String.length (rest p))%nat; [| destruct H].
      destruct (Hf _ _ Hm) as [u Hu]. destruct (IH _ _ H) as [v Hv].
      exists (u +:+ v). eapply reach_trans; eassumption.
    + exists "". apply reach_refl.
Qed.

(** Whatever a pattern matches is a piece of the text after the
    position. *)
Lemma run_reach (r : Regex.t) :
  forall p q, In q (run r p) -> exists u, reach p q u.
Proof.
  induction r as [| c | r1 IH1 r2 IH2 | r1 IH1 r2 IH2 | r IH | r IH |];
    intros p q; simpl.
  - intros [<- | []]. exists "". apply reach_refl.
  - destruct (rest p) as [| x s] eqn:E; [intros [] |].
    destruct (c x); [| intros []]. intros [<- | []].
    exists (String x ""). split; simpl; [exact E | reflexivity].
  - intros H. apply in_flat_map in H as (m & Hm & H).
    destruct (IH1 _ _ Hm) as [u Hu]. destruct (IH2 _ _ H) as [v Hv].
    exists (u +:+ v). eapply reach_trans; eassumption.
  - intros H. apply in_app_or in H as [H | H]; eauto.
  - apply iterate_reach. exact IH.
  - intros H. apply in_map_iff in H as (m & <- & Hm).
    destruct (IH _ _ Hm) as [u Hu]. exists u. exact Hu.
  - destruct (atBoundary p); [| intros []]. intros [<- | []].
    exists "". apply reach_refl.
Qed.

Lemma iterate_self (n : nat) (f : pos -> list pos) (p : pos) : In p (iterate n f p).
Proof. destruct n; simpl; [auto | apply in_or_app; simpl; auto]. Qed.

Lemma iterate_keeps (P : pos -> Prop) (f : pos -> list pos) :
  (forall p q, In q (f p) -> P q) ->
  forall n p q, P p -> In q (iterate n f p) -> P q.
Proof.
  intros Hf. induction n as [| n IH]; intros p q Hp; simpl.
  - intros [<- | []]. exact Hp.
  - intros H. apply in_app_or in H as [H | [<- | []]]; [| exact Hp].
    apply in_flat_map in H as (m & Hm & H).
    destruct (String.length (rest m) <? String.length (rest p))%nat; [| destruct H].
    eapply IH; [| exact H]. eapply Hf. exact Hm.
Qed.

(** The bound on the rounds of an iteration is enough: with a pattern
    that never gives text back, any larger bound gives the same
    positions in the same order. *)
Lemma iterate_enough (f : pos -> list pos) :
  (forall p q, In q (f p) -> (String.length (rest q) <= String.length (rest p))%nat) ->
  forall n m p,
    (String.length (rest p) <= n)%nat -> (String.length (rest p) <= m)%nat ->
    iterate n f p = iterate m f p.
Proof.
  intros Hf.
  assert (Hstep : forall (g h : pos -> list pos) (l : list pos),
             (forall q, In q l -> g q = h q) -> flat_map g l = flat_map h l).
  { intros g h l. induction l as [| x l IH]; simpl; intros H; [reflexivity |].
    rewrite (H x) by auto. f_equal. apply IH. intros q Hq. apply H. auto. }
  induction n as [| n IH]; intros m p Hn Hm.
  - destruct m as [| m]; [reflexivity |]. simpl.
    rewrite (Hstep _ (fun _ => []) (f p)).
    + induction (f p) as [| x l IHl]; simpl; [reflexivity | exact IHl].
    + intros q _. destruct (Nat.ltb_spec (String.length (rest q)) (String.length (rest p)));
        [lia | reflexivity].
  - destruct m as [| m]; simpl.
    + rewrite (Hstep _ (fun _ => []) (f p)).
      * induction (f p) as [| x l IHl]; simpl; [reflexivity | exact IHl].
      * intros q _. destruct (Nat.ltb_spec (String.length (rest q)) (String.length (rest p)));
          [lia | reflexivity].
    + f_equal. apply Hstep. intros q Hq.
      destruct (Nat.ltb_spec (String.length (rest q)) (String.length (rest p)));
        [| reflexivity].
      apply IH; lia.
Qed.

Lemma run_shorter (r : Regex.t) (p q : pos) :
  In q (run r p) -> (String.length (rest q) <= String.length (rest p))%nat.
Proof.
  intros H. apply run_reach in H as (u & Hu & _). rewrite Hu.
  clear. induction u as [| x u IH]; simpl; lia.
Qed.

(** *** The amount pattern *)

Lemma class_digit p q :
  In q (run (Class JS.isDigit) p) ->
  exists d s, rest p = String d s /\ JS.isDigit d = true
              /\ q = mkPos (Some d) s (cap p).
Proof.
  simpl. destruct (rest p) as [| x s]; [intros [] |].
  destruct (JS.isDigit x) eqn:E; [| intros []].
  intros [<- | []]. eauto.
Qed.

Lemma class_digit_ends p q : In q (run (Class JS.isDigit) p) -> endsDigit q.
Proof.
  intros H. apply class_digit in H as (d & s & _ & Hd & ->). exists d. auto.
Qed.

Lemma digits_ends p q : In q (run digits p) -> endsDigit q.
Proof.
  unfold digits, Plus. intros H. simpl in H.
  apply in_flat_map in H as (m & Hm & H).
  eapply (iterate_keeps endsDigit); [| | exact H].
  - intros a b. apply class_digit_ends.
  - eapply class_digit_ends. exact Hm.
Qed.

(** A match of [\d+] starts with a digit. *)
Lemma digits_first p q :
  In q (run digits p) ->
  exists d u, reach p q (String d u) /\ JS.isDigit d = true.
Proof.
  unfold digits, Plus. intros H.
  change (run (Seq ?a ?b) p) with (flat_map (run b) (run a p)) in H.
  apply in_flat_map in H as (m & Hm & H).
  apply class_digit in Hm as (d & s & Hp & Hd & ->).
  apply run_reach in H as (u & Hu & Hv). simpl in Hu, Hv.
  exists d, u. split; [| exact Hd]. split; simpl; [congruence | exact Hv].
Qed.

Lemma opt_keeps (P : pos -> Prop) (r : Regex.t) :
  (forall p q, In q (run r p) -> P q) ->
  forall p q, P p -> In q (run (Opt r) p) -> P q.
Proof.
  intros Hr p q Hp H. simpl in H. apply in_app_or in H as [H | [<- | []]]; eauto.
Qed.

(** Every match of the number pattern starts and ends with a digit. *)
Lemma numberPattern_sound p q :
  In q (run numberPattern p) ->
  (exists d u, reach p q (String d u) /\ JS.isDigit d = true)
  /\ endsDigit q.
Proof.
  unfold numberPattern. intros H.
  change (run (Seq ?a ?b) p) with (flat_map (run b) (run a p)) in H.
  apply in_flat_map in H as (m & Hm & H). split.
  - apply digits_first in Hm as (d & u & Hp & Hd).
    apply run_reach in H as (v & Hv).
    exists d, (u +:+ v). split; [| exact Hd].
    exact (reach_trans _ _ _ _ _ Hp Hv).
  - apply digits_ends in Hm.
    change (run (Seq ?a ?b) m) with (flat_map (run b) (run a m)) in H.
    apply in_flat_map in H as (m' & Hm' & H).
    assert (Hends : endsDigit m').
    { change (run (Star ?a) m) with (iterate (String.length (rest m)) (run a) m) in Hm'.
      eapply (iterate_keeps endsDigit); [| exact Hm | exact Hm'].
      intros a b Hab.
      change (run (Seq ?x ?y) a) with (flat_map (run y) (run x a)) in Hab.
      apply in_flat_map in Hab as (c & _ & Hc). eapply digits_ends. exact Hc. }
    eapply (opt_keeps endsDigit); [| exact Hends | exact H].
    intros a b Hab.
    change (run (Seq ?x ?y) a) with (flat_map (run y) (run x a)) in Hab.
    apply in_flat_map in Hab as (c & _ & Hc).
    change (run (Seq ?x ?y) c) with (flat_map (run y) (run x c)) in Hc.
    apply in_flat_map in Hc as (e & He & Hc).
    eapply (opt_keeps endsDigit); [| | exact Hc].
    + intros ? ?. apply class_digit_ends.
    + eapply class_digit_ends. exact He.
Qed.

Lemma length_append (a b : string) :
  String.length (a +:+ b) = (String.length a + String.length b)%nat.
Proof. induction a as [| x a IH]; simpl; [reflexivity | rewrite IH; reflexivity]. Qed.

Lemma take_append (a b : string) :
  take (String.length (a +:+ b) - String.length b) (a +:+ b) = a.
Proof.
  rewrite length_append.
  replace (String.length a + String.length b - String.length b)%nat
    with (String.length a) by lia.
  induction a as [| x a IH]; simpl.
  - destruct b; reflexivity.
  - rewrite IH. reflexivity.
Qed.

Lemma between_reach p q u : reach p q u -> between p q = u.
Proof. intros [H _]. unfold between. rewrite H. apply take_append. Qed.

Lemma digit_is_word d : JS.isDigit d = true -> JS.isWordChar d = true.
Proof.
  intros H. unfold JS.isWordChar. rewrite H.
  rewrite orb_true_r. reflexivity.
Qed.

Lemma lastOr_split (d e : ascii) (u : string) :
  lastOr (Some d) u = Some e -> exists a, String d u = a +:+ String e "".
Proof.
  revert d. induction u as [| x u IH]; intros d; simpl.
  - intros [= ->]. exists "". reflexivity.
  - intros H. destruct (IH _ H) as [a Ha]. exists (String d a).
    simpl. rewrite Ha. reflexivity.
Qed.

Lemma hasDigitBoundary_tail (a s : string) :
  hasDigitBoundary s = true -> hasDigitBoundary (a +:+ s) = true.
Proof.
  intros H. induction a as [| x a IH]; simpl; [exact H |].
  rewrite IH. apply orb_true_r.
Qed.

Lemma hasDigitBoundary_at (a : string) (e : ascii) (b : string) :
  JS.isDigit e = true -> isWordAt (headOf b) = false ->
  hasDigitBoundary (a +:+ String e b) = true.
Proof.
  intros He Hb. apply hasDigitBoundary_tail. simpl. rewrite He, Hb. reflexivity.
Qed.

(** Every match of the amount pattern ends just after a digit that is
    followed by no word character, and captures a text that starts
    with a digit. *)
Lemma amountRegex_sound p q :
  In q (run amountRegex p) ->
  hasDigitBoundary (rest p) = true
  /\ exists d g, cap q = Some (String d g) /\ JS.isDigit d = true.
Proof.
  intros H. unfold amountRegex in H.
  change (run (Seq ?a ?b) p) with (flat_map (run b) (run a p)) in H.
  apply in_flat_map in H as (p0 & H0 & H).
  change (run (Seq ?a ?b) p0) with (flat_map (run b) (run a p0)) in H.
  apply in_flat_map in H as (p1 & H1 & H).
  change (run (Seq ?a ?b) p1) with (flat_map (run b) (run a p1)) in H.
  apply in_flat_map in H as (p2 & Hg & H).
  change (run (Group ?a) p1)
    with (map (fun q => mkPos (prev q) (rest q) (Some (between p1 q))) (run a p1)) in Hg.
  apply in_map_iff in Hg as (m & <- & Hm).
  apply run_reach in H0 as (w0 & Hw0). apply run_reach in H1 as (w1 & Hw1).
  pose proof (reach_trans _ _ _ _ _ Hw0 Hw1) as Hw.
  apply numberPattern_sound in Hm as ((d & u & Hp & Hd) & (e & He & Hde)).
  simpl in H. unfold atBoundary in H. simpl in H. rewrite He in H. simpl in H.
  rewrite (digit_is_word _ Hde) in H. simpl in H.
  destruct (isWordAt (next _)) eqn:Hn; simpl in H; [destruct H |].
  destruct H as [<- | []]. simpl. split.
  - destruct Hw as [Hw _]. destruct Hp as [Hp Hl]. rewrite He in Hl. simpl in Hl.
    symmetry in Hl. apply lastOr_split in Hl as [a Ha].
    rewrite Hw, Hp, Ha, !append_assoc. simpl.
    do 2 apply hasDigitBoundary_tail.
    apply hasDigitBoundary_at; [exact Hde | exact Hn].
  - exists d, u. split; [| exact Hd]. f_equal. apply between_reach. exact Hp.
Qed.

(** At a digit that ends a word the amount pattern matches. *)
Lemma amountRegex_complete p d b :
  rest p = String d b -> JS.isDigit d = true -> isWordAt (headOf b) = false ->
  exists q, In q (run amountRegex p).
Proof.
  intros Hp Hd Hb.
  set (m := mkPos (Some d) b (cap p)).
  set (q := mkPos (Some d) b (Some (between p m))).
  exists q. unfold amountRegex.
  change (run (Seq ?a ?b) p) with (flat_map (run b) (run a p)).
  apply in_flat_map. exists p. split; [simpl; apply in_or_app; simpl; auto |].
  change (run (Seq ?a ?b) p) with (flat_map (run b) (run a p)).
  apply in_flat_map. exists p. split; [apply iterate_self |].
  change (run (Seq ?a ?b) p) with (flat_map (run b) (run a p)).
  apply in_flat_map. exists q. split.
  - change (run (Group ?a) p)
      with (map (fun q => mkPos (prev q) (rest q) (Some (between p q))) (run a p)).
    apply in_map_iff. exists m. split; [reflexivity |].
    unfold numberPattern.
    change (run (Seq ?a ?b) p) with (flat_map (run b) (run a p)).
    apply in_flat_map. exists m. split.
    + unfold digits, Plus.
      change (run (Seq ?a ?b) p) with (flat_map (run b) (run a p)).
      apply in_flat_map. exists m. split; [| apply iterate_self].
      simpl. rewrite Hp, Hd. simpl. auto.
    + change (run (Seq ?a ?b) m) with (flat_map (run b) (run a m)).
      apply in_flat_map. exists m. split; [apply iterate_self |].
      simpl. apply in_or_app. simpl. auto.
  - simpl. unfold atBoundary. simpl. rewrite (digit_is_word _ Hd).
    change (next q) with (headOf b). rewrite Hb. simpl. auto.
Qed.

Lemma matchAt_some r before s :
  matchAt r before s <> None <-> exists q, In q (run r (mkPos before s None)).
Proof.
  unfold matchAt. destruct (run r _) as [| q l].
  - split; [congruence | intros [q []]].
  - split; [intros _; exists q; simpl; auto | discriminate].
Qed.

(** The amount pattern matches somewhere in a text exactly when the
    text has a digit that ends a word. *)
Lemma amount_match_iff (s : string) :
  exec amountRegex s <> None <-> hasDigitBoundary s = true.
Proof.
  unfold exec. generalize (@None ascii) as before.
  induction s as [| c s IH]; intros before; simpl.
  - destruct (matchAt amountRegex before "") eqn:E.
    + split; [intros _ | discriminate].
      assert (H : matchAt amountRegex before "" <> None) by congruence.
      apply matchAt_some in H as [q Hq]. apply amountRegex_sound in Hq as [Hq _].
      exact Hq.
    + split; [congruence | discriminate].
  - destruct (matchAt amountRegex before (String c s)) eqn:E.
    + split; [intros _ | discriminate].
      assert (H : matchAt amountRegex before (String c s) <> None) by congruence.
      apply matchAt_some in H as [q Hq]. apply amountRegex_sound in Hq as [Hq _].
      exact Hq.
    + rewrite IH. split; [intros ->; apply orb_true_r |].
      intros H. apply orb_true_iff in H as [H | H]; [| exact H].
      apply andb_true_iff in H as [Hd Hb]. apply negb_true_iff in Hb.
      destruct (amountRegex_complete (mkPos before (String c s) None) c s
                  eq_refl Hd Hb) as [q Hq].
      assert (Hm : matchAt amountRegex before (String c s) <> None)
        by (apply matchAt_some; eauto).
      congruence.
Qed.

Lemma matchAt_inv r before s m :
  matchAt r before s = Some m ->
  exists q, In q (run r (mkPos before s None)) /\ group1 m = cap q.
Proof.
  unfold matchAt. destruct (run r _) as [| q l]; [discriminate |].
  intros [= <-]. exists q. simpl. auto.
Qed.

(** Group 1 of a match of the amount pattern starts with a digit. *)
Lemma amount_match_group (s : string) (m : result) :
  exec amountRegex s = Some m ->
  exists d g, group1 m = Some (String d g) /\ JS.isDigit d = true.
Proof.
  unfold exec. generalize (@None ascii) as before.
  induction s as [| c s IH]; intros before; cbn [searchFrom];
    destruct (matchAt amountRegex before _) as [m' |] eqn:E.
  - intros [= <-]. apply matchAt_inv in E as (q & Hq & ->).
    apply amountRegex_sound in Hq as [_ Hq]. exact Hq.
  - discriminate.
  - intros [= <-]. apply matchAt_inv in E as (q & Hq & ->).
    apply amountRegex_sound in Hq as [_ Hq]. exact Hq.
  - apply IH.
Qed.
End RegexProofs.

(** ** Characters *)

Ltac each_char c := destruct c as [[] [] [] [] [] [] [] []].

Lemma digit_not_space c : JS.isDigit c = true -> JS.isSpace c = false.
Proof. each_char c; cbv; congruence. Qed.

Lemma space_not_digit c : JS.isSpace c = true -> JS.isDigit c = false.
Proof. each_char c; cbv; congruence. Qed.

Lemma separator_not_digit c : isSeparator c = true -> JS.isDigit c = false.
Proof. each_char c; cbv; congruence. Qed.

Lemma separator_not_word c : isSeparator c = true -> JS.isWordChar c = false.
Proof. each_char c; cbv; congruence. Qed.

Lemma space_not_word c : JS.isSpace c = true -> JS.isWordChar c = false.
Proof. each_char c; cbv; congruence. Qed.

Lemma lowerChar_digit c : JS.isDigit (JS.lowerChar c) = JS.isDigit c.
Proof. each_char c; reflexivity. Qed.

Lemma lowerChar_word c : JS.isWordChar (JS.lowerChar c) = JS.isWordChar c.
Proof. each_char c; reflexivity. Qed.

(** ** parseFloat on the captured amount *)

Lemma parseFloat_digit (d : ascii) (s : string) :
  JS.isDigit d = true -> exists q, JS.parseFloat (String d s) = Some q.
Proof.
  intros H. unfold JS.parseFloat.
  each_char d; try discriminate H; clear H;
    cbn [JS.trimStart JS.isSpace nat_of_ascii]; simpl;
    destruct (JS.spanDigits s) as [ip s2];
    (destruct s2 as [| x s2]; [| each_char x]); simpl;
    try destruct (JS.spanDigits s2) as [fp s3]; simpl; eauto.
Qed.

Lemma removeAll_comma_digit (d : ascii) (g : string) :
  JS.isDigit d = true ->
  JS.removeAll (Ascii.eqb ",") (String d g)
  = String d (JS.removeAll (Ascii.eqb ",") g).
Proof. intros H. each_char d; try discriminate H; reflexivity. Qed.

(** ** The single-item parser finds an amount where the pattern matches *)

Lemma hasDigitBoundary_lower (s : string) :
  hasDigitBoundary (JS.toLowerCase s) = hasDigitBoundary s.
Proof.
  induction s as [| c s IH]; simpl; [reflexivity |].
  rewrite IH, lowerChar_digit. f_equal. f_equal. f_equal.
  destruct s as [| x s]; simpl; [reflexivity | apply lowerChar_word].
Qed.

Lemma hasAmount_iff tz now (s : string) :
  hasAmount (parseExpenseInput tz now s) = true <-> hasDigitBoundary s = true.
Proof.
  rewrite <- hasDigitBoundary_lower, <- amount_match_iff.
  unfold hasAmount, parseExpenseInput. cbv zeta. cbn [ParsedExpense.amount].
  destruct (Regex.exec amountRegex (JS.toLowerCase s)) as [m |] eqn:E.
  - destruct (amount_match_group _ _ E) as (d & g & -> & Hd).
    rewrite (removeAll_comma_digit _ _ Hd).
    destruct (parseFloat_digit d (JS.removeAll (Ascii.eqb ",") g) Hd) as [q ->].
    split; congruence.
  - split; [discriminate | congruence].
Qed.

(** ** Splitting and trimming keep the digit that ends a word *)

Lemma splitOn_cons (sep : ascii -> bool) (s : string) :
  exists piece pieces, JS.splitOn sep s = piece :: pieces.
Proof.
  induction s as [| c s (piece & pieces & IH)]; simpl; [eauto |].
  destruct (sep c); [eauto |]. rewrite IH. eauto.
Qed.

(** The first piece starts as the text does, unless the text starts with
    a separator. *)
Lemma splitOn_head (sep : ascii -> bool) (s : string) piece pieces :
  JS.splitOn sep s = piece :: pieces ->
  headOf piece = match headOf s with
                 | Some c => if sep c then None else Some c
                 | None => None
                 end.
Proof.
  destruct s as [| c s]; simpl.
  - intros [= <- _]. reflexivity.
  - destruct (sep c); [intros [= <- _]; reflexivity |].
    destruct (JS.splitOn sep s); intros [= <- _]; reflexivity.
Qed.

Lemma hasDigitBoundary_split (s : string) :
  hasDigitBoundary s = true ->
  exists piece, In piece (JS.splitOn isSeparator s) /\ hasDigitBoundary piece = true.
Proof.
  induction s as [| c s IH]; simpl; [discriminate |].
  intros H. destruct (isSeparator c) eqn:Hsep.
  - rewrite (separator_not_digit _ Hsep) in H. simpl in H.
    destruct (IH H) as (piece & Hin & Hp). exists piece. simpl. auto.
  - destruct (splitOn_cons isSeparator s) as (p0 & ps & E).
    pose proof (splitOn_head _ _ _ _ E) as Hhead.
    rewrite E in *. apply orb_true_iff in H as [H | H].
    + exists (String c p0). split; [simpl; auto |].
      apply andb_true_iff in H as [Hd Hb]. simpl. rewrite Hd. simpl.
      apply orb_true_iff. left. rewrite Hhead.
      destruct (headOf s) as [x |]; [| reflexivity].
      destruct (isSeparator x); [reflexivity | exact Hb].
    + destruct (IH H) as (piece & [<- | Hin] & Hp).
      * exists (String c p0). split; [simpl; auto |].
        simpl. rewrite Hp. apply orb_true_r.
      * exists piece. simpl. auto.
Qed.

Lemma hasDigitBoundary_trimStart (s : string) :
  hasDigitBoundary s = true -> hasDigitBoundary (JS.trimStart s) = true.
Proof.
  induction s as [| c s IH]; simpl; [discriminate |].
  destruct (JS.isSpace c) eqn:E; [| simpl; auto].
  rewrite (space_not_digit _ E). simpl. exact IH.
Qed.

Lemma trimEnd_head (s : string) :
  headOf (JS.trimEnd s) = None \/ headOf (JS.trimEnd s) = headOf s.
Proof.
  destruct s as [| c s]; simpl; [auto |].
  destruct (JS.trimEnd s); [destruct (JS.isSpace c) |]; simpl; auto.
Qed.

Lemma hasDigitBoundary_trimEnd (s : string) :
  hasDigitBoundary s = true -> hasDigitBoundary (JS.trimEnd s) = true.
Proof.
  induction s as [| c s IH]; simpl; [discriminate |].
  intros H. apply orb_true_iff in H as [H | H].
  - apply andb_true_iff in H as [Hd Hb].
    destruct (trimEnd_head s) as [Hh | Hh].
    + destruct (JS.trimEnd s) as [| x t]; [| discriminate Hh].
      rewrite (digit_not_space _ Hd). simpl. rewrite Hd. reflexivity.
    + destruct (JS.trimEnd s) as [| x t] eqn:E.
      * rewrite (digit_not_space _ Hd). simpl. rewrite Hd. reflexivity.
      * cbn [hasDigitBoundary headOf]. rewrite Hd. cbn [headOf] in Hh.
        rewrite Hh, Hb. reflexivity.
  - specialize (IH H). destruct (JS.trimEnd s) as [| x t]; [discriminate IH |].
    simpl. simpl in IH. rewrite IH. apply orb_true_r.
Qed.

Lemma hasDigitBoundary_trim (s : string) :
  hasDigitBoundary s = true -> hasDigitBoundary (JS.trim s) = true.
Proof.
  intros H. unfold JS.trim. apply hasDigitBoundary_trimEnd, hasDigitBoundary_trimStart, H.
Qed.

Lemma hasDigitBoundary_nonempty (s : string) :
  hasDigitBoundary s = true -> (0 <? String.length s)%nat = true.
Proof. destruct s; [discriminate | reflexivity]. Qed.

(** When the whole text has an amount, one of its chunks has one. *)
Lemma chunk_has_amount tz now (text : string) :
  hasAmount (parseExpenseInput tz now text) = true ->
  List.filter hasAmount
    (map (parseExpenseInput tz now)
       (List.filter (fun c => (0 <? String.length c)%nat)
          (map JS.trim (JS.splitOn isSeparator text)))) <> [].
Proof.
  intros H. apply hasAmount_iff in H.
  apply hasDigitBoundary_split in H as (piece & Hin & Hp).
  apply hasDigitBoundary_trim in Hp.
  assert (Hchunk : In (parseExpenseInput tz now (JS.trim piece))
            (List.filter hasAmount
               (map (parseExpenseInput tz now)
                  (List.filter (fun c => (0 <? String.length c)%nat)
                     (map JS.trim (JS.splitOn isSeparator text)))))).
  { apply List.filter_In. split; [| apply hasAmount_iff; exact Hp].
    apply in_map, List.filter_In. split; [| apply hasDigitBoundary_nonempty, Hp].
    apply in_map. exact Hin. }
  intros E. rewrite E in Hchunk. exact Hchunk.
Qed.

(** The fallback of [parseMultipleExpenses] never produces an item: a text
    with an amount has a chunk with an amount. *)
Corollary fallback_is_empty (tz now : Z) (text : string) :
  List.filter hasAmount
    (map (parseExpenseInput tz now)
       (List.filter (fun c => (0 <? String.length c)%nat)
          (map JS.trim (JS.splitOn isSeparator text)))) = [] ->
  parseMultipleExpenses tz now text = [].
Proof.
  intros E. unfold parseMultipleExpenses. rewrite E. cbn [List.length Nat.eqb].
  destruct (ParsedExpense.amount (parseExpenseInput tz now text)) eqn:Ea; [| reflexivity].
  exfalso. apply (chunk_has_amount tz now text); [| exact E].
  unfold hasAmount. rewrite Ea. reflexivity.
Qed.

Example parseMultipleExpenses_two_items :
  map ParsedExpense.amount
    (parseMultipleExpenses Sample.IST Sample.now "Dinner at mom's, roti place - 250")
  = [Some 250%Q].
Proof. vm_compute. reflexivity. Qed.

(** ** The week identifier *)

(** Where the ISO week-numbering year is the calendar year, the
    identifier is the one the specification asks for. *)
Lemma getCurrentWeekId_iso (tz : Z) (date : Z) :
  DateFns.getISOWeekYear tz date = DateFns.getYear tz date ->
  TimeService.getCurrentWeekId tz date = isoWeekId tz date.
Proof.
  intros H. unfold TimeService.getCurrentWeekId, isoWeekId. rewrite H. reflexivity.
Qed.

(** C5, at the input where the code departs from it. Monday 30 December
    2024 is in week 1 of the ISO year 2025; [getCurrentWeekId] pairs the
    week number with the calendar year and returns "2024-W1", which is
    also what it returns for Monday 1 January 2024. *)
Theorem getCurrentWeekId_calendar_year :
  TimeService.getCurrentWeekId Sample.IST (Date.ofUTC 2024 12 30 6 30) = "2024-W1"
  /\ isoWeekId Sample.IST (Date.ofUTC 2024 12 30 6 30) = "2025-W1"
  /\ TimeService.getCurrentWeekId Sample.IST (Date.ofUTC 2024 1 1 6 30) = "2024-W1"
  /\ isoWeekId Sample.IST (Date.ofUTC 2024 1 1 6 30) = "2024-W1".
Proof. repeat split; vm_compute; reflexivity. Qed.

(** ** The savings target and the income *)

(** The inline editor of the dashboard keeps the target within the
    income: an edit it accepts leaves a budget that satisfies the
    invariant (for the Savings field whatever the budget was before), and a
    Savings value above the income is refused, with a message, and no
    budget is passed on. *)
Lemma dashboard_edit_keeps_invariant (show : Q -> string)
    (st : Dashboard.EditState) (budget : BudgetState.t) :
  (forall b',
     Dashboard.updated (Dashboard.handleSaveEdit show st budget) = Some b' ->
     (savingsWithinIncome budget \/ Dashboard.editing st = Some SavingsBucket) ->
     savingsWithinIncome b')
  /\ (forall val,
        Dashboard.editing st = Some SavingsBucket ->
        JS.parseFloat (Dashboard.editValue st) = Some val ->
        (0 <= val)%Q ->
        (BudgetState.monthlyIncome budget < val)%Q ->
        Dashboard.updated (Dashboard.handleSaveEdit show st budget) = None
        /\ Dashboard.alerted (Dashboard.handleSaveEdit show st budget) <> None).
Proof.
  unfold Dashboard.handleSaveEdit, savingsWithinIncome. split.
  - intros b'. destruct (Dashboard.editing st) as [key |]; [| discriminate].
    destruct (JS.parseFloat _) as [val |]; [| discriminate].
    destruct (Number.ge val 0); [| discriminate].
    destruct key; simpl.
    + intros [= <-] [H | H]; [exact H | discriminate].
    + intros [= <-] [H | H]; [exact H | discriminate].
    + destruct (Number.gt val (BudgetState.monthlyIncome budget)) eqn:G; [discriminate |].
      intros [= <-] _. simpl. apply gt_false. exact G.
  - intros val -> -> Hpos Hgt.
    apply ge_true in Hpos. apply gt_true in Hgt. rewrite Hpos, Hgt. simpl.
    split; [reflexivity | discriminate].
Qed.

(** C6, at the input where the code departs from it. In the setup form
    an income of 1000 is typed, then a savings goal of 5000; the form is
    valid (income and weekly limit are positive) and submitting it calls
    [onComplete] with a budget whose savings target exceeds its income.
    The application stores that budget as it is. *)
Theorem setup_accepts_target_above_income :
  let form :=
    BudgetSetup.handleAllocationChange
      (BudgetSetup.handleIncomeChange BudgetSetup.initial "1000")
      BudgetSetup.savingsTarget "5000" in
  exists b,
    BudgetSetup.handleSubmit form = Some b
    /\ (BudgetState.monthlyIncome b == 1000)%Q
    /\ (BudgetAllocations.savingsTarget (BudgetState.allocations b) == 5000)%Q
    /\ ~ savingsWithinIncome (App.handleBudgetComplete Sample.budget b).
Proof.
  eexists. split; [vm_compute; reflexivity |].
  split; [reflexivity |]. split; [reflexivity |].
  unfold savingsWithinIncome. vm_compute. intros H. apply H. reflexivity.
Qed.

(** ** The AI adapter *)

Section AdapterProofs.
Import Groq.
Variable show : Q -> string.
Variable newDate : value -> option DateValue.
Variable now : Z.

(** A candidate whose amount is [null] is dropped. *)
Lemma null_amount_dropped input reply c :
  In c (parseExpenseWithAI show newDate now input reply) -> amount c <> VNull.
Proof.
  unfold parseExpenseWithAI.
  destruct (_ || _); [intros [] |].
  destruct reply as [| result]; [intros [] |].
  destruct (get result "expenses") as [e |]; [| intros []].
  destruct (mapM _ _) as [candidates |]; [| intros []].
  intros H. apply List.filter_In in H as [_ H].
  unfold amountNotNull in H. intros E. rewrite E in H. discriminate.
Qed.

(** C7, at the input where the code departs from it. The service
    answers with one expense that has a category and a description and no
    amount field: the candidate is returned, its amount is [undefined]. *)
Theorem absent_amount_is_kept :
  parseExpenseWithAI show newDate now "tea at the stall"
    (Parsed (VObj [("expenses",
                    VArr [VObj [("category", VStr "Food");
                                ("description", VStr "tea")]])]))
  = [mkCandidate VUndefined (Enum Groceries) (VStr "tea") (At now)].
Proof. vm_compute. reflexivity. Qed.

Lemma normalize_label (label : string) :
  normalize show (VStr label) = Some (normalizeLabel label).
Proof.
  unfold normalize, normalizeLabel. cbn [toPropertyKey mbind option_bind].
  destruct (lookupMap label); [reflexivity |].
  destruct (lookupMap _); reflexivity.
Qed.
End AdapterProofs.

Lemma lowerChar_cases (x y : ascii) :
  JS.lowerChar x = y -> x = y \/ x = JS.upperChar y.
Proof. intros <-. each_char x; cbv; auto. Qed.

Lemma caseVariants_complete (key label : string) :
  JS.toLowerCase label = JS.toLowerCase key -> In label (caseVariants key).
Proof.
  revert label. induction key as [| k key IH]; intros [| x label]; simpl;
    try discriminate; [auto |].
  intros [= Hx Hl]. apply in_flat_map. exists label. split; [apply IH, Hl |].
  apply lowerChar_cases in Hx as [-> | ->]; simpl; auto.
Qed.

Lemma key_listed (m : gmap string TransactionCategory) (key : string)
    (cat : TransactionCategory) :
  m !! key = Some cat -> In key (map fst (map_to_list m)).
Proof.
  intros H. apply in_map_iff. exists (key, cat). split; [reflexivity |].
  apply list_elem_of_In, elem_of_map_to_list. exact H.
Qed.

(** Every spelling of a key of the table that is not itself a key is
    normalized to Miscellaneous: checked on all the spellings. *)
Lemma variants_checked :
  forallb
    (fun key =>
       forallb (fun label => isTableKey label || isMiscellaneous (normalizeLabel label))
         (caseVariants key))
    (map fst (map_to_list Groq.CATEGORY_MAP)) = true.
Proof. vm_compute. reflexivity. Qed.

(** C10. The lookup of the normalization is case-sensitive, also after
    the retry without white space: a label that is a key of the table up
    to letter case, and is not a key as it is written, is normalized to
    Miscellaneous, not to the category of that key. So are the candidates
    that carry such a label. *)
Theorem normalize_case_sensitive (show : Q -> string)
    (newDate : Groq.value -> option Groq.DateValue) (now : Z)
    (label key : string) :
  is_Some (Groq.CATEGORY_MAP !! key) ->
  JS.toLowerCase label = JS.toLowerCase key ->
  Groq.CATEGORY_MAP !! label = None ->
  Groq.normalize show (Groq.VStr label) = Some (Groq.Enum Miscellaneous)
  /\ (forall input fields c,
        Groq.ownProperty fields "category" = Some (Groq.VStr label) ->
        Groq.toCandidate show newDate now input (Groq.VObj fields) = Some c ->
        Groq.category c = Groq.Enum Miscellaneous).
Proof.
  intros [cat Hkey] Hcase Hnot.
  assert (Hn : normalizeLabel label = Groq.Enum Miscellaneous).
  { pose proof variants_checked as H. rewrite forallb_forall in H.
    specialize (H key (key_listed _ _ _ Hkey)). rewrite forallb_forall in H.
    specialize (H label (caseVariants_complete key label Hcase)).
    unfold isTableKey in H. rewrite Hnot, orb_false_l in H.
    destruct (normalizeLabel label) as [[] | ]; try discriminate H. reflexivity. }
  split; [rewrite normalize_label, Hn; reflexivity |].
  intros input fields c Hcat. unfold Groq.toCandidate.
  cbn [Groq.get mbind option_bind]. rewrite Hcat.
  assert (Hlabel : label <> "").
  { intros ->. destruct key; [| discriminate Hcase].
    vm_compute in Hkey. discriminate. }
  assert (Hraw : Groq.orElse (Groq.VStr label) (Groq.VStr "Miscellaneous")
                 = Groq.VStr label).
  { unfold Groq.orElse, Groq.truthy. destruct (String.eqb_spec label ""); [contradiction |].
    reflexivity. }
  rewrite Hraw, normalize_label, Hn. cbn [mbind option_bind].
  destruct (if Groq.truthy _ then _ else _); cbn [mbind option_bind]; [| discriminate].
  intros [= <-]. reflexivity.
Qed.

(** "food" and "FOOD" are not the key "Food": both become Miscellaneous,
    where "Food" becomes Groceries. *)
Lemma normalize_case_sensitive_witness :
  Groq.normalize Sample.show (Groq.VStr "food") = Some (Groq.Enum Miscellaneous)
  /\ Groq.normalize Sample.show (Groq.VStr "FOOD") = Some (Groq.Enum Miscellaneous)
  /\ Groq.normalize Sample.show (Groq.VStr "Food") = Some (Groq.Enum Groceries).
Proof.
  split; [| split].
  - apply (normalize_case_sensitive Sample.show (fun _ => None) 0 "food" "Food");
      [exists Groceries | |]; vm_compute; reflexivity.
  - apply (normalize_case_sensitive Sample.show (fun _ => None) 0 "FOOD" "Food");
      [exists Groceries | |]; vm_compute; reflexivity.
  - vm_compute. reflexivity.
Defined.

(** ** The time-boundary archiver *)

Section ArchiverProofs.
Variable tz : Z.
Variable monthNameOf : string -> option string.

Lemma docsOf_putDocs db userId d w :
  Firestore.docsOf (putDocs db userId d w) userId = d.
Proof. unfold Firestore.docsOf, putDocs. cbn. rewrite lookup_insert_eq. reflexivity. Qed.

Lemma await_resolved {A B : Type} (c : Async A) (k : A -> Async B) db a db1 :
  c db = (Some a, db1) -> await c k db = k a db1.
Proof. intros H. unfold await. rewrite H. reflexivity. Qed.

Lemma await_rejected {A B : Type} (c : Async A) (k : A -> Async B) db db1 :
  c db = (None, db1) -> await c k db = (None, db1).
Proof. intros H. unfold await. rewrite H. reflexivity. Qed.

(** The week check always resolves and leaves the current week in the
    meta document. *)
Lemma checkWeek_done userId meta cw db :
  UserDocs.settings_meta (Firestore.docsOf db userId) = Some meta ->
  exists db1,
    TimeService.checkWeek tz userId meta cw db = (Some tt, db1)
    /\ UserDocs.settings_meta (Firestore.docsOf db1 userId)
       = Some (HistoryMeta.mk cw (HistoryMeta.lastActiveMonth meta)).
Proof.
  intros Em. unfold TimeService.checkWeek.
  destruct (String.eqb_spec (HistoryMeta.lastActiveWeek meta) cw) as [E | E]; cbn [negb].
  - exists db. split; [reflexivity |]. rewrite Em. destruct meta. simpl in *.
    congruence.
  - unfold TimeService.archiveWeek, await, getTransactions, setWeek, updateMeta, setMeta.
    cbn [fst snd]. rewrite docsOf_putDocs. cbn [UserDocs.settings_meta].
    rewrite Em. eexists. split; [reflexivity |].
    rewrite docsOf_putDocs. reflexivity.
Qed.

(** The month check either leaves the current month in the meta
    document or rejects, without a write, on a month it cannot render. *)
Lemma checkMonth_done userId meta week cm db :
  UserDocs.settings_meta (Firestore.docsOf db userId)
  = Some (HistoryMeta.mk week (HistoryMeta.lastActiveMonth meta)) ->
  (exists db1,
     TimeService.checkMonth tz monthNameOf userId meta cm db = (Some tt, db1)
     /\ UserDocs.settings_meta (Firestore.docsOf db1 userId)
        = Some (HistoryMeta.mk week cm))
  \/ (TimeService.checkMonth tz monthNameOf userId meta cm db = (None, db)
      /\ monthNameOf (HistoryMeta.lastActiveMonth meta) = None).
Proof.
  intros Em. unfold TimeService.checkMonth.
  destruct (String.eqb_spec (HistoryMeta.lastActiveMonth meta) cm) as [E | E]; cbn [negb].
  - left. exists db. split; [reflexivity |]. rewrite <- E. exact Em.
  - unfold TimeService.archiveMonth, await, getTransactions. cbn [fst snd].
    unfold TimeService.calculateStatsForMonthId.
    destruct (monthNameOf (HistoryMeta.lastActiveMonth meta)) as [name |];
      cbn [mbind option_bind]; [| right; auto].
    destruct (TimeService.tally _) as [[spent saved] breakdown].
    left. unfold setMonth, updateMeta, setMeta. cbn [fst snd].
    rewrite docsOf_putDocs. cbn [UserDocs.settings_meta]. rewrite Em.
    eexists. split; [reflexivity |]. rewrite docsOf_putDocs. reflexivity.
Qed.

(** After a run, whether it resolves or rejects, the store is in the
    state [afterRun]; when it resolves the meta document names the
    current week and month. *)
Lemma init_outcome now userId db :
  userId <> "" ->
  exists r db',
    TimeService.init tz monthNameOf now userId db = (r, db')
    /\ afterRun tz monthNameOf now db' userId
    /\ (r = Some tt ->
        UserDocs.settings_meta (Firestore.docsOf db' userId)
        = Some (HistoryMeta.mk (TimeService.getCurrentWeekId tz now)
                  (TimeService.getCurrentMonthId tz now))).
Proof.
  intros Hu. unfold TimeService.init, afterRun.
  destruct (String.eqb_spec userId ""); [contradiction |].
  unfold await at 1. unfold getMeta at 1.
  destruct (UserDocs.settings_meta (Firestore.docsOf db userId)) as [meta |] eqn:Em.
  - destruct (checkWeek_done userId meta (TimeService.getCurrentWeekId tz now) db Em)
      as (db1 & Hw & Hm1).
    rewrite (await_resolved _ _ _ _ _ Hw).
    destruct (checkMonth_done userId meta _ (TimeService.getCurrentMonthId tz now) db1 Hm1)
      as [(db2 & -> & Hm2) | [-> Hnone]]; eexists; eexists; (split; [reflexivity |]).
    + split; [exists (TimeService.getCurrentMonthId tz now); auto | auto].
    + split; [exists (HistoryMeta.lastActiveMonth meta); auto | discriminate].
  - unfold setMeta. eexists; eexists; (split; [reflexivity |]).
    rewrite docsOf_putDocs.
    split; [exists (TimeService.getCurrentMonthId tz now); auto | auto].
Qed.

Lemma init_afterRun now userId db :
  userId <> "" ->
  afterRun tz monthNameOf now (snd (TimeService.init tz monthNameOf now userId db)) userId
  /\ (fst (TimeService.init tz monthNameOf now userId db) = Some tt ->
      UserDocs.settings_meta
        (Firestore.docsOf (snd (TimeService.init tz monthNameOf now userId db)) userId)
      = Some (HistoryMeta.mk (TimeService.getCurrentWeekId tz now)
                (TimeService.getCurrentMonthId tz now))).
Proof.
  intros Hu. destruct (init_outcome now userId db Hu) as (r & db' & -> & H).
  exact H.
Qed.

(** A run that finds the store in that state writes nothing. *)
Lemma init_idle now userId db :
  afterRun tz monthNameOf now db userId ->
  snd (TimeService.init tz monthNameOf now userId db) = db.
Proof.
  intros (month & Hm & Hmonth). unfold TimeService.init.
  destruct (String.eqb userId ""); [reflexivity |].
  unfold await at 1. unfold getMeta at 1. rewrite Hm.
  unfold TimeService.checkWeek. cbn [HistoryMeta.lastActiveWeek].
  rewrite String.eqb_refl. cbn [negb]. unfold await at 1, resolve at 1.
  unfold TimeService.checkMonth. cbn [HistoryMeta.lastActiveMonth].
  destruct Hmonth as [-> | Hnone].
  - rewrite String.eqb_refl. reflexivity.
  - destruct (String.eqb month _); [reflexivity |]. cbn [negb].
    unfold TimeService.archiveMonth, await, getTransactions. cbn [fst snd].
    unfold TimeService.calculateStatsForMonthId. rewrite Hnone. reflexivity.
Qed.

Lemma afterRun_same_ids now now' db userId :
  TimeService.getCurrentWeekId tz now' = TimeService.getCurrentWeekId tz now ->
  TimeService.getCurrentMonthId tz now' = TimeService.getCurrentMonthId tz now ->
  afterRun tz monthNameOf now db userId -> afterRun tz monthNameOf now' db userId.
Proof. unfold afterRun. intros -> ->. auto. Qed.
End ArchiverProofs.

(** C8. When [init] is run twice and the current week and month
    identifiers are the same at both runs, the second run writes
    nothing: the store after it is the store after the first run, and so
    are its writes, snapshots included. The first run, when it resolves,
    has left the current identifiers in the meta document. *)
Theorem init_twice (tz : Z) (monthNameOf : string -> option string)
    (now now' : Z) (userId : string) (db : Firestore.t) :
  TimeService.getCurrentWeekId tz now' = TimeService.getCurrentWeekId tz now ->
  TimeService.getCurrentMonthId tz now' = TimeService.getCurrentMonthId tz now ->
  let first := TimeService.init tz monthNameOf now userId db in
  let second := TimeService.init tz monthNameOf now' userId (snd first) in
  snd second = snd first
  /\ snapshots (snd second) = snapshots (snd first)
  /\ (userId <> "" -> fst first = Some tt ->
      UserDocs.settings_meta (Firestore.docsOf (snd first) userId)
      = Some (HistoryMeta.mk (TimeService.getCurrentWeekId tz now)
                (TimeService.getCurrentMonthId tz now))).
Proof.
  intros Hw Hm first second.
  assert (Hsame : snd second = snd first).
  { unfold second, first. destruct (String.eqb_spec userId "") as [-> | Hu].
    - reflexivity.
    - apply init_idle. apply (afterRun_same_ids tz monthNameOf now now'); [exact Hw | exact Hm |].
      apply init_afterRun. exact Hu. }
  split; [exact Hsame |]. split; [rewrite Hsame; reflexivity |].
  intros Hu. apply init_afterRun. exact Hu.
Qed.

(** The sample store was last used in week 9 of February: the first run
    archives that week and that month, the second run, an hour later,
    archives nothing. *)
Lemma init_twice_witness :
  let first := TimeService.init Sample.IST Sample.monthNameOf Sample.now "u1" Sample.store in
  let second :=
    TimeService.init Sample.IST Sample.monthNameOf (Sample.now + 3600000) "u1" (snd first) in
  snapshots (snd second) = snapshots (snd first)
  /\ List.length (snapshots (snd first)) = 2%nat.
Proof.
  split.
  - apply (init_twice Sample.IST Sample.monthNameOf Sample.now (Sample.now + 3600000)
             "u1" Sample.store); vm_compute; reflexivity.
  - vm_compute. reflexivity.
Defined.

(** * Further properties *)

(** ** The single-item parser *)

Lemma hasDigitBoundary_split_at (s : string) :
  hasDigitBoundary s = true <->
  exists a d b, s = a +:+ String d b /\ JS.isDigit d = true
                /\ Regex.isWordAt (headOf b) = false.
Proof.
  split.
  - induction s as [| c s IH]; simpl; [discriminate |].
    intros H. apply orb_true_iff in H as [H | H].
    + apply andb_true_iff in H as [Hd Hb]. apply negb_true_iff in Hb.
      exists "", c, s. auto.
    + destruct (IH H) as (a & d & b & -> & Hd & Hb).
      exists (String c a), d, b. auto.
  - intros (a & d & b & -> & Hd & Hb). apply hasDigitBoundary_at; assumption.
Qed.

(** X1. The single-item parser finds an amount exactly when the
    lowercased text, in which it looks for the amount, has a digit that is
    followed by the end of the text or by a character that is not a
    letter, a digit or an underscore. So "room 12b" has no amount, and
    "12b 7" has the amount 7. *)
Theorem amount_found_iff (tz now : Z) (text : string) :
  ParsedExpense.amount (parseExpenseInput tz now text) <> None
  <-> exists a d b,
        JS.toLowerCase text = a +:+ String d b /\ JS.isDigit d = true
        /\ Regex.isWordAt (headOf b) = false.
Proof.
  rewrite <- hasDigitBoundary_split_at, hasDigitBoundary_lower, <- (hasAmount_iff tz now).
  unfold hasAmount. destruct (ParsedExpense.amount _); split; congruence.
Qed.

Lemma spanDigits_value (s : string) (acc : Z) :
  0 <= acc -> 0 <= JS.digitsValue acc (fst (JS.spanDigits s)).
Proof.
  revert acc. induction s as [| c s IH]; intros acc Hacc; simpl; [exact Hacc |].
  destruct (JS.isDigit c) eqn:E; [| exact Hacc].
  destruct (JS.spanDigits s) as [ds r]. simpl in *. apply IH.
  assert (0 <= JS.digitValue c); [| lia].
  clear -E. each_char c; try discriminate E; cbv; congruence.
Qed.

Lemma digitsValue_app (a b : string) (acc : Z) :
  JS.digitsValue acc (a +:+ b) = JS.digitsValue (JS.digitsValue acc a) b.
Proof. revert acc. induction a as [| c a IH]; intros acc; simpl; [reflexivity | apply IH]. Qed.

Lemma parseFloat_digit_nonneg (d : ascii) (s : string) (q : Q) :
  JS.isDigit d = true -> JS.parseFloat (String d s) = Some q -> (0 <= q)%Q.
Proof.
  intros Hd. unfold JS.parseFloat.
  assert (Hs : JS.trimStart (String d s) = String d s).
  { simpl. rewrite (digit_not_space _ Hd). reflexivity. }
  rewrite Hs.
  assert (Hsign : (let '(neg, s1) :=
                     match String d s with
                     | String "-" r => (true, r)
                     | String "+" r => (false, r)
                     | _ => (false, String d s)
                     end in (neg, s1)) = (false, String d s)).
  { clear -Hd. each_char d; try discriminate Hd; reflexivity. }
  revert Hsign.
  destruct (match String d s with
            | String "-" r => (true, r)
            | String "+" r => (false, r)
            | _ => (false, String d s)
            end) as [neg s1].
  intros [= -> ->].
  pose proof (spanDigits_value (String d s) 0 ltac:(lia)) as Hip.
  destruct (JS.spanDigits (String d s)) as [ip s2]. simpl in Hip.
  assert (Hfp : forall r, 0 <= JS.digitsValue (JS.digitsValue 0 ip) (fst (JS.spanDigits r))).
  { intros r. apply spanDigits_value. exact Hip. }
  destruct (match s2 with
            | String "." r => JS.spanDigits r
            | _ => (EmptyString, s2)
            end) as [fp s3] eqn:Efp.
  assert (Hm : 0 <= JS.digitsValue 0 (ip +:+ fp)).
  { rewrite digitsValue_app.
    destruct s2 as [| x r]; [injection Efp as <- _; exact Hip |].
    revert Efp. each_char x; intros Efp;
      try (injection Efp as <- _; exact Hip).
    specialize (Hfp r). rewrite Efp in Hfp. exact Hfp. }
  destruct (_ && _)%bool; [discriminate |]. intros [= <-].
  apply Qmult_le_0_compat.
  - unfold Qle. simpl. lia.
  - apply Qpower_0_le. discriminate.
Qed.

(** X2. An amount the single-item parser extracts is never negative:
    the pattern has no sign, so "-50" is read as 50. *)
Theorem amount_nonneg (tz now : Z) (text : string) (q : Q) :
  ParsedExpense.amount (parseExpenseInput tz now text) = Some q -> (0 <= q)%Q.
Proof.
  unfold parseExpenseInput. cbv zeta. cbn [ParsedExpense.amount].
  destruct (Regex.exec amountRegex (JS.toLowerCase text)) as [m |] eqn:E; [| discriminate].
  destruct (amount_match_group _ _ E) as (d & g & -> & Hd).
  rewrite (removeAll_comma_digit _ _ Hd). apply parseFloat_digit_nonneg, Hd.
Qed.

Lemma amount_nonneg_witness :
  ParsedExpense.amount (parseExpenseInput Sample.IST Sample.now "refund -50") = Some 50%Q
  /\ (0 <= 50)%Q.
Proof.
  split; [vm_compute; reflexivity |].
  apply (amount_nonneg Sample.IST Sample.now "refund -50"). vm_compute. reflexivity.
Defined.

(** X3. The category the single-item parser returns is never Other: the
    keyword list of Other is empty and the default is Miscellaneous. It
    returns no category at all exactly when no keyword occurs in the
    lowercased text and the amount is missing or zero. *)
Theorem category_never_other (tz now : Z) (text : string) :
  ParsedExpense.category (parseExpenseInput tz now text) <> Some Other
  /\ (ParsedExpense.category (parseExpenseInput tz now text) = None
      <-> Forall (fun entry => ~ matchesEntry (JS.toLowerCase text) entry) keywords
          /\ amountTruthy (ParsedExpense.amount (parseExpenseInput tz now text)) = false).
Proof.
  unfold parseExpenseInput. cbv zeta. cbn [ParsedExpense.category ParsedExpense.amount].
  set (amount := match Regex.exec amountRegex (JS.toLowerCase text) with
                 | Some m => _
                 | None => None
                 end).
  rewrite <- scanKeywords_none.
  destruct (scanKeywords keywords (JS.toLowerCase text)) as [c |] eqn:E; cbv iota beta.
  - split.
    + intros [= ->]. revert E. unfold keywords. cbn [scanKeywords existsb].
      repeat match goal with
             | |- context [if ?b then _ else _] => destruct b
             end; discriminate.
    + split; [discriminate | intros [H _]; discriminate H].
  - destruct (amountTruthy amount).
    + split; [discriminate |]. split; [discriminate | intros [_ H]; discriminate H].
    + split; [discriminate |]. split; [intros _; split; reflexivity | reflexivity].
Qed.

(** X4. The description the single-item parser returns is never empty:
    where removing the amount leaves nothing, a label is made up from the
    category. *)
Theorem description_nonempty (tz now : Z) (text : string) :
  ParsedExpense.description (parseExpenseInput tz now text) <> "".
Proof.
  unfold parseExpenseInput. cbv zeta. cbn [ParsedExpense.description].
  match goal with
  | |- JS.capitalize (if (String.length ?d =? 0)%nat then ?a else ?d) <> _ =>
      destruct d as [| x d']; cbn [String.length Nat.eqb]
  end.
  - match goal with
    | |- JS.capitalize (match ?c with Some _ => _ | None => _ end) <> _ =>
        destruct c as [[] |]; discriminate
    end.
  - discriminate.
Qed.


(** ** The calendar *)

Lemma daysFrom_In (n : nat) (a d : Z) :
  In d (Sample.daysFrom a n) <-> a <= d < a + Z.of_nat n.
Proof.
  revert a. induction n as [| n IH]; intros a; simpl Sample.daysFrom.
  - split; [intros [] | lia].
  - simpl In. rewrite IH. lia.
Qed.

Lemma era_checked :
  forallb eraDayInRange (Sample.daysFrom 0 (Z.to_nat 146097)) = true.
Proof. vm_compute. reflexivity. Qed.

Lemma eraDay_bounds (doe : Z) :
  0 <= doe < 146097 -> eraDayInRange doe = true.
Proof.
  intros H. pose proof era_checked as C. rewrite forallb_forall in C.
  apply C, daysFrom_In. lia.
Qed.

(** A day number is the day number of its calendar date, and the month
    and the day of the month are in range. *)
Lemma civil_MakeDay (d : Z) :
  let '(y, m, dom) := Date.civil d in
  Date.MakeDay y m dom = d /\ 0 <= m <= 11 /\ 1 <= dom <= 31.
Proof.
  unfold Date.civil.
  set (z := d + 719468). set (era := z / 146097). set (doe := z - era * 146097).
  assert (Hdoe : 0 <= doe < 146097).
  { unfold doe, era. pose proof (Z.div_mod z 146097 ltac:(lia)).
    pose proof (Z.mod_pos_bound z 146097 ltac:(lia)). lia. }
  pose proof (eraDay_bounds doe Hdoe) as Hc. unfold eraDayInRange in Hc.
  set (yoe := (doe - doe / 1460 + doe / 36524 - doe / 146096) / 365) in *.
  set (doy := doe - (365 * yoe + yoe / 4 - yoe / 100)) in *.
  set (mp := (5 * doy + 2) / 153) in *.
  set (dom := doy - (153 * mp + 2) / 5 + 1) in *.
  repeat (apply andb_true_iff in Hc as [Hc ?]).
  repeat match goal with
         | H : (_ <=? _) = true |- _ => apply Z.leb_le in H
         end.
  assert (Hera : (yoe + era * 400) / 400 = era).
  { symmetry. apply (Z.div_unique _ _ _ yoe); lia. }
  assert (Hd : d = era * 146097 + doe - 719468) by (unfold doe, z; lia).
  assert (Hdom : dom = doy - (153 * mp + 2) / 5 + 1) by reflexivity.
  assert (Hdoy : doy = doe - (365 * yoe + yoe / 4 - yoe / 100)) by reflexivity.
  clearbody dom doy mp yoe doe era.
  unfold Date.MakeDay.
  destruct (Z.ltb_spec mp 10) as [Emp | Emp].
  - assert (Hm : (mp + 2 <=? 1) = false) by (apply Z.leb_gt; lia). rewrite !Hm.
    rewrite Hera. replace (mp + 2 - 2) with mp by lia.
    replace (yoe + era * 400 - era * 400) with yoe by lia.
    split; [lia | lia].
  - assert (Hm : (mp - 10 <=? 1) = true) by (apply Z.leb_le; lia). rewrite !Hm.
    replace (yoe + era * 400 + 1 - 1) with (yoe + era * 400) by lia.
    rewrite Hera. replace (mp - 10 + 10) with mp by lia.
    replace (yoe + era * 400 - era * 400) with yoe by lia.
    split; [lia | lia].
Qed.
(** ** Dates moved by whole days *)

Lemma MakeDay_shift (y m d k : Z) :
  Date.MakeDay y m (d + k) = Date.MakeDay y m d + k.
Proof. unfold Date.MakeDay. lia. Qed.

(** [d.setDate(d.getDate() + k)] moves [d] by [k] days. *)
Lemma setDate_getDate (tz t k : Z) :
  Date.setDate tz t (Date.getDate tz t + k) = t + k * Date.msPerDay.
Proof.
  unfold Date.setDate, Date.getDate, Date.YearFromTime, Date.MonthFromTime,
    Date.DateFromTime, Date.UTC, Date.LocalTime.
  pose proof (civil_MakeDay (Date.Day (t + tz))) as H.
  destruct (Date.civil (Date.Day (t + tz))) as [[y m] dom]. destruct H as [H _].
  cbn [fst snd]. rewrite MakeDay_shift, H.
  unfold Date.Day, Date.TimeWithinDay, Date.msPerDay.
  pose proof (Z.div_mod (t + tz) 86400000 ltac:(lia)). lia.
Qed.

(** X5. The date of a parsed item is the instant of the call, or exactly
    24 hours before it when the lowercased text holds the word
    "yesterday" somewhere, also inside another word. *)
Theorem parsed_date (tz now : Z) (text : string) :
  (occursIn "yesterday" (JS.toLowerCase text) ->
   ParsedExpense.date (parseExpenseInput tz now text) = now - 86400000)
  /\ (~ occursIn "yesterday" (JS.toLowerCase text) ->
      ParsedExpense.date (parseExpenseInput tz now text) = now).
Proof.
  unfold parseExpenseInput. cbn [ParsedExpense.date].
  pose proof (includes_spec (JS.toLowerCase text) "yesterday") as S.
  destruct (JS.includes (JS.toLowerCase text) "yesterday").
  - split; [intros _ | intros H; exfalso; apply H, S; reflexivity].
    replace (Date.getDate tz now - 1) with (Date.getDate tz now + -1) by lia.
    rewrite setDate_getDate. unfold Date.msPerDay. lia.
  - split; [intros H; apply S in H; discriminate | reflexivity].
Qed.

(** ** Weeks *)

Lemma monday_offset (D : Z) :
  (if (D + 4) mod 7 =? 0 then 7 else (D + 4) mod 7) - 1 = (D + 3) mod 7.
Proof.
  assert (H : (D + 4) mod 7 = ((D + 3) mod 7 + 1) mod 7).
  { rewrite Z.add_mod_idemp_l by lia. f_equal. lia. }
  rewrite H. pose proof (Z.mod_pos_bound (D + 3) 7 ltac:(lia)) as B.
  set (r := (D + 3) mod 7) in *.
  assert (C : r = 0 \/ r = 1 \/ r = 2 \/ r = 3 \/ r = 4 \/ r = 5 \/ r = 6) by lia.
  destruct C as [-> | [-> | [-> | [-> | [-> | [-> | ->]]]]]]; reflexivity.
Qed.

Lemma weekIndex_monday (D : Z) : D - (D + 3) mod 7 = 7 * ((D + 3) / 7) - 3.
Proof. pose proof (Z.div_mod (D + 3) 7 ltac:(lia)). lia. Qed.

Lemma getWeekRange_eq (tz date : Z) :
  getWeekRange tz date =
  ((7 * weekIndex tz date - 3) * Date.msPerDay - tz,
   (7 * weekIndex tz date + 4) * Date.msPerDay - 1 - tz).
Proof.
  unfold getWeekRange. cbv zeta.
  set (day := if Date.getDay tz date =? 0 then 7 else Date.getDay tz date).
  replace (Date.getDate tz date - (day - 1))
    with (Date.getDate tz date + - (day - 1)) by lia.
  rewrite setDate_getDate.
  assert (Hday : day - 1 = (Date.Day (date + tz) + 3) mod 7).
  { unfold day, Date.getDay, Date.WeekDay, Date.LocalTime. apply monday_offset. }
  set (start := Date.setHours tz (date + - (day - 1) * Date.msPerDay) 0 0 0 0).
  assert (Hstart : start = (7 * weekIndex tz date - 3) * Date.msPerDay - tz).
  { unfold start, weekIndex, Date.setHours, Date.UTC, Date.LocalTime.
    unfold Date.Day, Date.msPerDay in *.
    replace (date + - (day - 1) * 86400000 + tz)
      with ((date + tz) + (- (day - 1)) * 86400000) by lia.
    rewrite Z.div_add by lia.
    pose proof (weekIndex_monday ((date + tz) / 86400000)). lia. }
  rewrite setDate_getDate. rewrite Hstart. f_equal.
  unfold Date.setHours, Date.UTC, Date.LocalTime, Date.Day, Date.msPerDay, Date.msPerHour.
  replace ((7 * weekIndex tz date - 3) * 86400000 - tz + 6 * 86400000 + tz)
    with ((7 * weekIndex tz date + 3) * 86400000) by lia.
  rewrite Z.div_mul by lia. lia.
Qed.
(** X6. In a time zone that keeps one offset from UTC, without clock
    changes, the range [getWeekRange] gives holds its date, lasts seven
    days less one millisecond, starts at a local midnight that is a Monday
    and ends on a Sunday. *)
Theorem getWeekRange_spec (tz date : Z) :
  let '(start, end_) := getWeekRange tz date in
  start <= date <= end_
  /\ end_ - start = 7 * Date.msPerDay - 1
  /\ Date.getDay tz start = 1
  /\ Date.getDay tz end_ = 0
  /\ Date.TimeWithinDay (Date.LocalTime tz start) = 0.
Proof.
  rewrite getWeekRange_eq.
  unfold weekIndex, Date.getDay, Date.WeekDay, Date.TimeWithinDay, Date.LocalTime,
    Date.Day, Date.msPerDay.
  set (l := date + tz).
  pose proof (Z.div_mod l 86400000 ltac:(lia)) as Hl.
  pose proof (Z.mod_pos_bound l 86400000 ltac:(lia)) as Bl.
  pose proof (Z.div_mod (l / 86400000 + 3) 7 ltac:(lia)) as Hw.
  pose proof (Z.mod_pos_bound (l / 86400000 + 3) 7 ltac:(lia)) as Bw.
  set (w := (l / 86400000 + 3) / 7) in *.
  replace ((7 * w - 3) * 86400000 - tz + tz) with ((7 * w - 3) * 86400000) by lia.
  replace ((7 * w + 4) * 86400000 - 1 - tz + tz)
    with ((7 * w + 3) * 86400000 + 86399999) by lia.
  rewrite Z.div_mul by lia. rewrite Z.mod_mul by lia.
  rewrite Z.div_add_l by lia. replace (86399999 / 86400000) with 0 by reflexivity.
  replace (7 * w - 3 + 4) with (1 + w * 7) by lia.
  replace (7 * w + 3 + 0 + 4) with (0 + (w + 1) * 7) by lia.
  rewrite !Z.mod_add by lia.
  repeat split; try reflexivity; lia.
Qed.

(** ** The rendering of a day *)

Lemma append_inj_length (a a' b b' : string) :
  String.length a = String.length a' -> a +:+ b = a' +:+ b' -> a = a' /\ b = b'.
Proof.
  revert a'. induction a as [| c a IH]; intros [| c' a'] L E; simpl in *;
    try discriminate.
  - auto.
  - injection E as -> E. injection L as L. destruct (IH _ L E) as [-> ->]. auto.
Qed.

Lemma daysFrom_all (p : Z -> bool) (a : Z) (n : nat) :
  forallb p (Sample.daysFrom a n) = true ->
  forall z, a <= z < a + Z.of_nat n -> p z = true.
Proof.
  intros H z Hz. rewrite forallb_forall in H. apply H, daysFrom_In. exact Hz.
Qed.

Lemma dayName_length (wd : Z) :
  0 <= wd <= 6 -> String.length (Date.dayName wd) = 3%nat.
Proof.
  intros H. apply Nat.eqb_eq.
  apply (daysFrom_all (fun wd => (String.length (Date.dayName wd) =? 3)%nat) 0 7);
    [vm_compute; reflexivity | lia].
Qed.

Lemma monthName_length (m : Z) :
  0 <= m <= 11 -> String.length (Date.monthName m) = 3%nat.
Proof.
  intros H. apply Nat.eqb_eq.
  apply (daysFrom_all (fun m => (String.length (Date.monthName m) =? 3)%nat) 0 12);
    [vm_compute; reflexivity | lia].
Qed.

Lemma monthName_inj (m m' : Z) :
  0 <= m <= 11 -> 0 <= m' <= 11 -> Date.monthName m = Date.monthName m' -> m = m'.
Proof.
  intros H H' E.
  pose proof (daysFrom_all
    (fun a => forallb
       (fun b => implb (String.eqb (Date.monthName a) (Date.monthName b)) (a =? b))
       (Sample.daysFrom 0 12)) 0 12 ltac:(vm_compute; reflexivity) m ltac:(lia)) as C.
  cbv beta in C.
  pose proof (daysFrom_all _ 0 12 C m' ltac:(lia)) as C'. cbv beta in C'.
  apply String.eqb_eq in E. rewrite E in C'. apply Z.eqb_eq. exact C'.
Qed.

Lemma padZ_day_length (dom : Z) :
  1 <= dom <= 31 -> String.length (JS.padZ 2 dom) = 2%nat.
Proof.
  intros H. apply Nat.eqb_eq.
  apply (daysFrom_all (fun d => (String.length (JS.padZ 2 d) =? 2)%nat) 1 31);
    [vm_compute; reflexivity | lia].
Qed.

Lemma readDigits_zeros (k : nat) (s : string) :
  readDigits (JS.zeros k +:+ s) = readDigits s.
Proof.
  induction k as [| k IH]; [reflexivity |].
  rewrite <- IH. unfold readDigits. simpl.
  destruct (DecimalString.NilEmpty.uint_of_string (JS.zeros k +:+ s)); reflexivity.
Qed.

Lemma readDigits_showZ (z : Z) : 0 <= z -> readDigits (JS.showZ z) = Some z.
Proof.
  destruct z as [| p | p]; intros H; [reflexivity | | lia].
  unfold readDigits, JS.showZ. simpl Z.to_int.
  unfold DecimalString.NilZero.string_of_int, DecimalString.NilZero.string_of_uint.
  pose proof (DecimalPos.Unsigned.to_uint_nonnil p) as Hn.
  destruct (Pos.to_uint p) eqn:E; try (exfalso; apply Hn; reflexivity);
    rewrite <- E, DecimalString.NilEmpty.usu; unfold N.of_uint;
    rewrite DecimalPos.Unsigned.of_to; reflexivity.
Qed.

Lemma readDigits_padZ (w : nat) (z : Z) : 0 <= z -> readDigits (JS.padZ w z) = Some z.
Proof. intros H. unfold JS.padZ. rewrite readDigits_zeros. apply readDigits_showZ, H. Qed.

Lemma readDigits_minus (s : string) : readDigits (String "-" s) = None.
Proof.
  unfold readDigits. simpl.
  destruct (DecimalString.NilEmpty.uint_of_string s); reflexivity.
Qed.

Lemma padZ_inj (w : nat) (z z' : Z) :
  0 <= z -> 0 <= z' -> JS.padZ w z = JS.padZ w z' -> z = z'.
Proof.
  intros H H' E. apply (f_equal readDigits) in E.
  rewrite !readDigits_padZ in E by assumption. congruence.
Qed.

(** The rendering tells the day. *)
Lemma dayString_inj (d d' : Z) : dayString d = dayString d' -> d = d'.
Proof.
  unfold dayString.
  pose proof (civil_MakeDay d) as H. pose proof (civil_MakeDay d') as H'.
  destruct (Date.civil d) as [[y m] dom], (Date.civil d') as [[y' m'] dom'].
  destruct H as (H & Hm & Hd), H' as (H' & Hm' & Hd'). intros E.
  apply append_inj_length in E as [_ E];
    [| rewrite !dayName_length; [reflexivity | |];
       pose proof (Z.mod_pos_bound (d + 4) 7); pose proof (Z.mod_pos_bound (d' + 4) 7);
       lia].
  simpl in E. injection E as E.
  apply append_inj_length in E as [Em E];
    [| rewrite !monthName_length by assumption; reflexivity].
  apply monthName_inj in Em; [| assumption | assumption].
  simpl in E. injection E as E.
  apply append_inj_length in E as [Ed E];
    [| rewrite !padZ_day_length by assumption; reflexivity].
  apply padZ_inj in Ed; [| lia | lia].
  simpl in E. injection E as E.
  assert (Ey : y = y').
  { destruct (Z.ltb_spec y 0), (Z.ltb_spec y' 0); simpl in E.
    - injection E as E. apply padZ_inj in E; lia.
    - apply (f_equal readDigits) in E.
      rewrite readDigits_minus, readDigits_padZ in E by lia. discriminate.
    - apply (f_equal readDigits) in E.
      rewrite readDigits_minus, readDigits_padZ in E by lia. discriminate.
    - apply padZ_inj in E; lia. }
  subst. congruence.
Qed.

Lemma toDateString_day (tz t : Z) :
  Date.toDateString tz t = dayString (Date.Day (Date.LocalTime tz t)).
Proof.
  unfold Date.toDateString, dayString, Date.YearFromTime, Date.MonthFromTime,
    Date.DateFromTime, Date.WeekDay.
  destruct (Date.civil (Date.Day (Date.LocalTime tz t))) as [[y m] dom]. reflexivity.
Qed.

(** The Monday that [getMonday] renders is the Monday of the week of the
    date. *)
Lemma getMonday_eq (tz d : Z) : getMonday tz d = dayString (7 * weekIndex tz d - 3).
Proof.
  unfold getMonday. cbv zeta.
  set (day := if Date.getDay tz d =? 0 then 7 else Date.getDay tz d).
  assert (Hday : day - 1 = (Date.Day (d + tz) + 3) mod 7).
  { unfold day, Date.getDay, Date.WeekDay, Date.LocalTime. apply monday_offset. }
  pose proof (weekIndex_monday (Date.Day (d + tz))) as Hw.
  rewrite toDateString_day. f_equal. unfold weekIndex, Date.LocalTime.
  destruct (Z.eqb_spec day 1) as [E | E]; cbn [negb].
  - lia.
  - unfold Date.setHours1, Date.UTC, Date.LocalTime.
    set (l := d + tz) in *.
    pose proof (Z.mod_pos_bound (Date.TimeWithinDay l) Date.msPerHour ltac:(reflexivity)) as B.
    set (r := Date.TimeWithinDay l mod Date.msPerHour) in *.
    unfold Date.msPerHour in B.
    replace (Date.Day l * Date.msPerDay + -24 * (day - 1) * Date.msPerHour + r - tz + tz)
      with ((Date.Day l - (day - 1)) * Date.msPerDay + r)
      by (unfold Date.msPerDay, Date.msPerHour; lia).
    unfold Date.Day at 1. rewrite Z.div_add_l by (unfold Date.msPerDay; lia).
    rewrite (Z.div_small r) by (unfold Date.msPerDay; lia). lia.
Qed.

Lemma isSameWeek_iff (tz a b : Z) :
  isSameWeek tz a b = true <-> weekIndex tz a = weekIndex tz b.
Proof.
  unfold isSameWeek. rewrite String.eqb_eq, !getMonday_eq. split.
  - intros E. apply dayString_inj in E. lia.
  - intros ->. reflexivity.
Qed.

(** X7. Two instants are in the same week for [isSameWeek] exactly when
    their local days lie in the same Monday-to-Sunday week; the time of
    day plays no part, and the relation is reflexive, symmetric and
    transitive. *)
Theorem isSameWeek_weekIndex (tz : Z) :
  (forall a b, isSameWeek tz a b = true <-> weekIndex tz a = weekIndex tz b)
  /\ (forall a, isSameWeek tz a a = true)
  /\ (forall a b, isSameWeek tz a b = isSameWeek tz b a)
  /\ (forall a b c, isSameWeek tz a b = true -> isSameWeek tz b c = true ->
                    isSameWeek tz a c = true).
Proof.
  split; [apply isSameWeek_iff |]. split; [intros a; apply isSameWeek_iff; reflexivity |].
  split.
  - intros a b. unfold isSameWeek. apply String.eqb_sym.
  - intros a b c. rewrite !isSameWeek_iff. congruence.
Qed.

(** X8. An instant is in the same week as a date exactly when it lies in
    the range that [getWeekRange] gives for the date, ends included. *)
Theorem isSameWeek_range (tz date t : Z) :
  isSameWeek tz t date = true
  <-> fst (getWeekRange tz date) <= t <= snd (getWeekRange tz date).
Proof.
  rewrite isSameWeek_iff, getWeekRange_eq. cbn [fst snd].
  unfold weekIndex, Date.LocalTime, Date.Day, Date.msPerDay.
  set (w := ((date + tz) / 86400000 + 3) / 7).
  pose proof (Z.div_mod (t + tz) 86400000 ltac:(lia)) as Ht.
  pose proof (Z.mod_pos_bound (t + tz) 86400000 ltac:(lia)) as Bt.
  pose proof (Z.div_mod ((t + tz) / 86400000 + 3) 7 ltac:(lia)) as Hw.
  pose proof (Z.mod_pos_bound ((t + tz) / 86400000 + 3) 7 ltac:(lia)) as Bw.
  split; intros H; [lia |].
  symmetry. apply Z.div_unique with (r := ((t + tz) / 86400000 + 3) - 7 * w); lia.
Qed.
(** ** The multi-item parser *)

Lemma trimStart_suffix (s : string) : exists a, s = a +:+ JS.trimStart s.
Proof.
  induction s as [| c s [a IH]]; [exists ""; reflexivity |]. simpl.
  destruct (JS.isSpace c); [| exists ""; reflexivity].
  exists (String c a). simpl. congruence.
Qed.

Lemma trimEnd_empty_head (s : string) :
  JS.trimEnd s = "" -> Regex.isWordAt (headOf s) = false.
Proof.
  destruct s as [| c s]; simpl; [reflexivity |].
  destruct (JS.trimEnd s); [| discriminate].
  destruct (JS.isSpace c) eqn:E; [| discriminate].
  intros _. apply space_not_word, E.
Qed.

Lemma trimEnd_cons_head (s : string) (x : ascii) (t : string) :
  JS.trimEnd s = String x t -> headOf s = Some x.
Proof.
  destruct s as [| c s]; simpl; [discriminate |].
  destruct (JS.trimEnd s); [destruct (JS.isSpace c) |]; congruence.
Qed.

Lemma hasDigitBoundary_of_trimEnd (s : string) :
  hasDigitBoundary (JS.trimEnd s) = true -> hasDigitBoundary s = true.
Proof.
  induction s as [| c s IH]; simpl; [discriminate |].
  destruct (JS.trimEnd s) as [| x t] eqn:E.
  - destruct (JS.isSpace c); [discriminate |]. simpl.
    rewrite orb_false_r, andb_true_r. intros H.
    rewrite H, (trimEnd_empty_head s E). reflexivity.
  - intros H. cbn [hasDigitBoundary headOf] in H.
    apply orb_true_iff in H as [H | H].
    + rewrite (trimEnd_cons_head s x t E), H. reflexivity.
    + rewrite (IH H). apply orb_true_r.
Qed.

Lemma hasDigitBoundary_of_trim (s : string) :
  hasDigitBoundary (JS.trim s) = true -> hasDigitBoundary s = true.
Proof.
  intros H. apply hasDigitBoundary_of_trimEnd in H.
  destruct (trimStart_suffix s) as [a E]. rewrite E.
  apply hasDigitBoundary_tail, H.
Qed.

Lemma hasDigitBoundary_of_piece (s piece : string) :
  In piece (JS.splitOn isSeparator s) -> hasDigitBoundary piece = true ->
  hasDigitBoundary s = true.
Proof.
  revert piece. induction s as [| c s IH]; intros piece; simpl.
  - intros [<- | []]. discriminate.
  - destruct (isSeparator c) eqn:Hsep.
    + intros [<- | Hin] Hp; [discriminate |].
      rewrite (IH _ Hin Hp). apply orb_true_r.
    + destruct (splitOn_cons isSeparator s) as (p0 & ps & E).
      pose proof (splitOn_head _ _ _ _ E) as Hhead. rewrite E in *.
      intros [<- | Hin] Hp.
      * cbn [hasDigitBoundary] in Hp. apply orb_true_iff in Hp as [Hp | Hp].
        -- apply andb_true_iff in Hp as [Hd Hb]. rewrite Hd. cbn [andb].
           apply orb_true_iff. left. rewrite Hhead in Hb.
           destruct (headOf s) as [x |]; [| reflexivity].
           destruct (isSeparator x) eqn:Hx; [| exact Hb].
           cbn [Regex.isWordAt]. rewrite (separator_not_word _ Hx). reflexivity.
        -- rewrite (IH p0 ltac:(left; reflexivity) Hp). apply orb_true_r.
      * rewrite (IH piece ltac:(right; exact Hin) Hp). apply orb_true_r.
Qed.

(** X9. The items of [parseMultipleExpenses] are the parses of the
    chunks that have an amount, in the order of the text: the parse of
    the whole text, which the function falls back on, never becomes an
    item. Every item has an amount, and there is no item exactly when
    the lowercased text has no digit that ends a word. *)
Theorem parseMultipleExpenses_chunks (tz now : Z) (text : string) :
  let chunks :=
    List.filter (fun c => (0 <? String.length c)%nat)
      (map JS.trim (JS.splitOn isSeparator text)) in
  parseMultipleExpenses tz now text
  = List.filter hasAmount (map (parseExpenseInput tz now) chunks)
  /\ Forall (fun item => ParsedExpense.amount item <> None)
       (parseMultipleExpenses tz now text)
  /\ (parseMultipleExpenses tz now text = []
      <-> hasDigitBoundary (JS.toLowerCase text) = false).
Proof.
  intros chunks. rewrite hasDigitBoundary_lower.
  set (results := List.filter hasAmount (map (parseExpenseInput tz now) chunks)).
  assert (E : parseMultipleExpenses tz now text = results).
  { destruct results as [| r rs] eqn:Er.
    - apply fallback_is_empty. exact Er.
    - unfold parseMultipleExpenses. fold chunks. fold results. rewrite Er. reflexivity. }
  split; [exact E |]. rewrite E. split.
  - apply List.Forall_forall. intros item Hin. apply List.filter_In in Hin as [_ H].
    unfold hasAmount in H. destruct (ParsedExpense.amount item); [discriminate | discriminate].
  - split.
    + intros Hnil. destruct (hasDigitBoundary text) eqn:Hb; [| reflexivity].
      exfalso. apply (chunk_has_amount tz now text); [| exact Hnil].
      apply hasAmount_iff, Hb.
    + intros Hb. destruct results as [| r rs] eqn:Er; [reflexivity |]. exfalso.
      assert (Hin : In r results) by (rewrite Er; left; reflexivity).
      apply List.filter_In in Hin as [Hin Ha].
      apply in_map_iff in Hin as (chunk & <- & Hin).
      apply List.filter_In in Hin as [Hin _].
      apply in_map_iff in Hin as (piece & <- & Hin).
      apply hasAmount_iff, hasDigitBoundary_of_trim in Ha.
      rewrite (hasDigitBoundary_of_piece _ _ Hin Ha) in Hb. discriminate.
Qed.
(** ** The alert engine, continued *)

Section MoreAlertProofs.
Variable tz : Z.
Variable show : Q -> string.

Lemma NoDup_short {A : Type} (l : list A) : (List.length l <= 1)%nat -> List.NoDup l.
Proof.
  destruct l as [| a [| b l]]; simpl; intros H; [constructor | | lia].
  constructor; [intros [] | constructor].
Qed.

Lemma weeklyAlerts_length now budget txs :
  (List.length (weeklyAlerts tz show now budget txs) <= 1)%nat.
Proof.
  unfold weeklyAlerts.
  repeat match goal with |- context [if ?b then _ else _] => destruct b end;
    simpl; lia.
Qed.

Lemma categoryAlert_length now txs limits cat :
  (List.length (categoryAlert tz show now txs limits cat) <= 1)%nat.
Proof.
  unfold categoryAlert.
  repeat match goal with |- context [if ?b then _ else _] => destruct b end;
    simpl; lia.
Qed.

Lemma monthlyAlerts_length now budget txs :
  (List.length (monthlyAlerts show now budget txs) <= 1)%nat.
Proof.
  unfold monthlyAlerts.
  repeat match goal with |- context [if ?b then _ else _] => destruct b end;
    simpl; lia.
Qed.

Lemma savingsAlerts_length now budget txs :
  (List.length (savingsAlerts show now budget txs) <= 1)%nat.
Proof.
  unfold savingsAlerts.
  repeat match goal with |- context [if ?b then _ else _] => destruct b end;
    simpl; lia.
Qed.

Lemma NoDup_ids_short (l : list AlertItem.t) :
  (List.length l <= 1)%nat -> List.NoDup (map AlertItem.id l).
Proof. intros H. apply NoDup_short. rewrite length_map. exact H. Qed.

Lemma categoryAlerts_NoDup now txs limits keys :
  List.NoDup keys ->
  List.NoDup (map AlertItem.id (flat_map (categoryAlert tz show now txs limits) keys)).
Proof.
  induction keys as [| k keys IH]; intros Hk; [constructor |].
  apply List.NoDup_cons_iff in Hk as [Hk Hks].
  cbn [flat_map]. rewrite map_app. apply List.NoDup_app.
  - apply NoDup_ids_short, categoryAlert_length.
  - apply IH, Hks.
  - intros i Hi Hi'.
    apply in_map_iff in Hi as (a & <- & Ha).
    apply in_map_iff in Hi' as (a' & E & Ha').
    apply in_flat_map in Ha' as (c & Hc & Ha').
    apply categoryAlert_ids in Ha, Ha'. rewrite E in Ha'.
    rewrite (category_ids_inj _ _ _ _ Ha Ha') in Hk. exact (Hk Hc).
Qed.
End MoreAlertProofs.

(** X10. The identifiers of the alerts of one call of [generateAlerts]
    are all different, provided that no category is listed twice among
    the weekly category limits (the keys of an object never are). *)
Theorem alert_ids_distinct (tz : Z) (show : Q -> string) (now : Z)
    (budget : BudgetState.t) (txs : list Transaction.t) :
  List.NoDup
    (map fst
       (match BudgetAllocations.weeklyCategoryLimits (BudgetState.allocations budget) with
        | Some limits => limits
        | None => []
        end)) ->
  List.NoDup (map AlertItem.id (generateAlerts tz show now budget txs)).
Proof.
  intros Hkeys. unfold generateAlerts. rewrite !map_app.
  assert (Hw : forall i, In i (map AlertItem.id (weeklyAlerts tz show now budget txs)) ->
                         In i (weeklyLimitIds now)).
  { intros i Hi. apply in_map_iff in Hi as (a & <- & Ha).
    exact (weeklyAlerts_ids _ _ _ _ _ _ Ha). }
  assert (Hc : forall i, In i (map AlertItem.id (categoryAlerts tz show now budget txs)) ->
                         exists c, In i (categoryLimitIds now c)).
  { intros i Hi. apply in_map_iff in Hi as (a & <- & Ha).
    unfold categoryAlerts in Ha. apply in_flat_map in Ha as (c & _ & Ha).
    exists c. exact (categoryAlert_ids _ _ _ _ _ _ _ Ha). }
  assert (Hm : forall i, In i (map AlertItem.id (monthlyAlerts show now budget txs)) ->
                         In i (monthlyLimitIds now)).
  { intros i Hi. apply in_map_iff in Hi as (a & <- & Ha).
    exact (monthlyAlerts_ids _ _ _ _ _ Ha). }
  assert (Hs : forall i, In i (map AlertItem.id (savingsAlerts show now budget txs)) ->
                         exists a, AlertItem.id a = i /\ isSavingsAlert a = true).
  { intros i Hi. apply in_map_iff in Hi as (a & <- & Ha).
    exists a. split; [reflexivity | exact (savingsAlerts_ids _ _ _ _ _ Ha)]. }
  apply List.NoDup_app; [apply NoDup_ids_short, weeklyAlerts_length | |].
  - apply List.NoDup_app; [| apply List.NoDup_app |].
    + unfold categoryAlerts. apply categoryAlerts_NoDup. exact Hkeys.
    + apply NoDup_ids_short, monthlyAlerts_length.
    + apply NoDup_ids_short, savingsAlerts_length.
    + intros i Hi Hi'. apply Hm in Hi. apply Hs in Hi' as (a & <- & Ha).
      apply (savings_not_spend now) in Ha. tauto.
    + intros i Hi Hi'. apply Hc in Hi as [c Hi].
      apply in_app_or in Hi' as [Hi' | Hi'].
      * apply Hm in Hi'. exact (category_not_monthly _ _ _ Hi Hi').
      * apply Hs in Hi' as (a & <- & Ha). apply (savings_not_spend now) in Ha.
        destruct Ha as (_ & Ha & _). exact (Ha c Hi).
  - intros i Hi Hi'. apply Hw in Hi.
    apply in_app_or in Hi' as [Hi' | Hi'].
    + apply Hc in Hi' as [c Hi']. exact (weekly_not_category _ _ _ Hi Hi').
    + apply in_app_or in Hi' as [Hi' | Hi'].
      * apply Hm in Hi'. exact (weekly_not_monthly _ _ Hi Hi').
      * apply Hs in Hi' as (a & <- & Ha). apply (savings_not_spend now) in Ha. tauto.
Qed.

Lemma alert_ids_distinct_witness :
  List.NoDup
    (map AlertItem.id
       (generateAlerts Sample.IST Sample.show Sample.now Sample.budget
          Sample.transactions)).
Proof.
  apply alert_ids_distinct. simpl.
  repeat (constructor; [simpl; intuition discriminate |]). constructor.
Defined.
Lemma flat_map_nil {A B : Type} (f : A -> list B) (l : list A) :
  (forall x, In x l -> f x = []) -> flat_map f l = [].
Proof.
  induction l as [| a l IH]; intros H; [reflexivity |]. cbn [flat_map].
  rewrite (H a ltac:(left; reflexivity)), IH; [reflexivity |].
  intros x Hx. apply H. right. exact Hx.
Qed.

(** X11. A budget none of whose limits is above zero gives no alert,
    whatever the transactions are: the weekly limit, the monthly limit,
    the savings target and every weekly category limit switch their alerts
    off at zero. *)
Theorem no_limit_no_alert (tz : Z) (show : Q -> string) (now : Z)
    (budget : BudgetState.t) (txs : list Transaction.t) :
  let a := BudgetState.allocations budget in
  (BudgetAllocations.weeklyLimit a <= 0)%Q ->
  (BudgetAllocations.monthlyLimit a <= 0)%Q ->
  (BudgetAllocations.savingsTarget a <= 0)%Q ->
  (forall limits cat limit,
     BudgetAllocations.weeklyCategoryLimits a = Some limits ->
     lookupCategory limits cat = Some limit -> (limit <= 0)%Q) ->
  generateAlerts tz show now budget txs = [].
Proof.
  intros a Hw Hm Hs Hc. unfold generateAlerts.
  assert (Ew : weeklyAlerts tz show now budget txs = []).
  { unfold weeklyAlerts. fold a. apply gt_false in Hw. rewrite Hw. reflexivity. }
  assert (Em : monthlyAlerts show now budget txs = []).
  { unfold monthlyAlerts. fold a. apply gt_false in Hm. rewrite Hm. reflexivity. }
  assert (Es : savingsAlerts show now budget txs = []).
  { unfold savingsAlerts. fold a. apply gt_false in Hs. rewrite Hs. reflexivity. }
  assert (Ec : categoryAlerts tz show now budget txs = []).
  { unfold categoryAlerts. fold a. apply flat_map_nil. intros cat _.
    unfold categoryAlert.
    destruct (BudgetAllocations.weeklyCategoryLimits a) as [limits |] eqn:El;
      [| reflexivity].
    destruct (lookupCategory limits cat) as [limit |] eqn:Elim; [| reflexivity].
    specialize (Hc limits cat limit eq_refl Elim).
    destruct (Number.truthy limit); [| reflexivity].
    apply Qle_bool_iff in Hc. rewrite Hc. reflexivity. }
  rewrite Ew, Ec, Em, Es. reflexivity.
Qed.

(** The budget of a user who has not set one. *)
Lemma no_limit_no_alert_witness :
  generateAlerts Sample.IST Sample.show Sample.now
    (BudgetState.mk 0
       (BudgetAllocations.mk 0 0 0
          (Some [(Groceries, 0%Q); (Outings, 0%Q); (BodyCare, 0%Q); (Orders, 0%Q);
                 (Miscellaneous, 0%Q); (Petrol, 0%Q)]))
       false)
    Sample.transactions = [].
Proof.
  apply no_limit_no_alert; try (vm_compute; discriminate).
  intros limits cat limit [= <-].
  destruct cat; vm_compute; intros [= <-]; discriminate.
Defined.

Lemma totalOf_filter_cons (f : Transaction.t -> bool) (t : Transaction.t)
    (l : list Transaction.t) :
  (0 <= Transaction.amount t)%Q ->
  (sumAmounts (List.filter f l) <= sumAmounts (List.filter f (t :: l)))%Q.
Proof.
  intros H. rewrite !sumAmounts_total. cbn [List.filter].
  destruct (f t); [| lra]. unfold totalOf. cbn [map fold_right].
  fold (totalOf (List.filter f l)). lra.
Qed.

(** X12. Adding an expense of a non-negative amount never clears a
    critical alert: a weekly, monthly or weekly category limit that was
    reported as exceeded is still reported as exceeded with the new
    transaction in front of the list, and a savings warning stays a
    savings warning. *)
Theorem critical_persists (tz : Z) (show : Q -> string) (now : Z)
    (budget : BudgetState.t) (txs : list Transaction.t) (t : Transaction.t) :
  (0 <= Transaction.amount t)%Q ->
  let a := BudgetState.allocations budget in
  let before := generateAlerts tz show now budget txs in
  let after := generateAlerts tz show now budget (t :: txs) in
  ((0 < BudgetAllocations.weeklyLimit a)%Q ->
   emits before (weeklyLimitIds now) critical ->
   emits after (weeklyLimitIds now) critical)
  /\ ((0 < BudgetAllocations.monthlyLimit a)%Q ->
      emits before (monthlyLimitIds now) critical ->
      emits after (monthlyLimitIds now) critical)
  /\ (forall limits cat limit,
        BudgetAllocations.weeklyCategoryLimits a = Some limits ->
        lookupCategory limits cat = Some limit -> (0 < limit)%Q ->
        emits before (categoryLimitIds now cat) critical ->
        emits after (categoryLimitIds now cat) critical)
  /\ (map AlertItem.type (List.filter isSavingsAlert before) = [warning] ->
      map AlertItem.type (List.filter isSavingsAlert after) = [warning]).
Proof.
  intros Ht a before after.
  split; [| split; [| split]].
  - intros Hpos H.
    apply (weekly_rule tz show now budget (t :: txs) Hpos).
    apply (weekly_rule tz show now budget txs Hpos) in H.
    pose proof (totalOf_filter_cons
      (fun t => isSameWeek tz (Transaction.date t) now
                && bucket_eqb (CATEGORY_BUCKET_MAP (Transaction.category t)) Weekly)
      t txs Ht) as Hle.
    unfold weeklyBucketTotal. fold a. unfold weeklyBucketTotal in H. fold a in H. lra.
  - intros Hpos H.
    apply (monthly_rule tz show now budget (t :: txs) Hpos).
    apply (monthly_rule tz show now budget txs Hpos) in H.
    pose proof (totalOf_filter_cons
      (fun t => JS.startsWith (Transaction.dateString t) (currentMonthStr now)
                && bucket_eqb (CATEGORY_BUCKET_MAP (Transaction.category t)) Monthly)
      t txs Ht) as Hle.
    unfold monthlyBucketTotal. fold a. unfold monthlyBucketTotal in H. fold a in H. lra.
  - intros limits cat limit Hl Hc Hpos H.
    apply (category_rule tz show now budget (t :: txs) limits cat limit Hl Hc Hpos).
    apply (category_rule tz show now budget txs limits cat limit Hl Hc Hpos) in H.
    pose proof (totalOf_filter_cons
      (fun t => isSameWeek tz (Transaction.date t) now
                && category_eqb (Transaction.category t) cat)
      t txs Ht) as Hle.
    unfold catSpent. unfold catSpent in H. lra.
  - unfold before, after. rewrite !only_savings_block. unfold savingsAlerts, currentSavings.
    pose proof (sumAmounts_total txs) as E. pose proof (sumAmounts_total (t :: txs)) as E'.
    unfold totalOf in E'. cbn [map fold_right] in E'. fold (totalOf txs) in E'.
    destruct (Number.gt (BudgetAllocations.savingsTarget (BudgetState.allocations budget)) 0);
      [| discriminate].
    destruct (Number.ge (BudgetState.monthlyIncome budget - sumAmounts txs) _) eqn:G;
      [discriminate |].
    intros _. apply ge_false in G.
    destruct (Number.ge (BudgetState.monthlyIncome budget - sumAmounts (t :: txs)) _) eqn:G';
      [| reflexivity].
    apply ge_true in G'. lra.
Qed.

Lemma critical_persists_witness :
  emits (generateAlerts Sample.IST Sample.show Sample.now Sample.budget
           (Sample.tx "4" 300 Groceries Sample.now :: Sample.transactions))
    (categoryLimitIds Sample.now Groceries) critical.
Proof.
  destruct (critical_persists Sample.IST Sample.show Sample.now Sample.budget
              Sample.transactions (Sample.tx "4" 300 Groceries Sample.now))
    as (_ & _ & H & _); [vm_compute; discriminate |].
  apply (H [(Groceries, 500%Q); (Outings, 0%Q)] Groceries 500%Q);
    [reflexivity | reflexivity | reflexivity |].
  destruct (category_rule Sample.IST Sample.show Sample.now Sample.budget
              Sample.transactions [(Groceries, 500%Q); (Outings, 0%Q)] Groceries 500%Q)
    as [Hc _]; [reflexivity | reflexivity | reflexivity |].
  apply Hc. vm_compute. reflexivity.
Defined.

(** X13. With the permission granted, [checkAndSendNotifications] sends
    one notification for every alert, successes included, in the order of
    the alerts, with the title, the message and the identifier of the
    alert as title, body and tag; without it, it sends none. *)
Theorem notifications_for_all_alerts (alerts : list AlertItem.t) :
  checkAndSendNotifications NotificationService.granted alerts
  = map (fun a => NotificationService.mkNotification (AlertItem.title a)
                    (AlertItem.message a) (AlertItem.id a))
        alerts
  /\ checkAndSendNotifications NotificationService.denied alerts = []
  /\ checkAndSendNotifications NotificationService.default alerts = [].
Proof.
  split; [| split; reflexivity].
  unfold checkAndSendNotifications. cbn [NotificationService.hasPermission negb].
  induction alerts as [| a l IH]; [reflexivity |].
  cbn [flat_map map]. rewrite IH.
  destruct (AlertItem.type a); reflexivity.
Qed.
(** ** The statistics of a week and of a month *)

Lemma truthy_or_zero (v : Q) : ((if Number.truthy v then v else 0) == v)%Q.
Proof.
  unfold Number.truthy. destruct (Qeq_bool v 0) eqn:E; cbn [negb]; [| reflexivity].
  apply Qeq_bool_iff in E. symmetry. exact E.
Qed.

Lemma addTo_total breakdown cat amount :
  (breakdownTotal (TimeService.addTo breakdown cat amount)
   == breakdownTotal breakdown + amount)%Q.
Proof.
  unfold breakdownTotal.
  induction breakdown as [| [k v] b IH]; cbn [TimeService.addTo map fold_right snd].
  - lra.
  - destruct (category_eqb k cat); cbn [map fold_right snd].
    + pose proof (truthy_or_zero v). lra.
    + rewrite IH. lra.
Qed.

Lemma addTo_keys breakdown cat amount k :
  In k (map fst (TimeService.addTo breakdown cat amount))
  <-> In k (map fst breakdown) \/ k = cat.
Proof.
  induction breakdown as [| [k' v] b IH]; cbn [TimeService.addTo map fst In].
  - intuition.
  - destruct (category_eqb k' cat) eqn:E; cbn [map fst In].
    + apply category_eqb_eq in E. subst. intuition.
    + rewrite IH. intuition.
Qed.

Lemma addTo_NoDup breakdown cat amount :
  List.NoDup (map fst breakdown) ->
  List.NoDup (map fst (TimeService.addTo breakdown cat amount)).
Proof.
  induction breakdown as [| [k v] b IH]; cbn [TimeService.addTo map fst]; intros H.
  - constructor; [intros [] | constructor].
  - destruct (category_eqb k cat) eqn:E; cbn [map fst]; [exact H |].
    apply List.NoDup_cons_iff in H as [Hk Hb].
    constructor; [| apply IH, Hb].
    rewrite addTo_keys. intros [Hin | ->]; [exact (Hk Hin) |].
    assert (category_eqb cat cat = true) by (apply category_eqb_eq; reflexivity).
    congruence.
Qed.

(** The loop of the statistics, from any state of its three counters. *)
Lemma tally_from (txs : list Transaction.t) (spent saved : Q)
    (breakdown : list (TransactionCategory * Q)) :
  let '(spent', saved', breakdown') :=
    fold_left
      (fun '(spent, saved, breakdown) tx =>
         if category_eqb (Transaction.category tx) Savings
         then (spent, (saved + Transaction.amount tx)%Q, breakdown)
         else ((spent + Transaction.amount tx)%Q, saved,
               TimeService.addTo breakdown (Transaction.category tx)
                 (Transaction.amount tx)))
      txs (spent, saved, breakdown) in
  (spent' == spent + totalOf (List.filter (fun tx => negb (isSaving tx)) txs))%Q
  /\ (saved' == saved + totalOf (List.filter isSaving txs))%Q
  /\ (breakdownTotal breakdown'
      == breakdownTotal breakdown
         + totalOf (List.filter (fun tx => negb (isSaving tx)) txs))%Q
  /\ (List.NoDup (map fst breakdown) -> List.NoDup (map fst breakdown'))
  /\ (forall k, In k (map fst breakdown') <->
                In k (map fst breakdown)
                \/ exists tx, In tx txs /\ Transaction.category tx = k /\ k <> Savings).
Proof.
  revert spent saved breakdown.
  induction txs as [| tx txs IH]; intros spent saved breakdown.
  - cbn [fold_left List.filter]. unfold totalOf. cbn [map fold_right].
    split; [lra |]. split; [lra |]. split; [lra |]. split; [tauto |].
    intros k. split; [auto |]. intros [H | (tx & [] & _)]. exact H.
  - cbn [fold_left List.filter].
    change (category_eqb (Transaction.category tx) Savings) with (isSaving tx).
    destruct (isSaving tx) eqn:E; cbn [negb]; unfold isSaving in E.
    + specialize (IH spent (saved + Transaction.amount tx)%Q breakdown).
      destruct (fold_left _ txs _) as [[spent' saved'] breakdown'].
      destruct IH as (H1 & H2 & H3 & H4 & H5).
      unfold totalOf in *. cbn [map fold_right].
      split; [lra |]. split; [lra |]. split; [lra |]. split; [exact H4 |].
      intros k. split.
      * intros Hk. apply H5 in Hk as [Hk | (tx' & Hin & Hc)]; [auto |].
        right. exists tx'. split; [right; exact Hin | exact Hc].
      * intros [Hk | (tx' & [<- | Hin] & Hc & Hne)].
        -- apply H5. auto.
        -- apply category_eqb_eq in E. congruence.
        -- apply H5. right. exists tx'. auto.
    + specialize (IH (spent + Transaction.amount tx)%Q saved
                    (TimeService.addTo breakdown (Transaction.category tx)
                       (Transaction.amount tx))).
      destruct (fold_left _ txs _) as [[spent' saved'] breakdown'].
      destruct IH as (H1 & H2 & H3 & H4 & H5).
      rewrite addTo_total in H3.
      unfold totalOf in *. cbn [map fold_right].
      split; [lra |]. split; [lra |]. split; [lra |].
      split; [intros Hn; apply H4, addTo_NoDup, Hn |].
      intros k. split.
      * intros Hk. apply H5 in Hk as [Hk | (tx' & Hin & Hc)].
        -- apply addTo_keys in Hk as [Hk | ->]; [auto |].
           right. exists tx. split; [left; reflexivity |]. split; [reflexivity |].
           intros Hs. rewrite Hs in E. discriminate E.
        -- right. exists tx'. split; [right; exact Hin | exact Hc].
      * intros [Hk | (tx' & [<- | Hin] & Hc & Hne)].
        -- apply H5. left. apply addTo_keys. auto.
        -- apply H5. left. apply addTo_keys. auto.
        -- apply H5. right. exists tx'. auto.
Qed.

Lemma tally_spec (txs : list Transaction.t) :
  let '(spent, saved, breakdown) := TimeService.tally txs in
  (spent + saved == totalOf txs)%Q
  /\ (saved == totalOf (List.filter isSaving txs))%Q
  /\ (breakdownTotal breakdown == spent)%Q
  /\ List.NoDup (map fst breakdown)
  /\ (forall k, In k (map fst breakdown) <->
                exists tx, In tx txs /\ Transaction.category tx = k /\ k <> Savings).
Proof.
  unfold TimeService.tally. pose proof (tally_from txs 0 0 []) as H.
  destruct (fold_left _ txs _) as [[spent saved] breakdown].
  destruct H as (H1 & H2 & H3 & H4 & H5).
  assert (Hsplit : (totalOf txs
                    == totalOf (List.filter (fun tx => negb (isSaving tx)) txs)
                       + totalOf (List.filter isSaving txs))%Q).
  { clear. unfold totalOf. induction txs as [| tx txs IH]; cbn [List.filter map fold_right];
      [lra |].
    destruct (isSaving tx); cbn [negb map fold_right]; lra. }
  unfold breakdownTotal in H3. cbn [map fold_right] in H3.
  split; [lra |]. split; [lra |]. split; [unfold breakdownTotal; lra |].
  split; [apply H4; constructor |].
  intros k. split.
  - intros Hk. apply H5 in Hk as [[] | Hk]. exact Hk.
  - intros Hk. apply H5. right. exact Hk.
Qed.

(** X14. In the statistics of a week and of a month, the keys of the
    category breakdown are the categories other than Savings that occur in
    the period, each once. When the amounts are whole numbers, not
    negative and below 2^53 in all, what was spent and what was saved add
    up to the amounts of the transactions of the period, the saved part is
    the total of the Savings transactions, and the category breakdown adds
    up to what was spent. *)
Theorem stats_conservation (tz : Z) (monthNameOf : string -> option string)
    (txs : list Transaction.t) :
  (forall weekId,
     let s := TimeService.calculateStatsForWeekId tz txs weekId in
     let relevant :=
       List.filter
         (fun tx => String.eqb (TimeService.getCurrentWeekId tz (Transaction.date tx)) weekId)
         txs in
     (wholeAmounts txs = true ->
      (WeeklyStats.totalSpent s + WeeklyStats.totalSaved s == totalOf relevant)%Q
      /\ (WeeklyStats.totalSaved s == totalOf (List.filter isSaving relevant))%Q
      /\ (breakdownTotal (WeeklyStats.categoryBreakdown s) == WeeklyStats.totalSpent s)%Q)
     /\ List.NoDup (map fst (WeeklyStats.categoryBreakdown s))
     /\ (forall k, In k (map fst (WeeklyStats.categoryBreakdown s)) <->
                   exists tx, In tx relevant /\ Transaction.category tx = k
                              /\ k <> Savings))
  /\ (forall monthId s,
        TimeService.calculateStatsForMonthId tz monthNameOf txs monthId = Some s ->
        let relevant :=
          List.filter
            (fun tx => String.eqb (DateFns.format_yyyy_MM tz (Transaction.date tx)) monthId)
            txs in
        (wholeAmounts txs = true ->
         (MonthlyStats.totalSpent s + MonthlyStats.totalSaved s == totalOf relevant)%Q
         /\ (MonthlyStats.totalSaved s == totalOf (List.filter isSaving relevant))%Q
         /\ (breakdownTotal (MonthlyStats.categoryBreakdown s) == MonthlyStats.totalSpent s)%Q)
        /\ List.NoDup (map fst (MonthlyStats.categoryBreakdown s))
        /\ (forall k, In k (map fst (MonthlyStats.categoryBreakdown s)) <->
                      exists tx, In tx relevant /\ Transaction.category tx = k
                                 /\ k <> Savings)).
Proof.
  split.
  - intros weekId s relevant. unfold s, TimeService.calculateStatsForWeekId.
    fold relevant. pose proof (tally_spec relevant) as H.
    destruct (TimeService.tally relevant) as [[spent saved] breakdown].
    destruct H as (H1 & H2 & H3 & H4 & H5).
    split; [intros _; split; [exact H1 | split; [exact H2 | exact H3]]
           | split; [exact H4 | exact H5]].
  - intros monthId s Hs relevant. unfold TimeService.calculateStatsForMonthId in Hs.
    fold relevant in Hs. pose proof (tally_spec relevant) as H.
    destruct (monthNameOf monthId) as [name |]; cbn [mbind option_bind] in Hs;
      [| discriminate].
    destruct (TimeService.tally relevant) as [[spent saved] breakdown].
    injection Hs as <-. destruct H as (H1 & H2 & H3 & H4 & H5).
    split; [intros _; split; [exact H1 | split; [exact H2 | exact H3]]
           | split; [exact H4 | exact H5]].
Qed.

Lemma stats_conservation_witness :
  wholeAmounts Sample.transactions = true
  /\ exists s,
       TimeService.calculateStatsForMonthId Sample.IST Sample.monthNameOf
         Sample.transactions "2025-03" = Some s
       /\ (breakdownTotal (MonthlyStats.categoryBreakdown s) == MonthlyStats.totalSpent s)%Q.
Proof.
  split; [reflexivity |].
  destruct (stats_conservation Sample.IST Sample.monthNameOf Sample.transactions)
    as [_ H].
  destruct (TimeService.calculateStatsForMonthId Sample.IST Sample.monthNameOf
              Sample.transactions "2025-03") as [s |] eqn:E.
  - exists s. split; [reflexivity |].
    destruct (H "2025-03" s E) as (H3 & _).
    destruct (H3 eq_refl) as (_ & _ & H3'). exact H3'.
  - vm_compute in E. discriminate E.
Defined.
(** ** What a run of the archiver touches *)

Section ArchiverFrame.
Variable tz : Z.
Variable monthNameOf : string -> option string.
Variable userId : string.

Lemma onlyTouches_refl db : onlyTouches userId db db.
Proof.
  split; [reflexivity |]. split; [reflexivity |]. exists []. symmetry. apply app_nil_r.
Qed.

Lemma onlyTouches_trans db1 db2 db3 :
  onlyTouches userId db1 db2 -> onlyTouches userId db2 db3 -> onlyTouches userId db1 db3.
Proof.
  intros (U1 & T1 & ws1 & W1) (U2 & T2 & ws2 & W2).
  split; [intros u Hu; rewrite U2, U1 by exact Hu; reflexivity |].
  split; [congruence |].
  exists (ws1 ++ ws2)%list. rewrite W2, W1, app_assoc. reflexivity.
Qed.

Lemma putDocs_touches db d w :
  UserDocs.transactions d = UserDocs.transactions (Firestore.docsOf db userId) ->
  onlyTouches userId db (putDocs db userId d w).
Proof.
  intros Ht. split; [| split].
  - intros u Hu. unfold putDocs. cbn [Firestore.users].
    apply lookup_insert_ne. congruence.
  - rewrite docsOf_putDocs. exact Ht.
  - exists [w]. reflexivity.
Qed.

Lemma setMeta_touches meta db : onlyTouches userId db (snd (setMeta userId meta db)).
Proof. unfold setMeta. cbn [snd]. apply putDocs_touches. reflexivity. Qed.

Lemma updateMeta_touches f db : onlyTouches userId db (snd (updateMeta userId f db)).
Proof.
  unfold updateMeta.
  destruct (UserDocs.settings_meta (Firestore.docsOf db userId));
    [apply setMeta_touches | apply onlyTouches_refl].
Qed.

Lemma await_touches {A B : Type} (c : Async A) (k : A -> Async B) db :
  onlyTouches userId db (snd (c db)) ->
  (forall a db1, onlyTouches userId db1 (snd (k a db1))) ->
  onlyTouches userId db (snd (await c k db)).
Proof.
  intros Hc Hk. unfold await. destruct (c db) as [[a |] db1]; cbn [snd] in *.
  - exact (onlyTouches_trans _ _ _ Hc (Hk a db1)).
  - exact Hc.
Qed.

Lemma archiveWeek_touches weekId db :
  onlyTouches userId db (snd (TimeService.archiveWeek tz userId weekId db)).
Proof.
  unfold TimeService.archiveWeek. apply await_touches; [apply onlyTouches_refl |].
  intros allTx db1. unfold setWeek. cbn [snd]. apply putDocs_touches. reflexivity.
Qed.

Lemma archiveMonth_touches monthId db :
  onlyTouches userId db (snd (TimeService.archiveMonth tz monthNameOf userId monthId db)).
Proof.
  unfold TimeService.archiveMonth. apply await_touches; [apply onlyTouches_refl |].
  intros allTx db1.
  destruct (TimeService.calculateStatsForMonthId tz monthNameOf allTx monthId);
    [| apply onlyTouches_refl].
  unfold setMonth. cbn [snd]. apply putDocs_touches. reflexivity.
Qed.

Lemma init_touches now db :
  onlyTouches userId db (snd (TimeService.init tz monthNameOf now userId db)).
Proof.
  unfold TimeService.init. destruct (String.eqb userId ""); [apply onlyTouches_refl |].
  apply await_touches; [apply onlyTouches_refl |].
  intros [meta |] db1; [| apply setMeta_touches].
  apply await_touches.
  - unfold TimeService.checkWeek.
    destruct (negb _); [| apply onlyTouches_refl].
    apply await_touches; [apply archiveWeek_touches |].
    intros _ db2. apply updateMeta_touches.
  - intros _ db2. unfold TimeService.checkMonth.
    destruct (negb _); [| apply onlyTouches_refl].
    apply await_touches; [apply archiveMonth_touches |].
    intros _ db3. apply updateMeta_touches.
Qed.
End ArchiverFrame.

(** X15. A run of [init] for a user leaves the documents of every other
    user as they were, keeps the transactions of the user, and only adds
    to the writes made so far, whether it resolves or rejects. *)
Theorem init_frame (tz : Z) (monthNameOf : string -> option string)
    (now : Z) (userId : string) (db : Firestore.t) :
  let db' := snd (TimeService.init tz monthNameOf now userId db) in
  (forall u, u <> userId -> Firestore.docsOf db' u = Firestore.docsOf db u)
  /\ UserDocs.transactions (Firestore.docsOf db' userId)
     = UserDocs.transactions (Firestore.docsOf db userId)
  /\ exists ws, Firestore.writes db' = (Firestore.writes db ++ ws)%list.
Proof.
  intros db'. destruct (init_touches tz monthNameOf userId now db) as (U & T & W).
  split; [| split; [exact T | exact W]].
  intros u Hu. unfold Firestore.docsOf. fold db' in U. rewrite (U u Hu). reflexivity.
Qed.

(** X16. When the stored week is not the current week and the stored
    month is the current month, a run of [init] resolves after two
    writes: the statistics of the stored week, computed from all the
    transactions of the user and filed under the stored identifier, and
    the meta document with the current week. *)
Theorem week_rollover (tz : Z) (monthNameOf : string -> option string)
    (now : Z) (userId : string) (db : Firestore.t) (meta : HistoryMeta.t) :
  userId <> "" ->
  UserDocs.settings_meta (Firestore.docsOf db userId) = Some meta ->
  HistoryMeta.lastActiveWeek meta <> TimeService.getCurrentWeekId tz now ->
  HistoryMeta.lastActiveMonth meta = TimeService.getCurrentMonthId tz now ->
  let stats :=
    TimeService.calculateStatsForWeekId tz
      (UserDocs.transactions (Firestore.docsOf db userId))
      (HistoryMeta.lastActiveWeek meta) in
  let newMeta :=
    HistoryMeta.mk (TimeService.getCurrentWeekId tz now)
      (HistoryMeta.lastActiveMonth meta) in
  let run := TimeService.init tz monthNameOf now userId db in
  fst run = Some tt
  /\ Firestore.writes (snd run)
     = (Firestore.writes db
        ++ [WriteWeek userId (HistoryMeta.lastActiveWeek meta) stats;
            WriteMeta userId newMeta])%list
  /\ UserDocs.history_weeks (Firestore.docsOf (snd run) userId)
       !! HistoryMeta.lastActiveWeek meta = Some stats
  /\ UserDocs.settings_meta (Firestore.docsOf (snd run) userId) = Some newMeta.
Proof.
  intros Hu Hmeta Hweek Hmonth stats newMeta run.
  assert (E : run =
    (Some tt,
     putDocs
       (putDocs db userId
          (UserDocs.mk (Some meta)
             (UserDocs.transactions (Firestore.docsOf db userId))
             (<[HistoryMeta.lastActiveWeek meta := stats]>
                (UserDocs.history_weeks (Firestore.docsOf db userId)))
             (UserDocs.history_months (Firestore.docsOf db userId)))
          (WriteWeek userId (HistoryMeta.lastActiveWeek meta) stats))
       userId
       (UserDocs.mk (Some newMeta)
          (UserDocs.transactions (Firestore.docsOf db userId))
          (<[HistoryMeta.lastActiveWeek meta := stats]>
             (UserDocs.history_weeks (Firestore.docsOf db userId)))
          (UserDocs.history_months (Firestore.docsOf db userId)))
       (WriteMeta userId newMeta))).
  { unfold run, TimeService.init.
    destruct (String.eqb_spec userId ""); [contradiction |].
    unfold await at 1. unfold getMeta at 1. rewrite Hmeta.
    unfold TimeService.checkWeek.
    destruct (String.eqb_spec (HistoryMeta.lastActiveWeek meta)
                (TimeService.getCurrentWeekId tz now)); [contradiction |].
    cbn [negb].
    unfold TimeService.archiveWeek, await, getTransactions, setWeek, updateMeta, setMeta.
    cbn [fst snd]. rewrite !docsOf_putDocs. cbn [UserDocs.settings_meta].
    rewrite Hmeta. cbn [UserDocs.transactions UserDocs.history_weeks
                        UserDocs.history_months].
    unfold TimeService.checkMonth. rewrite Hmonth, String.eqb_refl. cbn [negb].
    unfold resolve. fold stats. rewrite <- Hmonth. reflexivity. }
  rewrite E. cbn [fst snd]. split; [reflexivity |]. split.
  - unfold putDocs. cbn [Firestore.writes]. rewrite <- app_assoc. reflexivity.
  - rewrite docsOf_putDocs. cbn [UserDocs.history_weeks UserDocs.settings_meta].
    split; [apply lookup_insert_eq | reflexivity].
Qed.

(** A user last seen in week 10 of March 2025, on Friday of week 11. *)
Lemma week_rollover_witness :
  fst (TimeService.init Sample.IST Sample.monthNameOf Sample.now "u1"
         (Firestore.mk
            {[ "u1" := UserDocs.mk (Some (HistoryMeta.mk "2025-W10" "2025-03"))
                         Sample.transactions ∅ ∅ ]}
            []))
  = Some tt.
Proof.
  destruct (week_rollover Sample.IST Sample.monthNameOf Sample.now "u1"
              (Firestore.mk
                 {[ "u1" := UserDocs.mk (Some (HistoryMeta.mk "2025-W10" "2025-03"))
                              Sample.transactions ∅ ∅ ]}
                 [])
              (HistoryMeta.mk "2025-W10" "2025-03")) as (H & _).
  - discriminate.
  - vm_compute. reflexivity.
  - vm_compute. discriminate.
  - vm_compute. reflexivity.
  - exact H.
Defined.
(** ** The inline editor of the dashboard *)

(** X17. Saving an edit of the dashboard always closes the editor. A
    budget is passed on only for a value that parses to a number that is
    not negative; that budget has the value in the edited allocation and
    is the old budget everywhere else, and no message is shown with it.
    A value that does not parse, or a negative one, changes nothing and
    shows nothing. *)
Theorem dashboard_save_edit (show : Q -> string) (st : Dashboard.EditState)
    (budget : BudgetState.t) (key : BudgetBucket) :
  Dashboard.editing st = Some key ->
  let out := Dashboard.handleSaveEdit show st budget in
  Dashboard.editing (Dashboard.edit out) = None
  /\ (forall b',
        Dashboard.updated out = Some b' ->
        BudgetState.monthlyIncome b' = BudgetState.monthlyIncome budget
        /\ BudgetState.isSet b' = BudgetState.isSet budget
        /\ BudgetAllocations.weeklyCategoryLimits (BudgetState.allocations b')
           = BudgetAllocations.weeklyCategoryLimits (BudgetState.allocations budget)
        /\ (forall other, other <> key ->
              allocationOf other (BudgetState.allocations b')
              = allocationOf other (BudgetState.allocations budget))
        /\ JS.parseFloat (Dashboard.editValue st)
           = Some (allocationOf key (BudgetState.allocations b'))
        /\ (0 <= allocationOf key (BudgetState.allocations b'))%Q
        /\ Dashboard.alerted out = None)
  /\ (JS.parseFloat (Dashboard.editValue st) = None ->
      Dashboard.updated out = None /\ Dashboard.alerted out = None)
  /\ (forall val,
        JS.parseFloat (Dashboard.editValue st) = Some val -> (val < 0)%Q ->
        Dashboard.updated out = None /\ Dashboard.alerted out = None).
Proof.
  intros Hkey out. unfold out, Dashboard.handleSaveEdit. rewrite Hkey.
  destruct (JS.parseFloat (Dashboard.editValue st)) as [val |].
  - destruct (Number.ge val 0) eqn:G.
    + apply ge_true in G.
      destruct (bucket_eqb key SavingsBucket
                && Number.gt val (BudgetState.monthlyIncome budget)) eqn:B.
      * cbn. split; [reflexivity |]. split; [discriminate |].
        split; [discriminate |]. intros v [= <-] Hneg. lra.
      * cbn. split; [reflexivity |]. split.
        -- intros b' [= <-]. cbn.
           split; [reflexivity |]. split; [reflexivity |]. split; [reflexivity |].
           split; [intros other Hne; destruct key, other; cbn; congruence |].
           destruct key; cbn; auto.
        -- split; [discriminate |]. intros v [= <-] Hneg. lra.
    + cbn. split; [reflexivity |]. split; [discriminate |].
      split; [discriminate |]. auto.
  - cbn. split; [reflexivity |]. split; [discriminate |]. split; [auto |]. discriminate.
Qed.

Lemma dashboard_save_edit_witness :
  Dashboard.editing
    (Dashboard.edit
       (Dashboard.handleSaveEdit Sample.show
          (Dashboard.mkEdit (Some Weekly) "1500") Sample.budget))
  = None.
Proof.
  destruct (dashboard_save_edit Sample.show (Dashboard.mkEdit (Some Weekly) "1500")
              Sample.budget Weekly) as [H _]; [reflexivity | exact H].
Defined.

(** ** The setup form *)

Lemma floor_bounds (x : Q) :
  (inject_Z (Qfloor x) <= x)%Q /\ (x < inject_Z (Qfloor x) + 1)%Q.
Proof.
  split; [apply Qfloor_le |].
  pose proof (Qlt_floor x) as H. rewrite inject_Z_plus in H. exact H.
Qed.

Lemma floor_positive (x : Q) : (0 < inject_Z (Qfloor x))%Q <-> (1 <= x)%Q.
Proof.
  split.
  - intros H. change 0%Q with (inject_Z 0) in H. rewrite <- Zlt_Qlt in H.
    assert (H1 : (inject_Z 1 <= inject_Z (Qfloor x))%Q) by (rewrite <- Zle_Qle; lia).
    pose proof (Qfloor_le x). change (inject_Z 1) with 1%Q in H1. lra.
  - intros H. apply Qfloor_resp_le in H. change (Qfloor 1) with 1 in H.
    change 0%Q with (inject_Z 0). rewrite <- Zlt_Qlt. lia.
Qed.

(** X18. Typing an income above zero into the setup form, a whole number
    of at most 10^12, replaces the three allocations, whatever they were,
    by shares of the income that never add up to more than the income and
    leave less than 6 of it unallocated; the savings target they set is
    within the income. The form is then valid exactly when the income is
    at least 40/3, that is 14, below which the weekly share is rounded
    down to zero. *)
Theorem smart_defaults (st : BudgetSetup.State) (val : string) (num : Q) :
  JS.parseFloat val = Some num -> (0 < num)%Q -> wholeUpTo (10 ^ 12) num = true ->
  let st' := BudgetSetup.handleIncomeChange st val in
  st' = BudgetSetup.handleIncomeChange BudgetSetup.initial val
  /\ (BudgetSetup.incomeNum st' == num)%Q
  /\ (0 <= BudgetSetup.remaining st' < 6)%Q
  /\ (BudgetSetup.allocSavings st' <= num)%Q
  /\ (BudgetSetup.isValid st' = true <-> (40 # 3 <= num)%Q).
Proof.
  intros Hval Hpos _ st'.
  assert (E : st' = BudgetSetup.mk val
                      (inject_Z (Number.floor ((num * (3 # 10)) / 4)%Q))
                      (inject_Z (Number.floor (num * (5 # 10))%Q))
                      (inject_Z (Number.floor (num * (2 # 10))%Q))).
  { unfold st', BudgetSetup.handleIncomeChange. rewrite Hval.
    apply gt_true in Hpos. rewrite Hpos. reflexivity. }
  assert (Ei : BudgetSetup.incomeNum st' = num).
  { rewrite E. unfold BudgetSetup.incomeNum. cbn [BudgetSetup.income].
    rewrite Hval, (truthy_pos _ Hpos). reflexivity. }
  split.
  { rewrite E. unfold BudgetSetup.handleIncomeChange. rewrite Hval.
    apply gt_true in Hpos. rewrite Hpos. reflexivity. }
  split; [rewrite Ei; reflexivity |].
  unfold BudgetSetup.remaining, BudgetSetup.totalAllocated, BudgetSetup.isValid.
  rewrite Ei. rewrite E. cbn [BudgetSetup.allocWeekly BudgetSetup.allocMonthly
                              BudgetSetup.allocSavings].
  unfold Number.floor.
  assert (Hdiv : (num * (3 # 10) / 4 == num * (3 # 40))%Q) by field.
  destruct (floor_bounds (num * (3 # 10) / 4)) as [W1 W2].
  destruct (floor_bounds (num * (5 # 10))) as [M1 M2].
  destruct (floor_bounds (num * (2 # 10))) as [S1 S2].
  pose proof (floor_positive (num * (3 # 10) / 4)) as Wpos.
  set (w := inject_Z (Qfloor (num * (3 # 10) / 4))) in *.
  set (m := inject_Z (Qfloor (num * (5 # 10)))) in *.
  set (s := inject_Z (Qfloor (num * (2 # 10)))) in *.
  split; [split; lra |]. split; [lra |].
  rewrite andb_true_iff, !gt_true. split.
  - intros [_ H]. apply Wpos in H. lra.
  - intros H. split; [exact Hpos |]. apply Wpos. lra.
Qed.

Lemma smart_defaults_witness :
  (BudgetSetup.remaining (BudgetSetup.handleIncomeChange BudgetSetup.initial "50000") < 6)%Q.
Proof.
  destruct (smart_defaults BudgetSetup.initial "50000" 50000)
    as (_ & _ & [_ H] & _);
    [vm_compute; reflexivity | reflexivity | vm_compute; reflexivity | exact H].
Defined.

(** ** The AI adapter, continued *)

Section MoreAdapterProofs.
Import Groq.
Variable show : Q -> string.
Variable newDate : value -> option DateValue.
Variable now : Z.

Lemma callback_throws input items x :
  In x items -> toCandidate show newDate now input x = None ->
  mapM (toCandidate show newDate now input) items = None.
Proof.
  intros Hin Hx. apply mapM_None. apply Exists_exists. exists x.
  split; [apply list_elem_of_In; exact Hin | exact Hx].
Qed.
End MoreAdapterProofs.

(** X19. One item on which the callback of the adapter throws voids the
    whole reply: the result is empty, whatever the other items are. The
    callback throws on an item that is [null], and on an item whose
    category is a number other than zero whose text is no key of the
    table and names no inherited property. *)
Theorem one_bad_item_voids_reply (show : Q -> string)
    (newDate : Groq.value -> option Groq.DateValue) (now : Z) (input : string) :
  (forall items x,
     In x items -> Groq.toCandidate show newDate now input x = None ->
     Groq.parseExpenseWithAI show newDate now input
       (Groq.Parsed (Groq.VObj [("expenses", Groq.VArr items)])) = [])
  /\ Groq.toCandidate show newDate now input Groq.VNull = None
  /\ (forall fields n,
        Groq.ownProperty fields "category" = Some (Groq.VNum n) ->
        Number.truthy n = true ->
        Groq.lookupMap (show n) = None ->
        Groq.toCandidate show newDate now input (Groq.VObj fields) = None).
Proof.
  split; [| split].
  - intros items x Hin Hx. unfold Groq.parseExpenseWithAI.
    destruct (_ || _); [reflexivity |].
    cbn [Groq.get Groq.ownProperty String.eqb Ascii.eqb Bool.eqb].
    rewrite (callback_throws show newDate now input items x Hin Hx). reflexivity.
  - reflexivity.
  - intros fields n Hc Ht Hl. unfold Groq.toCandidate.
    cbn [Groq.get mbind option_bind]. rewrite Hc.
    unfold Groq.orElse. cbn [Groq.truthy]. rewrite Ht.
    unfold Groq.normalize. cbn [Groq.toPropertyKey mbind option_bind].
    rewrite Hl. reflexivity.
Qed.

Lemma one_bad_item_voids_reply_witness :
  Groq.parseExpenseWithAI Sample.show (fun _ => None) Sample.now "tea 20, bus 15"
    (Groq.Parsed
       (Groq.VObj
          [("expenses",
            Groq.VArr
              [Groq.VObj [("amount", Groq.VNum 20); ("category", Groq.VStr "Food")];
               Groq.VNull])]))
  = [].
Proof.
  destruct (one_bad_item_voids_reply Sample.show (fun _ => None) Sample.now
              "tea 20, bus 15") as [H _].
  apply (H _ Groq.VNull); [right; left; reflexivity | reflexivity].
Defined.

(** X20. An item that is an object without a category, a description
    and a date becomes a candidate with the defaults: the category is
    Miscellaneous, the description is the text the user typed, the date
    is the instant of the call, and the amount is whatever the item holds
    under [amount]. *)
Theorem candidate_defaults (show : Q -> string)
    (newDate : Groq.value -> option Groq.DateValue) (now : Z) (input : string)
    (fields : list (string * Groq.value)) :
  Groq.ownProperty fields "category" = None ->
  Groq.ownProperty fields "description" = None ->
  Groq.ownProperty fields "date" = None ->
  Groq.toCandidate show newDate now input (Groq.VObj fields)
  = Some (Groq.mkCandidate
            (match Groq.ownProperty fields "amount" with
             | Some v => v
             | None => Groq.VUndefined
             end)
            (Groq.Enum Miscellaneous) (Groq.VStr input) (Groq.At now)).
Proof.
  intros Hc Hd Ht. unfold Groq.toCandidate.
  cbn [Groq.get mbind option_bind]. rewrite Hc, Hd, Ht.
  unfold Groq.orElse. cbn [Groq.truthy].
  assert (E : Groq.normalize show (Groq.VStr "Miscellaneous")
              = Some (Groq.Enum Miscellaneous)) by (vm_compute; reflexivity).
  rewrite E. reflexivity.
Qed.

Lemma candidate_defaults_witness :
  Groq.toCandidate Sample.show (fun _ => None) Sample.now "tea 20"
    (Groq.VObj [("amount", Groq.VNum 20)])
  = Some (Groq.mkCandidate (Groq.VNum 20) (Groq.Enum Miscellaneous)
            (Groq.VStr "tea 20") (Groq.At Sample.now)).
Proof.
  apply (candidate_defaults Sample.show (fun _ => None) Sample.now "tea 20"
           [("amount", Groq.VNum 20)]); reflexivity.
Defined.
(** ** The spending analytics *)

Section AnalyticsProofs.
Import Analytics.

Lemma bump_amounts m n a :
  (fold_right Qplus 0 (map (fun e => fst (snd e)) (bump m n a))
   == fold_right Qplus 0 (map (fun e => fst (snd e)) m) + a)%Q.
Proof.
  induction m as [| [k [x c]] m IH]; cbn [bump map fold_right fst snd]; [lra |].
  destruct (String.eqb k n); cbn [map fold_right fst snd]; [lra |]. rewrite IH. lra.
Qed.

Lemma bump_counts m n a :
  fold_right Z.add 0 (map (fun e => snd (snd e)) (bump m n a))
  = fold_right Z.add 0 (map (fun e => snd (snd e)) m) + 1.
Proof.
  induction m as [| [k [x c]] m IH]; cbn [bump map fold_right fst snd]; [lia |].
  destruct (String.eqb k n); cbn [map fold_right fst snd]; [lia |]. rewrite IH. lia.
Qed.

Lemma bump_keys m n a k :
  In k (map fst (bump m n a)) <-> In k (map fst m) \/ k = n.
Proof.
  induction m as [| [k' [x c]] m IH]; cbn [bump map fst In]; [intuition |].
  destruct (String.eqb_spec k' n) as [-> | Hne]; cbn [map fst In].
  - intuition.
  - rewrite IH. intuition.
Qed.

Lemma bump_NoDup m n a : List.NoDup (map fst m) -> List.NoDup (map fst (bump m n a)).
Proof.
  induction m as [| [k [x c]] m IH]; cbn [bump map fst]; intros H.
  - constructor; [intros [] | constructor].
  - destruct (String.eqb_spec k n) as [-> | Hne]; cbn [map fst]; [exact H |].
    apply List.NoDup_cons_iff in H as [Hk Hm].
    constructor; [| apply IH, Hm].
    rewrite bump_keys. intros [Hin | ->]; [exact (Hk Hin) | exact (Hne eq_refl)].
Qed.

Lemma insert_In x l y : In y (insert x l) <-> y = x \/ In y l.
Proof.
  induction l as [| z l IH]; cbn [insert In]; [intuition |].
  destruct (Qle_bool (amount z) (amount x)); cbn [In]; [intuition |].
  rewrite IH. intuition.
Qed.

Lemma insert_amounts x l : (amountsOf (insert x l) == amount x + amountsOf l)%Q.
Proof.
  unfold amountsOf. induction l as [| z l IH]; cbn [insert map fold_right]; [lra |].
  destruct (Qle_bool (amount z) (amount x)); cbn [map fold_right]; [lra |].
  rewrite IH. lra.
Qed.

Lemma insert_counts x l : countsOf (insert x l) = count x + countsOf l.
Proof.
  unfold countsOf. induction l as [| z l IH]; cbn [insert map fold_right]; [lia |].
  destruct (Qle_bool (amount z) (amount x)); cbn [map fold_right]; [lia |].
  rewrite IH. lia.
Qed.

Lemma insert_length x l : List.length (insert x l) = S (List.length l).
Proof.
  induction l as [| z l IH]; cbn [insert List.length]; [reflexivity |].
  destruct (Qle_bool (amount z) (amount x)); cbn [List.length]; [reflexivity |].
  rewrite IH. reflexivity.
Qed.

Lemma insert_sorted x l :
  StronglySorted (fun a b => (amount b <= amount a)%Q) l ->
  StronglySorted (fun a b => (amount b <= amount a)%Q) (insert x l).
Proof.
  induction l as [| z l IH]; cbn [insert]; intros H.
  - constructor; [constructor | constructor].
  - apply StronglySorted_inv in H as [Hl Hz].
    destruct (Qle_bool (amount z) (amount x)) eqn:E.
    + apply Qle_bool_iff in E. constructor; [constructor; assumption |].
      constructor; [exact E |].
      rewrite List.Forall_forall in *. intros y Hy. specialize (Hz y Hy). lra.
    + assert (Hlt : (amount x < amount z)%Q).
      { destruct (Qlt_le_dec (amount x) (amount z)) as [L | L]; [exact L |].
        apply Qle_bool_iff in L. congruence. }
      constructor; [apply IH, Hl |].
      rewrite List.Forall_forall in *. intros y Hy.
      apply insert_In in Hy as [-> | Hy]; [lra | auto].
Qed.

Lemma sort_amounts l : (amountsOf (sort l) == amountsOf l)%Q.
Proof.
  induction l as [| x l IH]; [reflexivity |]. cbn [sort fold_right].
  fold (sort l). rewrite insert_amounts, IH. unfold amountsOf. cbn [map fold_right]. lra.
Qed.

Lemma sort_counts l : countsOf (sort l) = countsOf l.
Proof.
  induction l as [| x l IH]; [reflexivity |]. cbn [sort fold_right].
  fold (sort l). rewrite insert_counts, IH. reflexivity.
Qed.

Lemma sort_length l : List.length (sort l) = List.length l.
Proof.
  induction l as [| x l IH]; [reflexivity |]. cbn [sort fold_right].
  fold (sort l). rewrite insert_length, IH. reflexivity.
Qed.

Lemma sort_In l y : In y (sort l) <-> In y l.
Proof.
  induction l as [| x l IH]; [reflexivity |]. cbn [sort fold_right].
  fold (sort l). rewrite insert_In, IH.
  cbn [In]. intuition.
Qed.

Lemma sort_sorted l : StronglySorted (fun a b => (amount b <= amount a)%Q) (sort l).
Proof.
  induction l as [| x l IH]; [constructor |]. cbn [sort fold_right].
  fold (sort l). apply insert_sorted, IH.
Qed.

Lemma insert_names_NoDup x l :
  ~ In (name x) (map name l) -> List.NoDup (map name l) ->
  List.NoDup (map name (insert x l)).
Proof.
  induction l as [| z l IH]; cbn [insert map]; intros Hx Hl.
  - constructor; [intros [] | constructor].
  - destruct (Qle_bool (amount z) (amount x)); cbn [map].
    + constructor; assumption.
    + apply List.NoDup_cons_iff in Hl as [Hz Hl]. cbn [In] in Hx.
      constructor; [| apply IH; [tauto | exact Hl]].
      intros Hin. apply in_map_iff in Hin as (y & Ey & Hy).
      apply insert_In in Hy as [-> | Hy];
        [apply Hx; left; congruence |].
      apply Hz. rewrite <- Ey. apply in_map. exact Hy.
Qed.

Lemma sort_names_NoDup l : List.NoDup (map name l) -> List.NoDup (map name (sort l)).
Proof.
  induction l as [| x l IH]; [intros _; constructor |]. cbn [sort fold_right map].
  fold (sort l). intros H. apply List.NoDup_cons_iff in H as [Hx Hl].
  apply insert_names_NoDup; [| apply IH, Hl].
  intros Hin. apply Hx. apply in_map_iff in Hin as (y & Ey & Hy).
  apply (proj1 (sort_In _ _)) in Hy. rewrite <- Ey. apply in_map. exact Hy.
Qed.

(** The loop over the transactions, from any state of the map and of
    the list of personal purchases. *)
Lemma forEach_from (txs : list Transaction.t) (m : list (string * (Q * Z)))
    (pp : list Transaction.t) :
  let '(m', pp') :=
    fold_left
      (fun '(categoryMap, personalPurchases) t =>
         let personalPurchases :=
           if String.eqb (categoryName (Transaction.category t)) "Personal"
           then (personalPurchases ++ [t])%list else personalPurchases in
         let categoryName := getGranularCategory t in
         (bump categoryMap categoryName (Transaction.amount t), personalPurchases))
      txs (m, pp) in
  (fold_right Qplus 0 (map (fun e => fst (snd e)) m')
   == fold_right Qplus 0 (map (fun e => fst (snd e)) m) + totalOf txs)%Q
  /\ fold_right Z.add 0 (map (fun e => snd (snd e)) m')
     = fold_right Z.add 0 (map (fun e => snd (snd e)) m) + Z.of_nat (List.length txs)
  /\ (List.NoDup (map fst m) -> List.NoDup (map fst m'))
  /\ (forall k, In k (map fst m') <->
                In k (map fst m) \/ exists t, In t txs /\ getGranularCategory t = k)
  /\ pp' = pp.
Proof.
  revert m pp. induction txs as [| t txs IH]; intros m pp.
  - cbn [fold_left]. unfold totalOf. cbn [map fold_right List.length].
    split; [lra |]. split; [lia |]. split; [auto |]. split; [| reflexivity].
    intros k. split; [auto |]. intros [H | (t & [] & _)]. exact H.
  - cbn [fold_left].
    assert (Hp : String.eqb (categoryName (Transaction.category t)) "Personal" = false)
      by (destruct (Transaction.category t); reflexivity).
    rewrite Hp.
    specialize (IH (bump m (getGranularCategory t) (Transaction.amount t)) pp).
    destruct (fold_left _ txs _) as [m' pp'].
    destruct IH as (H1 & H2 & H3 & H4 & H5).
    rewrite bump_amounts in H1. rewrite bump_counts in H2.
    unfold totalOf in *. cbn [map fold_right List.length].
    split; [lra |]. split; [lia |].
    split; [intros Hn; apply H3, bump_NoDup, Hn |]. split; [| exact H5].
    intros k. rewrite H4, bump_keys. split.
    + intros [[H | ->] | (t' & Hin & Ht)]; [auto | |].
      * right. exists t. split; [left; reflexivity | reflexivity].
      * right. exists t'. split; [right; exact Hin | exact Ht].
    + intros [H | (t' & [<- | Hin] & Ht)]; [auto | auto |].
      right. exists t'. auto.
Qed.

Lemma rows_amounts totalSpent m :
  (amountsOf (map (rowOf totalSpent) m)
   == fold_right Qplus 0 (map (fun e => fst (snd e)) m))%Q.
Proof.
  unfold amountsOf. induction m as [| [k [a c]] m IH]; cbn [map fold_right fst snd];
    [reflexivity |].
  rewrite IH. reflexivity.
Qed.

Lemma rows_counts totalSpent m :
  countsOf (map (rowOf totalSpent) m) = fold_right Z.add 0 (map (fun e => snd (snd e)) m).
Proof.
  unfold countsOf. induction m as [| [k [a c]] m IH]; cbn [map fold_right fst snd];
    [reflexivity |].
  rewrite IH. reflexivity.
Qed.

Lemma rows_names totalSpent m : map name (map (rowOf totalSpent) m) = map fst m.
Proof.
  induction m as [| [k [a c]] m IH]; cbn [map fst]; [reflexivity |].
  rewrite IH. reflexivity.
Qed.

(** The analytics, by their parts. *)
Lemma generateAnalytics_parts (toLocaleString : Q -> string) (txs : list Transaction.t) :
  exists m,
    breakdown (generateAnalytics toLocaleString txs)
    = sort (map (rowOf (sumAmounts txs)) m)
    /\ (fold_right Qplus 0 (map (fun e => fst (snd e)) m) == totalOf txs)%Q
    /\ fold_right Z.add 0 (map (fun e => snd (snd e)) m) = Z.of_nat (List.length txs)
    /\ List.NoDup (map fst m)
    /\ (forall k, In k (map fst m) <-> exists t, In t txs /\ getGranularCategory t = k)
    /\ personalPurchases (generateAnalytics toLocaleString txs) = []
    /\ topCategories (generateAnalytics toLocaleString txs)
       = firstn 3 (breakdown (generateAnalytics toLocaleString txs))
    /\ totalSpent (generateAnalytics toLocaleString txs) = sumAmounts txs.
Proof.
  unfold generateAnalytics. pose proof (forEach_from txs [] []) as H.
  destruct (fold_left _ txs _) as [m pp]. destruct H as (H1 & H2 & H3 & H4 & H5).
  exists m. cbn [breakdown personalPurchases topCategories totalSpent].
  cbn [map fold_right] in H1, H2.
  split; [reflexivity |]. split; [lra |]. split; [lia |].
  split; [apply H3; constructor |]. split.
  - intros k. rewrite H4. cbn [map In]. intuition.
  - auto.
Qed.
End AnalyticsProofs.

Section AnalyticsInsights.
Import Analytics.

Lemma scanSubCategory_In entries desc s :
  scanSubCategory entries desc = Some s -> In s (map snd entries).
Proof.
  induction entries as [| [k v] entries IH]; cbn [scanSubCategory map snd In];
    [discriminate |].
  destruct (JS.includes desc k); [intros [= <-]; auto | auto].
Qed.

Lemma granular_not_personal (t : Transaction.t) :
  getGranularCategory t <> "Personal Purchases".
Proof.
  unfold getGranularCategory.
  assert (Hp : String.eqb (categoryName (Transaction.category t)) "Personal" = false)
    by (destruct (Transaction.category t); reflexivity).
  rewrite Hp.
  destruct (scanSubCategory KEYWORD_MAP _) as [s |] eqn:E.
  - apply scanSubCategory_In in E. cbn [KEYWORD_MAP map snd In] in E.
    intros ->. intuition discriminate.
  - destruct (Transaction.category t); cbn; discriminate.
Qed.

Lemma insights_spec (toLocaleString : Q -> string) (txs : list Transaction.t) :
  let a := generateAnalytics toLocaleString txs in
  (breakdown a = [] -> insights a = [])
  /\ (breakdown a <> [] -> find "Personal Purchases" (breakdown a) = None ->
      (1 <= List.length (insights a) <= 2)%nat).
Proof.
  unfold generateAnalytics. destruct (fold_left _ txs _) as [m pp].
  cbn [breakdown insights].
  destruct (sort _) as [| top rest]; split.
  - reflexivity.
  - intros H. contradiction.
  - discriminate.
  - intros _ Hf. rewrite Hf.
    destruct (find "Food Delivery" (top :: rest)) as [fd |];
      [destruct (20 <? percentage fd) |]; cbn [app List.length]; lia.
Qed.
End AnalyticsInsights.

(** X21. In the analytics of a list of transactions, the counts of the
    breakdown add up to the number of transactions: every transaction is
    counted in exactly one row. When the amounts are whole numbers, not
    negative and below 2^53 in all, the amounts of the breakdown add up
    to the total spent, which is the sum of the amounts of the
    transactions. *)
Theorem analytics_totals (toLocaleString : Q -> string) (txs : list Transaction.t) :
  let a := Analytics.generateAnalytics toLocaleString txs in
  (wholeAmounts txs = true ->
   (Analytics.totalSpent a == totalOf txs)%Q
   /\ (amountsOf (Analytics.breakdown a) == Analytics.totalSpent a)%Q)
  /\ countsOf (Analytics.breakdown a) = Z.of_nat (List.length txs).
Proof.
  intros a. unfold a.
  destruct (generateAnalytics_parts toLocaleString txs)
    as (m & -> & H1 & H2 & _ & _ & _ & _ & ->).
  rewrite sort_amounts, sort_counts, rows_amounts, rows_counts.
  pose proof (sumAmounts_total txs). split; [| exact H2].
  intros _. split; [assumption | lra].
Qed.

(** X22. The breakdown of the analytics is in descending order of
    amount, its rows have different names, and the names are the
    granular categories of the transactions: there is a row for a name
    exactly when some transaction is filed under it. The top categories
    are its first three rows, or all of them when there are fewer. *)
Theorem analytics_breakdown (toLocaleString : Q -> string) (txs : list Transaction.t) :
  let a := Analytics.generateAnalytics toLocaleString txs in
  StronglySorted (fun x y => (Analytics.amount y <= Analytics.amount x)%Q)
    (Analytics.breakdown a)
  /\ List.NoDup (map Analytics.name (Analytics.breakdown a))
  /\ (forall n, In n (map Analytics.name (Analytics.breakdown a)) <->
                exists t, In t txs /\ Analytics.getGranularCategory t = n)
  /\ Analytics.topCategories a = firstn 3 (Analytics.breakdown a)
  /\ List.length (Analytics.topCategories a)
     = Nat.min 3 (List.length (Analytics.breakdown a)).
Proof.
  intros a. unfold a.
  destruct (generateAnalytics_parts toLocaleString txs)
    as (m & E & _ & _ & Hn & Hk & _ & -> & _).
  rewrite E. split; [apply sort_sorted |].
  split; [apply sort_names_NoDup; rewrite rows_names; exact Hn |].
  split.
  - intros n. rewrite <- Hk, <- (rows_names (sumAmounts txs) m). split.
    + intros H. apply in_map_iff in H as (y & <- & Hy).
      apply (proj1 (sort_In _ _)) in Hy. apply in_map. exact Hy.
    + intros H. apply in_map_iff in H as (y & <- & Hy).
      apply in_map, (proj2 (sort_In _ _)), Hy.
  - split; [reflexivity | apply length_firstn].
Qed.

(** X23. No transaction of the application is a personal purchase: the
    list of personal purchases of the analytics is always empty, no row
    of the breakdown is named Personal Purchases, and so the insight on
    personal purchases is never given. There are at most two insights,
    and none exactly when there is no transaction. *)
Theorem analytics_never_personal (toLocaleString : Q -> string)
    (txs : list Transaction.t) :
  let a := Analytics.generateAnalytics toLocaleString txs in
  Analytics.personalPurchases a = []
  /\ Analytics.find "Personal Purchases" (Analytics.breakdown a) = None
  /\ (List.length (Analytics.insights a) <= 2)%nat
  /\ (Analytics.insights a = [] <-> txs = []).
Proof.
  intros a. unfold a.
  destruct (generateAnalytics_parts toLocaleString txs)
    as (m & E & _ & _ & _ & Hk & Hp & _ & _).
  assert (Hnames : forall n,
            In n (map Analytics.name
                    (Analytics.breakdown (Analytics.generateAnalytics toLocaleString txs)))
            <-> exists t, In t txs /\ Analytics.getGranularCategory t = n).
  { intros n. rewrite E, <- Hk, <- (rows_names (sumAmounts txs) m). split.
    - intros H. apply in_map_iff in H as (y & <- & Hy).
      apply (proj1 (sort_In _ _)) in Hy. apply in_map. exact Hy.
    - intros H. apply in_map_iff in H as (y & <- & Hy).
      apply in_map, (proj2 (sort_In _ _)), Hy. }
  assert (Hfind : Analytics.find "Personal Purchases"
                    (Analytics.breakdown (Analytics.generateAnalytics toLocaleString txs))
                  = None).
  { unfold Analytics.find.
    destruct (List.find _ _) as [b |] eqn:F; [| reflexivity]. exfalso.
    apply List.find_some in F as [Hin Hn]. apply String.eqb_eq in Hn.
    assert (Hb : In (Analytics.name b)
                   (map Analytics.name
                      (Analytics.breakdown
                         (Analytics.generateAnalytics toLocaleString txs))))
      by (apply in_map; exact Hin).
    apply Hnames in Hb as (t & _ & Ht). rewrite Hn in Ht.
    exact (granular_not_personal t Ht). }
  destruct (insights_spec toLocaleString txs) as [I0 I1].
  split; [exact Hp |]. split; [exact Hfind |].
  destruct (Analytics.breakdown (Analytics.generateAnalytics toLocaleString txs))
    as [| top rest] eqn:Eb.
  - rewrite (I0 eq_refl). split; [cbn; lia |]. split; [| reflexivity].
    intros _. destruct txs as [| t txs]; [reflexivity |]. exfalso.
    apply (proj2 (Hnames (Analytics.getGranularCategory t))).
    exists t. split; [left; reflexivity | reflexivity].
  - destruct (I1 ltac:(discriminate) Hfind) as [L1 L2]. split; [exact L2 |]. split.
    + intros Hi. rewrite Hi in L1. cbn in L1. lia.
    + intros ->. exfalso.
      destruct (proj1 (Hnames (Analytics.name top)) ltac:(left; reflexivity))
        as (t & [] & _).
Qed.
(** ** The weekly view *)

Section WeeklyProofs.
Import WeeklySpending.
Variable tz : Z.

Lemma category_eqb_spec (a b : TransactionCategory) : reflect (a = b) (category_eqb a b).
Proof.
  destruct (category_eqb a b) eqn:E; constructor.
  - apply category_eqb_eq, E.
  - intros H. apply category_eqb_eq in H. congruence.
Qed.

Lemma lookup_assign o k v k' :
  lookupCategory (assign o k v) k'
  = if category_eqb k k' then Some v else lookupCategory o k'.
Proof.
  induction o as [| [c x] o IH]; cbn [assign lookupCategory].
  - destruct (category_eqb k k'); reflexivity.
  - destruct (category_eqb_spec c k) as [-> | Hck]; cbn [lookupCategory].
    + destruct (category_eqb k k'); reflexivity.
    + rewrite IH. destruct (category_eqb_spec c k') as [-> | Hck']; [| reflexivity].
      destruct (category_eqb_spec k k'); [congruence | reflexivity].
Qed.

Lemma valueOr0_assign o k v k' :
  (valueOr0 (assign o k v) k' == if category_eqb k k' then v else valueOr0 o k')%Q.
Proof.
  unfold valueOr0. rewrite lookup_assign.
  destruct (category_eqb k k'); [apply truthy_or_zero | reflexivity].
Qed.

Lemma assign_total o k v :
  (breakdownTotal (assign o k v) == breakdownTotal o - valueOr0 o k + v)%Q.
Proof.
  unfold breakdownTotal, valueOr0.
  induction o as [| [c x] o IH]; cbn [assign lookupCategory map fold_right snd]; [lra |].
  destruct (category_eqb c k); cbn [map fold_right snd].
  - pose proof (truthy_or_zero x). lra.
  - rewrite IH. lra.
Qed.

(** The loop of [categorySpend], from any state of the object. *)
Lemma categorySpend_from (wk : list Transaction.t) (spend : list (TransactionCategory * Q)) :
  let spend' :=
    fold_left
      (fun spend t =>
         if existsb (category_eqb (Transaction.category t)) MANDATORY_CATEGORIES
         then assign spend (Transaction.category t)
                (valueOr0 spend (Transaction.category t) + Transaction.amount t)%Q
         else spend)
      wk spend in
  (forall cat, In cat MANDATORY_CATEGORIES ->
     (valueOr0 spend' cat == valueOr0 spend cat + totalOf (List.filter (inCategory cat) wk))%Q)
  /\ (breakdownTotal spend' == breakdownTotal spend + totalOf (List.filter isMandatory wk))%Q.
Proof.
  revert spend. induction wk as [| t wk IH]; intros spend; cbn [fold_left List.filter].
  - unfold totalOf. cbn [map fold_right]. split; [intros; lra | lra].
  - change (existsb (category_eqb (Transaction.category t)) MANDATORY_CATEGORIES)
      with (isMandatory t).
    destruct (isMandatory t) eqn:M.
    + destruct (IH (assign spend (Transaction.category t)
                      (valueOr0 spend (Transaction.category t) + Transaction.amount t)%Q))
        as [H1 H2].
      split.
      * intros cat Hc. rewrite (H1 cat Hc), valueOr0_assign. unfold inCategory at 2.
        destruct (category_eqb (Transaction.category t) cat) eqn:E.
        -- apply category_eqb_eq in E. subst cat. unfold totalOf.
           cbn [map fold_right]. lra.
        -- lra.
      * rewrite H2, assign_total. unfold totalOf. cbn [map fold_right]. lra.
    + destruct (IH spend) as [H1 H2]. split; [| exact H2].
      intros cat Hc. rewrite (H1 cat Hc). unfold inCategory at 2.
      destruct (category_eqb (Transaction.category t) cat) eqn:E; [| lra].
      apply category_eqb_eq in E. subst cat. exfalso.
      unfold isMandatory in M.
      assert (Hm : existsb (category_eqb (Transaction.category t)) MANDATORY_CATEGORIES
                   = true).
      { apply existsb_exists. exists (Transaction.category t).
        split; [exact Hc | apply category_eqb_eq; reflexivity]. }
      congruence.
Qed.

Lemma categorySpend_spec (wk : list Transaction.t) :
  (forall cat, In cat MANDATORY_CATEGORIES ->
     (valueOr0 (categorySpend wk) cat == totalOf (List.filter (inCategory cat) wk))%Q)
  /\ (breakdownTotal (categorySpend wk) == totalOf (List.filter isMandatory wk))%Q.
Proof.
  unfold categorySpend. cbv zeta.
  set (init := fold_left (fun spend cat => assign spend cat 0%Q) MANDATORY_CATEGORIES []).
  destruct (categorySpend_from wk init) as [H1 H2]. split.
  - intros cat Hc. rewrite (H1 cat Hc).
    assert (E : (valueOr0 init cat == 0)%Q) by (destruct cat; vm_compute; reflexivity).
    lra.
  - rewrite H2. assert (E : (breakdownTotal init == 0)%Q) by reflexivity. lra.
Qed.

Lemma weekly_split (l : list Transaction.t) :
  (forall t, In t l -> bucket_eqb (CATEGORY_BUCKET_MAP (Transaction.category t)) Weekly = true) ->
  (totalOf l == totalOf (List.filter isMandatory l)
                + totalOf (List.filter (inCategory Other) l))%Q.
Proof.
  induction l as [| t l IH]; intros H; [reflexivity |].
  specialize (IH (fun x Hx => H x (or_intror Hx))).
  pose proof (H t (or_introl eq_refl)) as Ht.
  cbn [List.filter]. unfold isMandatory at 1, inCategory at 1.
  unfold totalOf in *.
  destruct (Transaction.category t); try discriminate Ht;
    cbn [MANDATORY_CATEGORIES existsb category_eqb categoryName String.eqb Ascii.eqb
         Bool.eqb orb map fold_right];
    lra.
Qed.

Lemma mandatory_weekly (cat : TransactionCategory) :
  In cat MANDATORY_CATEGORIES -> bucket_eqb (CATEGORY_BUCKET_MAP cat) Weekly = true.
Proof. cbn. intuition (subst; reflexivity). Qed.

Lemma spent_catSpent now txs cat :
  In cat MANDATORY_CATEGORIES -> (spent tz now txs cat == catSpent tz now txs cat)%Q.
Proof.
  intros Hc. unfold spent, catSpent.
  destruct (categorySpend_spec (weeklyTransactions tz now txs)) as [H _].
  rewrite (H cat Hc), sumAmounts_total. unfold weeklyTransactions.
  rewrite filter_filter.
  rewrite (List.filter_ext _
             (fun t => isSameWeek tz (Transaction.date t) now
                       && category_eqb (Transaction.category t) cat));
    [reflexivity |].
  intros t. unfold inCategory.
  destruct (category_eqb (Transaction.category t) cat) eqn:E.
  - apply category_eqb_eq in E. rewrite E, (mandatory_weekly cat Hc).
    rewrite andb_true_r. reflexivity.
  - rewrite !andb_false_r. reflexivity.
Qed.

Lemma limit_positive budget cat :
  (0 < limit budget cat)%Q ->
  exists limits,
    BudgetAllocations.weeklyCategoryLimits (BudgetState.allocations budget) = Some limits
    /\ lookupCategory limits cat = Some (limit budget cat).
Proof.
  intros H. unfold limit, valueOr0 in *.
  destruct (BudgetAllocations.weeklyCategoryLimits _) as [limits |]; [| lra].
  destruct (lookupCategory limits cat) as [l |] eqn:Ek; [| lra].
  destruct (Number.truthy l); [| lra].
  exists limits. split; [reflexivity | exact Ek].
Qed.

Lemma no_limit_no_category_alert (show : Q -> string) now budget txs cat ty :
  (limit budget cat <= 0)%Q ->
  ~ emits (generateAlerts tz show now budget txs) (categoryLimitIds now cat) ty.
Proof.
  intros Hl H. apply emits_categories in H. destruct H as (a & Ha & Hid & _).
  unfold categoryAlerts in Ha. apply in_flat_map in Ha as (c & _ & Ha).
  pose proof (categoryAlert_ids _ _ _ _ _ _ _ Ha) as Hid'.
  rewrite <- (category_ids_inj _ _ _ _ Hid Hid') in Ha.
  unfold categoryAlert in Ha. unfold limit, valueOr0 in Hl.
  destruct (BudgetAllocations.weeklyCategoryLimits _) as [limits |].
  - apply Qle_bool_iff in Hl. rewrite Hl in Ha. exact Ha.
  - cbn in Ha. exact Ha.
Qed.
End WeeklyProofs.

(** X24. In the weekly view, what a card shows as spent on one of the
    six categories is the spend the alert engine compares with the limit
    of the category, and the limit is the same. So the card is marked as
    over its limit exactly when [generateAlerts] reports the limit as
    exceeded. With a limit above zero that is a whole multiple of five,
    and amounts that are whole numbers, not negative and below 2^53 in
    all, the card is marked as near its limit exactly when the engine
    gives the warning, except at precisely 80% of the limit, where the
    engine warns and the card is not marked. *)
Theorem card_matches_alerts (tz : Z) (show : Q -> string) (now : Z)
    (budget : BudgetState.t) (txs : list Transaction.t) (cat : TransactionCategory) :
  In cat WeeklySpending.MANDATORY_CATEGORIES ->
  let alerts := generateAlerts tz show now budget txs in
  (WeeklySpending.spent tz now txs cat == catSpent tz now txs cat)%Q
  /\ (WeeklySpending.isOver tz now budget txs cat = true
      <-> emits alerts (categoryLimitIds now cat) critical)
  /\ ((0 < WeeklySpending.limit budget cat)%Q ->
      wholeFives (WeeklySpending.limit budget cat) = true ->
      wholeAmounts txs = true ->
      (WeeklySpending.isNear tz now budget txs cat = true
       <-> emits alerts (categoryLimitIds now cat) warning
           /\ ~ (WeeklySpending.spent tz now txs cat
                 == (80 # 100) * WeeklySpending.limit budget cat)%Q)).
Proof.
  intros Hc alerts. pose proof (spent_catSpent tz now txs cat Hc) as Hs.
  split; [exact Hs |].
  unfold WeeklySpending.isNear, WeeklySpending.isOver.
  destruct (Qlt_le_dec 0 (WeeklySpending.limit budget cat)) as [Hpos | Hle].
  - destruct (limit_positive budget cat Hpos) as (limits & El & Ek).
    destruct (category_rule tz show now budget txs limits cat _ El Ek Hpos) as [Rc Rw].
    fold alerts in Rc, Rw.
    rewrite (proj2 (gt_true _ _) Hpos), andb_true_r.
    split.
    + rewrite gt_true, Rc. split; intros H; lra.
    + intros _ _ _. rewrite andb_true_iff, negb_true_iff, gt_true, gt_false, Rw.
      split.
      * intros [H1 H2]. split; [split; lra | lra].
      * intros [[H1 H2] H3]. split; [| lra].
        destruct (Qlt_le_dec (WeeklySpending.limit budget cat * (8 # 10))
                    (WeeklySpending.spent tz now txs cat)) as [L | L]; [exact L |].
        exfalso. apply H3. lra.
  - split; [| intros H; lra].
    rewrite (proj2 (gt_false _ _) Hle), andb_false_r.
    split; [discriminate |]. intros H. exfalso.
    exact (no_limit_no_category_alert tz show now budget txs cat critical Hle H).
Qed.

Lemma card_matches_alerts_witness :
  WeeklySpending.isOver Sample.IST Sample.now Sample.budget Sample.transactions Groceries
  = true.
Proof.
  destruct (card_matches_alerts Sample.IST Sample.show Sample.now Sample.budget
              Sample.transactions Groceries) as (_ & H & _);
    [left; reflexivity |].
  apply H.
  destruct (category_rule Sample.IST Sample.show Sample.now Sample.budget
              Sample.transactions [(Groceries, 500%Q); (Outings, 0%Q)] Groceries 500%Q)
    as [Hc _]; [reflexivity | reflexivity | reflexivity |].
  apply Hc. vm_compute. reflexivity.
Defined.

(** X25. When the amounts are whole numbers, not negative and below
    2^53 in all, the total of the weekly view is the sum of the six
    category figures plus the amounts of this week's transactions of the
    category Other, which count towards the week and appear on no card. *)
Theorem weekly_total_split (tz now : Z) (txs : list Transaction.t) :
  wholeAmounts txs = true ->
  let wk := WeeklySpending.weeklyTransactions tz now txs in
  (WeeklySpending.totalWeeklySpent wk
   == breakdownTotal (WeeklySpending.categorySpend wk)
      + totalOf (List.filter (inCategory Other) wk))%Q.
Proof.
  intros _ wk. change (WeeklySpending.totalWeeklySpent wk) with (sumAmounts wk).
  rewrite sumAmounts_total.
  destruct (categorySpend_spec wk) as [_ H]. rewrite H.
  apply weekly_split. intros t Ht. unfold wk, WeeklySpending.weeklyTransactions in Ht.
  apply List.filter_In in Ht as [_ Ht]. apply andb_true_iff in Ht as [_ Ht]. exact Ht.
Qed.

(** The sample week: 800 of groceries, all of it on a card. *)
Lemma weekly_total_split_witness :
  wholeAmounts Sample.transactions = true
  /\ (WeeklySpending.totalWeeklySpent
        (WeeklySpending.weeklyTransactions Sample.IST Sample.now Sample.transactions)
      == breakdownTotal
           (WeeklySpending.categorySpend
              (WeeklySpending.weeklyTransactions Sample.IST Sample.now Sample.transactions))
         + totalOf
             (List.filter (inCategory Other)
                (WeeklySpending.weeklyTransactions Sample.IST Sample.now
                   Sample.transactions)))%Q.
Proof.
  split; [reflexivity |].
  exact (weekly_total_split Sample.IST Sample.now Sample.transactions eq_refl).
Defined.

(** X26. Saving an edit of a category limit in the weekly view with a
    value that parses to a number that is not negative passes on a
    budget in which the limit of the category is that value, whatever it
    is compared with the weekly limit, and everything else is as before;
    a value that does not parse, or a negative one, passes on nothing. *)
Theorem category_limit_edit (cat : TransactionCategory) (editValue : string)
    (budget : BudgetState.t) :
  (forall val,
     JS.parseFloat editValue = Some val -> (0 <= val)%Q ->
     exists b',
       WeeklySpending.handleSaveEdit (Some cat) editValue budget = Some b'
       /\ (WeeklySpending.limit b' cat == val)%Q
       /\ (forall other, other <> cat ->
             WeeklySpending.limit b' other = WeeklySpending.limit budget other)
       /\ BudgetState.monthlyIncome b' = BudgetState.monthlyIncome budget
       /\ BudgetState.isSet b' = BudgetState.isSet budget
       /\ (forall key, allocationOf key (BudgetState.allocations b')
                       = allocationOf key (BudgetState.allocations budget)))
  /\ (JS.parseFloat editValue = None ->
      WeeklySpending.handleSaveEdit (Some cat) editValue budget = None)
  /\ (forall val,
        JS.parseFloat editValue = Some val -> (val < 0)%Q ->
        WeeklySpending.handleSaveEdit (Some cat) editValue budget = None).
Proof.
  unfold WeeklySpending.handleSaveEdit. split; [| split].
  - intros val -> Hpos. apply ge_true in Hpos. rewrite Hpos.
    eexists. split; [reflexivity |].
    unfold WeeklySpending.limit. cbn [BudgetState.allocations BudgetState.monthlyIncome
      BudgetState.isSet BudgetAllocations.weeklyCategoryLimits].
    split.
    { rewrite valueOr0_assign.
      assert (E : category_eqb cat cat = true) by (apply category_eqb_eq; reflexivity).
      rewrite E. reflexivity. }
    split.
    { intros other Hne. unfold WeeklySpending.valueOr0. rewrite lookup_assign.
      destruct (category_eqb cat other) eqn:E;
        [apply category_eqb_eq in E; congruence |].
      destruct (BudgetAllocations.weeklyCategoryLimits _); reflexivity. }
    split; [reflexivity |]. split; [reflexivity |].
    intros key. destruct key; reflexivity.
  - intros ->. reflexivity.
  - intros val -> Hneg. apply ge_false in Hneg. rewrite Hneg. reflexivity.
Qed.

Lemma category_limit_edit_witness :
  exists b',
    WeeklySpending.handleSaveEdit (Some Petrol) "750" Sample.budget = Some b'
    /\ (WeeklySpending.limit b' Petrol == 750)%Q.
Proof.
  destruct (category_limit_edit Petrol "750" Sample.budget) as [H _].
  destruct (H 750%Q) as (b' & Hb & Hl & _);
    [vm_compute; reflexivity | vm_compute; discriminate |].
  exists b'. split; [exact Hb | exact Hl].
Defined.

(** ** Adding and deleting transactions *)

Lemma truthy_amount_has_category tz now text :
  amountTruthy (ParsedExpense.amount (parseExpenseInput tz now text)) = true ->
  ParsedExpense.category (parseExpenseInput tz now text) <> None.
Proof.
  unfold parseExpenseInput. cbv zeta. cbn [ParsedExpense.amount ParsedExpense.category].
  destruct (scanKeywords keywords (JS.toLowerCase text)); [discriminate |].
  intros ->. discriminate.
Qed.

(** X27. For a signed-in user, an item of the single-item parser is
    added to the transactions exactly when its amount is a number other
    than zero: the check on the category never rejects an item on its
    own, and an amount of zero is dropped without a message. The
    transaction takes the amount, the category, the description and the
    date of the item. *)
Theorem add_accepts_nonzero_amounts (tz now : Z) (text uid : string)
    (idNow tsNow : Z) (prev : list Transaction.t) :
  uid <> "" ->
  let parsed := parseExpenseInput tz now text in
  let after := AuthenticatedApp.handleAddTransaction (Some uid) idNow tsNow parsed prev in
  (amountTruthy (ParsedExpense.amount parsed) = true ->
   exists amount category,
     ParsedExpense.amount parsed = Some amount
     /\ ParsedExpense.category parsed = Some category
     /\ after = Transaction.mk (JS.showZ idNow) amount category
                  (ParsedExpense.description parsed) (ParsedExpense.date parsed) tsNow
                :: prev)
  /\ (amountTruthy (ParsedExpense.amount parsed) = false -> after = prev).
Proof.
  intros Hu parsed after. unfold after, AuthenticatedApp.handleAddTransaction.
  pose proof (truthy_amount_has_category tz now text) as Hc. fold parsed in Hc.
  apply String.eqb_neq in Hu.
  destruct (ParsedExpense.amount parsed) as [amount |]; cbn [amountTruthy] in *.
  - destruct (Number.truthy amount) eqn:T.
    + split; [| discriminate]. intros _.
      destruct (ParsedExpense.category parsed) as [category |];
        [| exfalso; apply Hc; reflexivity].
      exists amount, category. rewrite Hu. cbn [negb orb]. auto.
    + split; [discriminate |]. intros _.
      destruct (ParsedExpense.category parsed); reflexivity.
  - split; [discriminate | reflexivity].
Qed.

Lemma add_accepts_nonzero_amounts_witness :
  AuthenticatedApp.handleAddTransaction (Some "u1") 1741946400000 1741946400000
    (parseExpenseInput Sample.IST Sample.now "tea 0") []
  = [].
Proof.
  destruct (add_accepts_nonzero_amounts Sample.IST Sample.now "tea 0" "u1"
              1741946400000 1741946400000 []) as [_ H]; [discriminate |].
  apply H. vm_compute. reflexivity.
Defined.

(** X28. The identifier of a new transaction is the reading of the
    clock, so two items added within the same millisecond share it.
    When no earlier transaction has that identifier, deleting by it
    after the two additions gives back the list as it was before them:
    one deletion removes both. *)
Theorem delete_by_clock_id (userId : option string) (idNow ts1 ts2 : Z)
    (p1 p2 : ParsedExpense.t) (prev : list Transaction.t) :
  (forall t, In t prev -> Transaction.id t <> JS.showZ idNow) ->
  AuthenticatedApp.handleDeleteTransaction userId (JS.showZ idNow)
    (AuthenticatedApp.handleAddTransaction userId idNow ts2 p2
       (AuthenticatedApp.handleAddTransaction userId idNow ts1 p1 prev))
  = prev.
Proof.
  intros Hfresh.
  assert (Hkeep : List.filter
                    (fun t => negb (String.eqb (Transaction.id t) (JS.showZ idNow))) prev
                  = prev).
  { apply filter_all. intros t Ht. apply negb_true_iff, String.eqb_neq, Hfresh, Ht. }
  unfold AuthenticatedApp.handleDeleteTransaction, AuthenticatedApp.handleAddTransaction.
  destruct userId as [uid |]; [destruct (String.eqb uid "") |];
    destruct (ParsedExpense.amount p1) as [a1 |], (ParsedExpense.category p1) as [c1 |],
      (ParsedExpense.amount p2) as [a2 |], (ParsedExpense.category p2) as [c2 |];
    try destruct (Number.truthy a1); try destruct (Number.truthy a2);
    cbn [negb orb List.filter Transaction.id]; rewrite ?String.eqb_refl; cbn [negb];
    first [exact Hkeep | reflexivity].
Qed.

Lemma delete_by_clock_id_witness :
  AuthenticatedApp.handleDeleteTransaction (Some "u1") "1741946400000"
    (AuthenticatedApp.handleAddTransaction (Some "u1") 1741946400000 1741946400001
       (parseExpenseInput Sample.IST Sample.now "bus 15")
       (AuthenticatedApp.handleAddTransaction (Some "u1") 1741946400000 1741946400000
          (parseExpenseInput Sample.IST Sample.now "tea 20") Sample.transactions))
  = Sample.transactions.
Proof.
  apply (delete_by_clock_id (Some "u1") 1741946400000 1741946400000 1741946400001).
  intros t Ht. cbn in Ht.
  destruct Ht as [<- | [<- | [<- | []]]]; vm_compute; discriminate.
Defined.

(** X29. With the permission granted and a savings target above zero,
    every check of the alerts sends at least one notification, whatever
    the budget and the transactions are otherwise: the savings alert,
    success or warning, is sent each time. *)
Theorem savings_notification_every_time (tz : Z) (show : Q -> string) (now : Z)
    (budget : BudgetState.t) (txs : list Transaction.t) :
  (0 < BudgetAllocations.savingsTarget (BudgetState.allocations budget))%Q ->
  exists n,
    In n (checkAndSendNotifications NotificationService.granted
            (generateAlerts tz show now budget txs))
    /\ (NotificationService.tag n = "savings-success-" +:+ currentMonthStr now
        \/ NotificationService.tag n = "savings-warning-" +:+ currentMonthStr now).
Proof.
  intros Hpos.
  assert (E : forall alerts,
            checkAndSendNotifications NotificationService.granted alerts
            = map (fun a => NotificationService.mkNotification (AlertItem.title a)
                              (AlertItem.message a) (AlertItem.id a)) alerts).
  { intros alerts. unfold checkAndSendNotifications.
    cbn [NotificationService.hasPermission negb].
    induction alerts as [| a l IH]; [reflexivity |].
    cbn [flat_map map]. rewrite IH. destruct (AlertItem.type a); reflexivity. }
  rewrite E. unfold generateAlerts, savingsAlerts.
  apply gt_true in Hpos. rewrite Hpos.
  destruct (Number.ge _ _); eexists; (split; [apply in_map; repeat (apply in_or_app; right);
    left; reflexivity |]); cbn [NotificationService.tag AlertItem.id]; auto.
Qed.

Lemma savings_notification_every_time_witness :
  exists n,
    In n (checkAndSendNotifications NotificationService.granted
            (generateAlerts Sample.IST Sample.show Sample.now Sample.budget
               Sample.transactions)).
Proof.
  destruct (savings_notification_every_time Sample.IST Sample.show Sample.now
              Sample.budget Sample.transactions) as (n & Hn & _); [reflexivity |].
  exists n. exact Hn.
Defined.
(** * The alert engine on binary64 numbers *)

(** ** The stored date and the calendar month *)

Lemma splitOn_hd (sep : ascii -> bool) (a : string) (c : ascii) (r : string) :
  lacks sep a = true -> sep c = true ->
  hd "" (JS.splitOn sep (a +:+ String c r)) = a.
Proof.
  intros Ha Hc. induction a as [| x a IH]; simpl.
  - rewrite Hc. reflexivity.
  - simpl in Ha. apply andb_prop in Ha as [Hx Ha].
    apply negb_true_iff in Hx. rewrite Hx. specialize (IH Ha).
    destruct (JS.splitOn sep (a +:+ String c r)); simpl in *; congruence.
Qed.

Lemma lacks_app (p : ascii -> bool) (a b : string) :
  lacks p (a +:+ b) = lacks p a && lacks p b.
Proof.
  induction a as [| x a IH]; simpl; [reflexivity |].
  rewrite IH, andb_assoc. reflexivity.
Qed.

Lemma substring_whole (a b : string) :
  String.substring 0 (String.length a) (a +:+ b) = a.
Proof.
  induction a as [| x a IH]; simpl.
  - destruct b; reflexivity.
  - rewrite IH. reflexivity.
Qed.

Lemma prefix_same_length (p q r : string) :
  String.length p = String.length q ->
  String.prefix p (q +:+ r) = true <-> p = q.
Proof.
  revert q. induction p as [| x p IH]; intros [| y q] L; simpl in *;
    try discriminate.
  - destruct r; split; reflexivity.
  - destruct (Ascii.ascii_dec x y) as [-> | N].
    + rewrite IH by lia. split; congruence.
    + split; [discriminate | congruence].
Qed.

Lemma years_checked :
  forallb (fun y => yearText (JS.padZ 4 y)) (Sample.daysFrom 0 (Z.to_nat 10000)) = true.
Proof. vm_compute. reflexivity. Qed.

Lemma pairs_checked :
  forallb (fun d => pairText (JS.padZ 2 d)) (Sample.daysFrom 1 31) = true.
Proof. vm_compute. reflexivity. Qed.

Lemma yearText_padZ (y : Z) : 0 <= y <= 9999 -> yearText (JS.padZ 4 y) = true.
Proof. intros H. apply (daysFrom_all _ 0 (Z.to_nat 10000) years_checked). lia. Qed.

Lemma pairText_padZ (d : Z) : 1 <= d <= 31 -> pairText (JS.padZ 2 d) = true.
Proof. intros H. apply (daysFrom_all _ 1 31 pairs_checked). lia. Qed.

Lemma civil_ranges (t : Z) :
  0 <= Date.MonthFromTime t <= 11 /\ 1 <= Date.DateFromTime t <= 31.
Proof.
  unfold Date.MonthFromTime, Date.DateFromTime.
  pose proof (civil_MakeDay (Date.Day t)) as H.
  destruct (Date.civil (Date.Day t)) as [[y m] d]. simpl. tauto.
Qed.

(** The text of the current month, for an instant of the years 0 to
    9999: the year on four digits, a dash, the month on two. *)
Lemma currentMonthStr_eq (now : Z) :
  0 <= Date.YearFromTime now <= 9999 ->
  currentMonthStr now
  = JS.padZ 4 (Date.YearFromTime now) +:+ "-" +:+ JS.padZ 2 (Date.MonthFromTime now + 1).
Proof.
  intros Hy. unfold currentMonthStr, todayStr, Date.toISOString.
  destruct (civil_ranges now) as [Hm Hd].
  replace ((0 <=? Date.YearFromTime now) && (Date.YearFromTime now <=? 9999))
    with true by (symmetry; apply andb_true_intro; split; apply Z.leb_le; lia).
  pose proof (yearText_padZ _ Hy) as Y.
  pose proof (pairText_padZ (Date.MonthFromTime now + 1) ltac:(lia)) as M.
  pose proof (pairText_padZ _ Hd) as D.
  set (y := JS.padZ 4 (Date.YearFromTime now)) in *.
  set (m := JS.padZ 2 (Date.MonthFromTime now + 1)) in *.
  set (d := JS.padZ 2 (Date.DateFromTime now)) in *.
  unfold yearText in Y. unfold pairText in M, D.
  apply andb_prop in Y as [Y _]. apply andb_prop in Y as [Ly Ty].
  apply andb_prop in M as [Lm Tm]. apply andb_prop in D as [Ld Td].
  apply Nat.eqb_eq in Ly, Lm, Ld.
  set (rest := JS.padZ 2 (Date.HourFromTime now) +:+ _).
  replace (y +:+ "-" +:+ m +:+ "-" +:+ d +:+ "T" +:+ rest)
    with ((y +:+ "-" +:+ m +:+ "-" +:+ d) +:+ String "T" rest)
    by (rewrite !append_assoc; reflexivity).
  rewrite splitOn_hd; [| | reflexivity].
  - replace (y +:+ "-" +:+ m +:+ "-" +:+ d)
      with ((y +:+ "-" +:+ m) +:+ ("-" +:+ d))
      by (rewrite !append_assoc; reflexivity).
    replace 7%nat with (String.length (y +:+ "-" +:+ m)).
    + apply substring_whole.
    + rewrite !length_append, Ly, Lm. reflexivity.
  - rewrite !lacks_app, Ty, Tm, Td. reflexivity.
Qed.

(** A stored date starts with the text of the current month exactly when
    it lies, in UTC, in the calendar month of the current instant. *)
Lemma startsWith_month (now d : Z) :
  0 <= Date.YearFromTime now <= 9999 ->
  JS.startsWith (Date.toISOString d) (currentMonthStr now)
  = (Date.YearFromTime d =? Date.YearFromTime now)
    && (Date.MonthFromTime d =? Date.MonthFromTime now).
Proof.
  intros Hy. rewrite (currentMonthStr_eq now Hy).
  unfold JS.startsWith, Date.toISOString.
  destruct (civil_ranges now) as [Hm _]. destruct (civil_ranges d) as [Hm' _].
  pose proof (yearText_padZ _ Hy) as Y.
  pose proof (pairText_padZ (Date.MonthFromTime now + 1) ltac:(lia)) as M.
  pose proof (pairText_padZ (Date.MonthFromTime d + 1) ltac:(lia)) as M'.
  unfold yearText in Y. apply andb_prop in Y as [Y Dy]. apply andb_prop in Y as [Ly _].
  unfold pairText in M, M'. apply andb_prop in M as [Lm _], M' as [Lm' _].
  apply Nat.eqb_eq in Ly, Lm, Lm'.
  destruct ((0 <=? Date.YearFromTime d) && (Date.YearFromTime d <=? 9999)) eqn:R.
  - apply andb_prop in R as [R1 R2]. apply Z.leb_le in R1, R2.
    pose proof (yearText_padZ (Date.YearFromTime d) ltac:(lia)) as Y'.
    unfold yearText in Y'. apply andb_prop in Y' as [Y' _].
    apply andb_prop in Y' as [Ly' _]. apply Nat.eqb_eq in Ly'.
    set (rest := "-" +:+ JS.padZ 2 (Date.DateFromTime d) +:+ _).
    replace (JS.padZ 4 (Date.YearFromTime d) +:+ "-"
             +:+ JS.padZ 2 (Date.MonthFromTime d + 1) +:+ rest)
      with ((JS.padZ 4 (Date.YearFromTime d) +:+ "-"
             +:+ JS.padZ 2 (Date.MonthFromTime d + 1)) +:+ rest)
      by (rewrite !append_assoc; reflexivity).
    apply eq_true_iff_eq. rewrite prefix_same_length
      by (rewrite !length_append, Ly, Ly', Lm, Lm'; reflexivity).
    rewrite andb_true_iff, !Z.eqb_eq. split.
    + intros E. apply append_inj_length in E as [E1 E2]; [| congruence].
      apply padZ_inj in E1; [| lia | lia].
      injection E2 as E2. apply padZ_inj in E2; lia.
    + intros [-> E]. rewrite E. reflexivity.
  - replace (Date.YearFromTime d =? Date.YearFromTime now) with false.
    + destruct (JS.padZ 4 (Date.YearFromTime now)) as [| c s]; [discriminate |].
      destruct (Date.YearFromTime d <? 0); simpl;
        match goal with
        | |- context [Ascii.ascii_dec ?a ?b] =>
            destruct (Ascii.ascii_dec a b) as [E | N]
        end; try reflexivity; subst c; discriminate Dy.
    + symmetry. apply Z.eqb_neq. intros E. rewrite E in R.
      replace ((0 <=? Date.YearFromTime now) && (Date.YearFromTime now <=? 9999))
        with true in R; [discriminate |].
      symmetry; apply andb_true_intro; split; apply Z.leb_le; lia.
Qed.

(** ** The alerts *)

Section Engine64Proofs.
Variable tz : Z.
Variable show : Binary64.t -> string.

Lemma weeklyAlerts64_ids now budget txs a :
  In a (Engine64.weeklyAlerts tz show now budget txs) ->
  In (AlertItem.id a) (weeklyLimitIds now).
Proof.
  unfold Engine64.weeklyAlerts, weeklyLimitIds.
  repeat match goal with |- context [if ?b then _ else _] => destruct b end;
    simpl; intros H; intuition (subst; simpl; auto).
Qed.

Lemma monthlyAlerts64_ids now budget txs a :
  In a (Engine64.monthlyAlerts show now budget txs) ->
  In (AlertItem.id a) (monthlyLimitIds now).
Proof.
  unfold Engine64.monthlyAlerts, monthlyLimitIds.
  repeat match goal with |- context [if ?b then _ else _] => destruct b end;
    simpl; intros H; intuition (subst; simpl; auto).
Qed.

Lemma categoryAlert64_ids now txs limits cat a :
  In a (Engine64.categoryAlert tz show now txs limits cat) ->
  In (AlertItem.id a) (categoryLimitIds now cat).
Proof.
  unfold Engine64.categoryAlert, categoryLimitIds.
  repeat match goal with |- context [if ?b then _ else _] => destruct b end;
    simpl; intros H; intuition (subst; simpl; auto).
Qed.

Lemma savingsAlerts64_ids now budget txs a :
  In a (Engine64.savingsAlerts show now budget txs) -> isSavingsAlert a = true.
Proof.
  unfold Engine64.savingsAlerts.
  repeat match goal with |- context [if ?b then _ else _] => destruct b end;
    simpl; intros H; intuition (subst; reflexivity).
Qed.

(** The two-branch test that every spend limit goes through. *)
Lemma thresholds_group ids (c w : AlertItem.t) (limit spend : Binary64.t) :
  In (AlertItem.id c) ids -> AlertItem.type c = critical ->
  In (AlertItem.id w) ids -> AlertItem.type w = warning ->
  thresholds
    (if Binary64.gt spend limit then [c]
     else if Binary64.ge spend (Binary64.mul limit (Binary64.ofDecimal (8 # 10)))
          then [w] else [])
    ids limit spend.
Proof.
  intros Hc Tc Hw Tw.
  unfold thresholds, Binary64.lt, Binary64.leq, Binary64.gt, Binary64.ge.
  destruct (SFltb limit spend) eqn:G.
  - rewrite !emits_single, Tc. split; [tauto |].
    split; [intros [_ ?]; discriminate | intros [_ N]; destruct N; reflexivity].
  - destruct (SFleb (Binary64.mul limit (Binary64.ofDecimal (8 # 10))) spend) eqn:E.
    + rewrite !emits_single, Tw. split.
      * split; [intros [_ ?]; discriminate | discriminate].
      * split; [intros _; split; [reflexivity | discriminate] | tauto].
    + split; split;
        [ intros H; destruct (emits_nil _ _ H) | discriminate
        | intros H; destruct (emits_nil _ _ H) | intros [? _]; discriminate ].
Qed.

Lemma thresholds_ext (l l' : list AlertItem.t) ids limit spend :
  (forall ty, emits l' ids ty <-> emits l ids ty) ->
  thresholds l ids limit spend -> thresholds l' ids limit spend.
Proof. unfold thresholds. intros H [H1 H2]. rewrite !H. tauto. Qed.

Lemma emits_category64 now txs limits keys cat ty :
  In cat keys ->
  emits (flat_map (Engine64.categoryAlert tz show now txs limits) keys)
        (categoryLimitIds now cat) ty
  <-> emits (Engine64.categoryAlert tz show now txs limits cat)
        (categoryLimitIds now cat) ty.
Proof.
  intros Hkey. unfold emits. split.
  - intros (a & Ha & Hid & Hty). apply in_flat_map in Ha as (c & Hc & Ha).
    pose proof (categoryAlert64_ids _ _ _ _ _ Ha) as Hid'.
    rewrite (category_ids_inj _ _ _ _ Hid Hid'). eauto.
  - intros (a & Ha & H). exists a. split; [| exact H].
    apply in_flat_map. eauto.
Qed.

Lemma emits_weekly64 now budget txs ty :
  emits (Engine64.generateAlerts tz show now budget txs) (weeklyLimitIds now) ty
  <-> emits (Engine64.weeklyAlerts tz show now budget txs) (weeklyLimitIds now) ty.
Proof.
  unfold Engine64.generateAlerts. rewrite !emits_app. split; [| tauto].
  intros [H | [H | [H | H]]]; [exact H | exfalso; revert H ..];
    apply emits_foreign; intros a Ha Hid.
  - unfold Engine64.categoryAlerts in Ha. apply in_flat_map in Ha as (c & _ & Ha).
    apply categoryAlert64_ids in Ha. exact (weekly_not_category _ _ _ Hid Ha).
  - apply monthlyAlerts64_ids in Ha. exact (weekly_not_monthly _ _ Hid Ha).
  - apply savingsAlerts64_ids in Ha. apply (savings_not_spend now) in Ha. tauto.
Qed.

Lemma emits_monthly64 now budget txs ty :
  emits (Engine64.generateAlerts tz show now budget txs) (monthlyLimitIds now) ty
  <-> emits (Engine64.monthlyAlerts show now budget txs) (monthlyLimitIds now) ty.
Proof.
  unfold Engine64.generateAlerts. rewrite !emits_app. split; [| tauto].
  intros [H | [H | [H | H]]]; [exfalso; revert H | exfalso; revert H | exact H
                              | exfalso; revert H];
    apply emits_foreign; intros a Ha Hid.
  - apply weeklyAlerts64_ids in Ha. exact (weekly_not_monthly _ _ Ha Hid).
  - unfold Engine64.categoryAlerts in Ha. apply in_flat_map in Ha as (c & _ & Ha).
    apply categoryAlert64_ids in Ha. exact (category_not_monthly _ _ _ Ha Hid).
  - apply savingsAlerts64_ids in Ha. apply (savings_not_spend now) in Ha. tauto.
Qed.

Lemma emits_categories64 now budget txs cat ty :
  emits (Engine64.generateAlerts tz show now budget txs) (categoryLimitIds now cat) ty
  <-> emits (Engine64.categoryAlerts tz show now budget txs) (categoryLimitIds now cat) ty.
Proof.
  unfold Engine64.generateAlerts. rewrite !emits_app. split; [| tauto].
  intros [H | [H | [H | H]]]; [exfalso; revert H | exact H | exfalso; revert H ..];
    apply emits_foreign; intros a Ha Hid.
  - apply weeklyAlerts64_ids in Ha. exact (weekly_not_category _ _ _ Ha Hid).
  - apply monthlyAlerts64_ids in Ha. exact (category_not_monthly _ _ _ Hid Ha).
  - apply savingsAlerts64_ids in Ha. apply (savings_not_spend now) in Ha.
    destruct Ha as (_ & Ha & _). exact (Ha cat Hid).
Qed.

(** The sums of the engine are the sums the specification describes. *)
Lemma sumAmounts64_sumOf (l : list Engine64.Transaction.t) :
  Engine64.sumAmounts l = sumOf (map Engine64.Transaction.amount l).
Proof.
  unfold Engine64.sumAmounts, sumOf. generalize Binary64.zero.
  induction l as [| t l IH]; intros acc; simpl; [reflexivity | apply IH].
Qed.

Lemma isSameWeek_eqb (a b : Z) :
  isSameWeek tz a b = (weekIndex tz a =? weekIndex tz b).
Proof. apply eq_true_iff_eq. rewrite isSameWeek_iff, Z.eqb_eq. reflexivity. Qed.

Lemma weeklyBucketTotal64_spec now txs :
  Engine64.weeklyBucketTotal tz now txs = weekSpend tz now txs.
Proof.
  unfold Engine64.weeklyBucketTotal, weekSpend, spendOf.
  rewrite sumAmounts64_sumOf. do 2 f_equal. apply List.filter_ext. intros t.
  unfold inWeekOf, inBucket. rewrite isSameWeek_eqb. reflexivity.
Qed.

Lemma catSpent64_spec now txs cat :
  Engine64.catSpent tz now txs cat = categorySpend tz now cat txs.
Proof.
  unfold Engine64.catSpent, categorySpend, spendOf.
  rewrite sumAmounts64_sumOf. do 2 f_equal. apply List.filter_ext. intros t.
  unfold inWeekOf. rewrite isSameWeek_eqb. f_equal.
  apply eq_true_iff_eq. rewrite category_eqb_eq, bool_decide_eq_true. reflexivity.
Qed.

Lemma monthlyBucketTotal64_spec now txs :
  0 <= Date.YearFromTime now <= 9999 ->
  Engine64.monthlyBucketTotal now txs = monthSpend now txs.
Proof.
  intros Hy. unfold Engine64.monthlyBucketTotal, monthSpend, spendOf.
  rewrite sumAmounts64_sumOf. do 2 f_equal. apply List.filter_ext. intros t.
  unfold inMonthOf, inBucket, Engine64.Transaction.dateString.
  cbv zeta. rewrite (startsWith_month now _ Hy). reflexivity.
Qed.

Lemma weekly_rule64 now budget txs :
  let limit :=
    Engine64.BudgetAllocations.weeklyLimit (Engine64.BudgetState.allocations budget) in
  Binary64.lt Binary64.zero limit ->
  thresholds (Engine64.generateAlerts tz show now budget txs) (weeklyLimitIds now)
    limit (weekSpend tz now txs).
Proof.
  intros limit Hpos. eapply thresholds_ext; [apply emits_weekly64 |].
  unfold Engine64.weeklyAlerts. fold limit.
  unfold Binary64.lt in Hpos. unfold Binary64.gt at 1. rewrite Hpos.
  rewrite weeklyBucketTotal64_spec.
  apply thresholds_group; unfold weeklyLimitIds; simpl; auto.
Qed.

Lemma monthly_rule64 now budget txs :
  let limit :=
    Engine64.BudgetAllocations.monthlyLimit (Engine64.BudgetState.allocations budget) in
  0 <= Date.YearFromTime now <= 9999 ->
  Binary64.lt Binary64.zero limit ->
  thresholds (Engine64.generateAlerts tz show now budget txs) (monthlyLimitIds now)
    limit (monthSpend now txs).
Proof.
  intros limit Hy Hpos. eapply thresholds_ext; [apply emits_monthly64 |].
  unfold Engine64.monthlyAlerts. fold limit.
  unfold Binary64.lt in Hpos. unfold Binary64.gt at 1. rewrite Hpos.
  rewrite (monthlyBucketTotal64_spec now txs Hy).
  apply thresholds_group; unfold monthlyLimitIds; simpl; auto.
Qed.

(** A number above zero is truthy and not at most zero. *)
Lemma above_zero (x : Binary64.t) :
  Binary64.lt Binary64.zero x ->
  Binary64.truthy x = true /\ Binary64.le x Binary64.zero = false.
Proof.
  unfold Binary64.lt, Binary64.le, Binary64.zero.
  destruct x as [s | s | | s m e]; try destruct s; cbv; intros H;
    try discriminate; split; reflexivity.
Qed.

Lemma category_rule64 now budget txs limits cat limit :
  Engine64.BudgetAllocations.weeklyCategoryLimits (Engine64.BudgetState.allocations budget)
  = Some limits ->
  lookupCategory limits cat = Some limit ->
  Binary64.lt Binary64.zero limit ->
  thresholds (Engine64.generateAlerts tz show now budget txs) (categoryLimitIds now cat)
    limit (categorySpend tz now cat txs).
Proof.
  intros Hl Hc Hpos. eapply thresholds_ext; [apply emits_categories64 |].
  unfold Engine64.categoryAlerts. rewrite Hl.
  eapply thresholds_ext;
    [intros ty; apply emits_category64, (lookupCategory_key _ _ _ Hc) |].
  unfold Engine64.categoryAlert. rewrite Hc.
  destruct (above_zero _ Hpos) as [-> ->].
  rewrite catSpent64_spec.
  apply thresholds_group; unfold categoryLimitIds; simpl; auto.
Qed.

(** The savings alerts of [generateAlerts] are the ones its last block
    pushes. *)
Lemma only_savings_block64 now budget txs :
  List.filter isSavingsAlert (Engine64.generateAlerts tz show now budget txs)
  = Engine64.savingsAlerts show now budget txs.
Proof.
  unfold Engine64.generateAlerts. rewrite !List.filter_app.
  rewrite (filter_none _ (Engine64.weeklyAlerts _ _ _ _ _)),
          (filter_none _ (Engine64.categoryAlerts _ _ _ _ _)),
          (filter_none _ (Engine64.monthlyAlerts _ _ _ _)),
          (filter_all _ (Engine64.savingsAlerts _ _ _ _)).
  - reflexivity.
  - intros a. apply savingsAlerts64_ids.
  - intros a Ha. apply (not_savings_alert now). right; right.
    exact (monthlyAlerts64_ids _ _ _ _ Ha).
  - intros a Ha. apply (not_savings_alert now). right; left.
    unfold Engine64.categoryAlerts in Ha. apply in_flat_map in Ha as (c & _ & Ha).
    exists c. exact (categoryAlert64_ids _ _ _ _ _ Ha).
  - intros a Ha. apply (not_savings_alert now). left.
    exact (weeklyAlerts64_ids _ _ _ _ Ha).
Qed.

Lemma sumAmounts64_redated (f : Engine64.Transaction.t -> Z)
    (l : list Engine64.Transaction.t) :
  Engine64.sumAmounts (map (fun t => redated64 (f t) t) l) = Engine64.sumAmounts l.
Proof.
  unfold Engine64.sumAmounts. generalize Binary64.zero.
  induction l as [| t l IH]; intros acc; simpl; [reflexivity | apply IH].
Qed.

(** The savings alert: one alert, decided by the comparison of the
    savings with the target. *)
Lemma savings_rule64 now budget txs :
  let target :=
    Engine64.BudgetAllocations.savingsTarget (Engine64.BudgetState.allocations budget) in
  let savings :=
    Binary64.sub (Engine64.BudgetState.monthlyIncome budget)
      (sumOf (map Engine64.Transaction.amount txs)) in
  Binary64.lt Binary64.zero target ->
  exists a,
    List.filter isSavingsAlert (Engine64.generateAlerts tz show now budget txs) = [a]
    /\ (Binary64.leq target savings -> AlertItem.type a = success)
    /\ (~ Binary64.leq target savings -> AlertItem.type a = warning)
    /\ AlertItem.type a <> critical.
Proof.
  intros target savings Hpos.
  rewrite only_savings_block64. unfold Engine64.savingsAlerts. fold target.
  unfold Binary64.lt in Hpos. unfold Binary64.gt. rewrite Hpos.
  unfold Engine64.currentSavings. rewrite sumAmounts64_sumOf. fold savings.
  unfold Binary64.ge, Binary64.leq.
  destruct (SFleb target savings) eqn:E.
  - eexists. split; [reflexivity |]. simpl.
    repeat split; [intros N; destruct N; reflexivity | discriminate].
  - eexists. split; [reflexivity |]. simpl.
    repeat split; [discriminate | discriminate].
Qed.
End Engine64Proofs.

(** C1, as the specification has it, fails on decimal amounts. With a
    weekly limit of 101 and 80.80 spent in the week, the spend is 80% of
    the limit and not above it, and no warning is given: the product
    [101 * 0.8] is the number 80.80000000000001. With a weekly limit of
    209 and purchases of 32.58, 147.65, 28.55 and 0.22 in the week, the
    spend is 209.00 and not above the limit, and a critical alert is
    given: the four amounts add up to the number 209.00000000000003. *)
Lemma thresholds_decimal_inputs :
  (((80 # 100) * 101 <= 8080 # 100)%Q /\ ~ (101 < 8080 # 100)%Q
   /\ ~ emits
         (Engine64.generateAlerts Sample.IST Sample64.show Sample.now
            Sample64.budget101 Sample64.spent8080)
         (weeklyLimitIds Sample.now) warning)
  /\ (~ (209 < (3258 # 100) + (14765 # 100) + (2855 # 100) + (22 # 100))%Q
      /\ emits
           (Engine64.generateAlerts Sample.IST Sample64.show Sample.now
              Sample64.budget209 Sample64.spent209)
           (weeklyLimitIds Sample.now) critical).
Proof.
  split; [split; [| split] | split].
  - vm_compute. discriminate.
  - vm_compute. discriminate.
  - intros H.
    apply (weekly_rule64 Sample.IST Sample64.show Sample.now Sample64.budget101
             Sample64.spent8080) in H; [| vm_compute; reflexivity].
    destruct H as [H _]. revert H. vm_compute. discriminate.
  - vm_compute. discriminate.
  - apply (weekly_rule64 Sample.IST Sample64.show Sample.now Sample64.budget209
             Sample64.spent209); vm_compute; reflexivity.
Qed.

(** C1, amended. For every budget with a spend limit above zero (the
    weekly limit, an entry of the weekly category limits, the monthly
    limit) and every list of transactions, amounts and limits being the
    binary64 numbers the engine holds, [generateAlerts] reports a critical
    alert for the limit exactly when the spend is strictly greater than
    the limit, and a warning exactly when the spend is at least the
    product [limit * 0.8] and not strictly greater than the limit. The
    spend is the sum, rounded at each addition and taken in the order of
    the list, of the amounts of the transactions that count: for the
    weekly limit those of the Monday-to-Sunday week of the current instant
    in a Weekly category, for a category limit those of that week in the
    category, for the monthly limit (the current year being one of 0 to
    9999) those of the current UTC calendar month in a Monthly category.
    In particular a weekly limit of 1000 with 800 spent gives a warning
    and no critical alert, and with 1001 spent a critical alert and no
    warning. *)
Theorem thresholds_binary64 (tz : Z) (show : Binary64.t -> string) (now : Z)
    (budget : Engine64.BudgetState.t) (txs : list Engine64.Transaction.t) :
  let alerts := Engine64.generateAlerts tz show now budget txs in
  let a := Engine64.BudgetState.allocations budget in
  (Binary64.lt Binary64.zero (Engine64.BudgetAllocations.weeklyLimit a) ->
   thresholds alerts (weeklyLimitIds now)
     (Engine64.BudgetAllocations.weeklyLimit a) (weekSpend tz now txs))
  /\ (forall limits cat limit,
        Engine64.BudgetAllocations.weeklyCategoryLimits a = Some limits ->
        lookupCategory limits cat = Some limit ->
        Binary64.lt Binary64.zero limit ->
        thresholds alerts (categoryLimitIds now cat) limit (categorySpend tz now cat txs))
  /\ (0 <= Date.YearFromTime now <= 9999 ->
      Binary64.lt Binary64.zero (Engine64.BudgetAllocations.monthlyLimit a) ->
      thresholds alerts (monthlyLimitIds now)
        (Engine64.BudgetAllocations.monthlyLimit a) (monthSpend now txs))
  /\ (Engine64.BudgetAllocations.weeklyLimit a = Binary64.ofZ 1000 ->
      (weekSpend tz now txs = Binary64.ofZ 800 ->
       emits alerts (weeklyLimitIds now) warning
       /\ ~ emits alerts (weeklyLimitIds now) critical)
      /\ (weekSpend tz now txs = Binary64.ofZ 1001 ->
          emits alerts (weeklyLimitIds now) critical
          /\ ~ emits alerts (weeklyLimitIds now) warning)).
Proof.
  intros alerts a.
  split; [apply weekly_rule64 |].
  split; [intros limits cat limit Hl Hc Hpos;
          apply (category_rule64 tz show now budget txs limits cat limit Hl Hc Hpos) |].
  split; [apply monthly_rule64 |].
  intros Hlimit.
  assert (Hpos : Binary64.lt Binary64.zero (Engine64.BudgetAllocations.weeklyLimit a))
    by (rewrite Hlimit; vm_compute; reflexivity).
  destruct (weekly_rule64 tz show now budget txs Hpos) as [Hc Hw].
  fold a alerts in Hc, Hw. rewrite Hlimit in Hc, Hw.
  split; intros Hspent; rewrite Hspent in Hc, Hw; split.
  - apply Hw. split; [vm_compute; reflexivity | vm_compute; discriminate].
  - intros E. apply Hc in E. revert E. vm_compute. discriminate.
  - apply Hc. vm_compute. reflexivity.
  - intros E. apply Hw in E. destruct E as [_ E]. apply E. vm_compute. reflexivity.
Qed.

(** The threshold rule on the sample budget: of the 890 of groceries, the
    800 of this week count for the weekly limit of 1000 and for the
    groceries limit of 500, and of the 2200 of bills, the 1700 of March
    for the monthly limit of 2000. *)
Lemma thresholds_binary64_witness :
  let alerts :=
    Engine64.generateAlerts Sample.IST Sample64.show Sample.now Sample64.budget
      Sample64.transactions in
  thresholds alerts (weeklyLimitIds Sample.now) (Binary64.ofZ 1000) (Binary64.ofZ 800)
  /\ thresholds alerts (categoryLimitIds Sample.now Groceries)
       (Binary64.ofZ 500) (Binary64.ofZ 800)
  /\ thresholds alerts (monthlyLimitIds Sample.now) (Binary64.ofZ 2000)
       (Binary64.ofZ 1700)
  /\ emits alerts (weeklyLimitIds Sample.now) warning
  /\ ~ emits alerts (weeklyLimitIds Sample.now) critical.
Proof.
  intros alerts.
  destruct (thresholds_binary64 Sample.IST Sample64.show Sample.now
              Sample64.budget Sample64.transactions) as (Hw & Hc & Hm & Hex).
  assert (Ew : weekSpend Sample.IST Sample.now Sample64.transactions = Binary64.ofZ 800)
    by (vm_compute; reflexivity).
  assert (Ec : categorySpend Sample.IST Sample.now Groceries Sample64.transactions
               = Binary64.ofZ 800) by (vm_compute; reflexivity).
  assert (Em : monthSpend Sample.now Sample64.transactions = Binary64.ofZ 1700)
    by (vm_compute; reflexivity).
  assert (Lw : Engine64.BudgetAllocations.weeklyLimit
                 (Engine64.BudgetState.allocations Sample64.budget)
               = Binary64.ofZ 1000) by (vm_compute; reflexivity).
  assert (Lm : Engine64.BudgetAllocations.monthlyLimit
                 (Engine64.BudgetState.allocations Sample64.budget)
               = Binary64.ofZ 2000) by (vm_compute; reflexivity).
  assert (Hg : Binary64.lt Binary64.zero (Binary64.ofZ 500)) by (vm_compute; reflexivity).
  specialize (Hc [(Groceries, Binary64.ofZ 500); (Outings, Binary64.zero)]
                Groceries (Binary64.ofZ 500) eq_refl eq_refl Hg).
  rewrite Ew, Lw in Hw. rewrite Ec in Hc. rewrite Em, Lm in Hm. rewrite Ew in Hex.
  split; [apply Hw; vm_compute; reflexivity |].
  split; [exact Hc |].
  split; [apply Hm; [vm_compute; split; discriminate | vm_compute; reflexivity] |].
  apply Hex; [exact Lw | reflexivity].
Defined.

(** C2, as the specification has it, fails on decimal amounts. With an
    income of 1000, a savings target of 912.82 and one expense of 87.18,
    the savings are 912.82 and reach the target, and the alert is a
    warning: the difference [1000 - 87.18] is the number
    912.8199999999999. *)
Lemma savings_decimal_inputs :
  (91282 # 100 <= 1000 - (8718 # 100))%Q
  /\ exists a,
       List.filter isSavingsAlert
         (Engine64.generateAlerts Sample.IST Sample64.show Sample.now
            Sample64.budget1000 Sample64.spent8718) = [a]
       /\ AlertItem.type a = warning.
Proof.
  split; [vm_compute; discriminate |].
  destruct (savings_rule64 Sample.IST Sample64.show Sample.now Sample64.budget1000
              Sample64.spent8718) as (a & Ha & _ & Hw & _); [vm_compute; reflexivity |].
  exists a. split; [exact Ha |]. apply Hw. vm_compute. discriminate.
Qed.

(** C2, amended. For every budget whose savings target is above zero and
    every list of transactions, amounts being the binary64 numbers the
    engine holds, [generateAlerts] reports exactly one savings alert. The
    savings it looks at are the monthly income minus the sum of the
    amounts of all the transactions, whatever their dates, the sum rounded
    at each addition in the order of the list and the difference rounded
    once more: the alert is a success when these savings reach the
    target and a warning otherwise, it is never critical, and it stays the
    same when the transactions are given other dates. *)
Theorem savings_binary64 (tz : Z) (show : Binary64.t -> string) (now : Z)
    (budget : Engine64.BudgetState.t) (txs : list Engine64.Transaction.t) :
  let target :=
    Engine64.BudgetAllocations.savingsTarget (Engine64.BudgetState.allocations budget) in
  let savings :=
    Binary64.sub (Engine64.BudgetState.monthlyIncome budget)
      (sumOf (map Engine64.Transaction.amount txs)) in
  Binary64.lt Binary64.zero target ->
  exists a,
    List.filter isSavingsAlert (Engine64.generateAlerts tz show now budget txs) = [a]
    /\ (Binary64.leq target savings -> AlertItem.type a = success)
    /\ (~ Binary64.leq target savings -> AlertItem.type a = warning)
    /\ AlertItem.type a <> critical
    /\ forall f : Engine64.Transaction.t -> Z,
         List.filter isSavingsAlert
           (Engine64.generateAlerts tz show now budget
              (map (fun t => redated64 (f t) t) txs)) = [a].
Proof.
  intros target savings Hpos.
  destruct (savings_rule64 tz show now budget txs Hpos) as (a & Ha & H1 & H2 & H3).
  exists a. repeat split; try assumption.
  intros f. rewrite only_savings_block64 in *. rewrite <- Ha.
  unfold Engine64.savingsAlerts, Engine64.currentSavings.
  rewrite sumAmounts64_redated. reflexivity.
Qed.

(** The sample budget has a target of 10000 and 46910 left, with the
    transactions as they are and with all of them dated to 1970. *)
Lemma savings_binary64_witness :
  exists a,
    List.filter isSavingsAlert
      (Engine64.generateAlerts Sample.IST Sample64.show Sample.now Sample64.budget
         Sample64.transactions) = [a]
    /\ AlertItem.type a = success
    /\ List.filter isSavingsAlert
         (Engine64.generateAlerts Sample.IST Sample64.show Sample.now Sample64.budget
            (map (fun t => redated64 0 t) Sample64.transactions)) = [a].
Proof.
  destruct (savings_binary64 Sample.IST Sample64.show Sample.now Sample64.budget
              Sample64.transactions) as (a & Ha & Hs & _ & _ & Hf);
    [vm_compute; reflexivity |].
  exists a. split; [exact Ha |]. split; [apply Hs; vm_compute; reflexivity |].
  exact (Hf (fun _ => 0)).
Defined.

(** ** The splitter *)

Lemma occurs_char_nil (x : ascii) : ~ occursIn (String x "") "".
Proof. intros ([| c a] & b & E); discriminate E. Qed.

Lemma occurs_char_cons (x c : ascii) (s : string) :
  occursIn (String x "") (String c s) <-> c = x \/ occursIn (String x "") s.
Proof.
  split.
  - intros ([| c' a] & b & E); simpl in E; injection E as -> E.
    + left. reflexivity.
    + right. exists a, b. exact E.
  - intros [-> | (a & b & ->)].
    + exists "", s. reflexivity.
    + exists (String c a), b. reflexivity.
Qed.

Lemma plain_nil : plain "".
Proof. split; apply occurs_char_nil. Qed.

Lemma plain_cons (c : ascii) (s : string) :
  isSeparator c = false -> plain s -> plain (String c s).
Proof.
  unfold isSeparator, plain. intros H [H1 H2].
  apply orb_false_iff in H as [Hc Hn]. apply Ascii.eqb_neq in Hc, Hn.
  rewrite !occurs_char_cons. tauto.
Qed.

(** [split] cuts the text at its commas and line feeds. *)
Lemma splitOn_cutAt (text : string) : cutAt text (JS.splitOn isSeparator text).
Proof.
  induction text as [| c s IH]; simpl.
  - apply cutAt_last, plain_nil.
  - destruct (isSeparator c) eqn:E.
    + apply (cutAt_more "" c s); [apply plain_nil | | exact IH].
      unfold isSeparator in E. apply orb_true_iff in E as [E | E];
        apply Ascii.eqb_eq in E; auto.
    + inversion IH as [p Hp Ep El | p x rest ps Hp Hx Hrest Ep El].
      * apply cutAt_last, plain_cons; assumption.
      * apply (cutAt_more (String c p) x rest ps); [| assumption ..].
        apply plain_cons; assumption.
Qed.

Lemma blank_isSpace (c : option ascii) :
  blank c <-> exists x, c = Some x /\ JS.isSpace x = true.
Proof.
  unfold blank. split; intros (x & -> & H); exists x; (split; [reflexivity |]).
  - simpl in H. intuition (subst; reflexivity).
  - revert H. each_char x; cbv; intros H; try discriminate H; tauto.
Qed.

Lemma margin_cons (c : ascii) (s : string) :
  JS.isSpace c = true -> margin s -> margin (String c s).
Proof.
  intros Hc Hs. apply (margin_more (String c "") s); [| exact Hs].
  revert Hc. each_char c; intros Hc; try discriminate Hc; vm_compute; tauto.
Qed.

Lemma trimStart_margin (s : string) :
  exists a, s = a +:+ JS.trimStart s /\ margin a
            /\ ~ blank (headOf (JS.trimStart s)).
Proof.
  induction s as [| c s (a & E & Ha & Hh)]; simpl.
  - exists "". repeat split; [constructor |].
    rewrite blank_isSpace. intros (x & H & _). discriminate H.
  - destruct (JS.isSpace c) eqn:S.
    + exists (String c a). simpl. rewrite <- E. repeat split; [| exact Hh].
      apply margin_cons; assumption.
    + exists "". repeat split; [constructor |]. rewrite blank_isSpace. simpl.
      intros (x & H & Hx). injection H as <-. congruence.
Qed.

Lemma trimEnd_margin (s : string) :
  exists b, s = JS.trimEnd s +:+ b /\ margin b
            /\ ~ blank (lastOr None (JS.trimEnd s)).
Proof.
  induction s as [| c s (b & E & Hb & Hl)]; simpl.
  - exists "". repeat split; [constructor |].
    rewrite blank_isSpace. intros (x & H & _). discriminate H.
  - destruct (JS.trimEnd s) as [| x t] eqn:T.
    + simpl in E. destruct (JS.isSpace c) eqn:S.
      * exists (String c b). split; [simpl; f_equal; exact E |].
        split; [apply margin_cons; assumption |].
        rewrite blank_isSpace. intros (y & H & _). discriminate H.
      * exists b. split; [simpl; f_equal; exact E |]. split; [exact Hb |].
        rewrite blank_isSpace. simpl. intros (y & H & Hy). injection H as <-. congruence.
    + exists b. split; [simpl; f_equal; exact E |]. split; [exact Hb |].
      exact Hl.
Qed.

(** [trim] takes a margin of blanks off each side of the piece. *)
Lemma trim_trimmed (piece : string) : trimmed piece (JS.trim piece).
Proof.
  unfold JS.trim, trimmed.
  destruct (trimStart_margin piece) as (a & Ea & Ha & Hh).
  destruct (trimEnd_margin (JS.trimStart piece)) as (b & Eb & Hb & Hl).
  exists a, b. split; [| split; [exact Ha | split; [exact Hb | split; [| exact Hl]]]].
  - rewrite <- Eb. exact Ea.
  - destruct (trimEnd_head (JS.trimStart piece)) as [E | E]; rewrite E; [| exact Hh].
    rewrite blank_isSpace. intros (x & H & _). discriminate H.
Qed.

Lemma filter_bool {A : Type} (P : A -> Prop) `{!forall x, Decision (P x)}
    (f : A -> bool) (l : list A) :
  (forall x, P x <-> f x = true) -> filter P l = List.filter f l.
Proof.
  intros Hf. induction l as [| x l IH]; [reflexivity |].
  rewrite filter_cons. simpl. rewrite IH.
  destruct (decide (P x)) as [Hx | Hx]; destruct (f x) eqn:E; try reflexivity.
  - apply Hf in Hx. congruence.
  - destruct Hx. apply Hf, E.
Qed.

(** C4. For every text, [parseMultipleExpenses] cuts it at commas and
    line feeds, trims the pieces, drops the empty chunks, parses each
    chunk that remains with the single-item parser and drops the results
    whose amount is null. When nothing is left it parses the whole text as
    one item, and returns that item alone if its amount is not null, and
    the empty list otherwise. *)
Theorem parseMultipleExpenses_spec (tz now : Z) (text : string) :
  exists pieces chunks : list string,
    cutAt text pieces
    /\ Forall2 trimmed pieces chunks
    /\ let results :=
         filter (fun item => is_Some (ParsedExpense.amount item))
           (map (parseExpenseInput tz now) (filter (fun chunk => chunk <> "") chunks)) in
       parseMultipleExpenses tz now text =
         match results with
         | [] =>
             let single := parseExpenseInput tz now text in
             if decide (is_Some (ParsedExpense.amount single)) then [single] else []
         | _ :: _ => results
         end.
Proof.
  exists (JS.splitOn isSeparator text), (map JS.trim (JS.splitOn isSeparator text)).
  split; [apply splitOn_cutAt |]. split.
  - apply Forall2_fmap_r, Forall_Forall2_diag, List.Forall_forall.
    intros p _. apply trim_trimmed.
  - cbv zeta.
    rewrite (filter_bool _ (fun c => (0 <? String.length c)%nat)).
    2:{ intros [| c s]; simpl; split; intros H;
          [destruct H; reflexivity | discriminate H | reflexivity | discriminate]. }
    rewrite (filter_bool _ hasAmount).
    2:{ intros item. unfold hasAmount.
        destruct (ParsedExpense.amount item); split; try discriminate; eauto.
        intros [x H]. discriminate H. }
    unfold parseMultipleExpenses.
    destruct (List.filter hasAmount _) as [| r rs] eqn:E; [| reflexivity].
    cbn [List.length Nat.eqb].
    assert (Hnone : hasAmount (parseExpenseInput tz now text) = false).
    { destruct (hasAmount (parseExpenseInput tz now text)) eqn:Ha; [| reflexivity].
      exfalso. apply (chunk_has_amount tz now text Ha). exact E. }
    unfold hasAmount in Hnone.
    destruct (ParsedExpense.amount (parseExpenseInput tz now text)); [discriminate |].
    reflexivity.
Qed.

(** The sample text: six pieces, the comma of 1,200 cutting the rent in
    two, four chunks with an amount, and the note without one dropped. *)
Lemma parseMultipleExpenses_spec_witness :
  (exists pieces chunks : list string,
     cutAt Sample4.text pieces
     /\ Forall2 trimmed pieces chunks
     /\ parseMultipleExpenses Sample.IST Sample.now Sample4.text
        = filter (fun item => is_Some (ParsedExpense.amount item))
            (map (parseExpenseInput Sample.IST Sample.now)
               (filter (fun chunk => chunk <> "") chunks)))
  /\ map (fun item => (ParsedExpense.amount item, ParsedExpense.description item))
       (parseMultipleExpenses Sample.IST Sample.now Sample4.text)
     = [(Some 20%Q, "Tea"); (Some 15%Q, "Bus"); (Some 1%Q, "Miscellaneous expense");
        (Some 200%Q, "Rent")].
Proof.
  split; [| vm_compute; reflexivity].
  destruct (parseMultipleExpenses_spec Sample.IST Sample.now Sample4.text)
    as (pieces & chunks & Hc & Ht & Hr).
  exists pieces, chunks. split; [exact Hc |]. split; [exact Ht |].
  cbv zeta in Hr. rewrite Hr.
  destruct (filter _ (map _ (filter _ chunks))) as [| r rs] eqn:E; [| reflexivity].
  exfalso. assert (L : List.length (parseMultipleExpenses Sample.IST Sample.now Sample4.text)
                       = 4%nat) by (vm_compute; reflexivity).
  rewrite Hr in L. destruct (decide _); simpl in L; discriminate L.
Defined.

(** * Whole amounts in binary64

    Whole numbers from 0 to 2^53 - 1 are binary64 numbers, and the
    arithmetic of the engine is exact on them: the sum of two of them, as
    long as it stays below 2^53, the comparison of two of them, and the
    product of a multiple of five with [0.8]. *)


Lemma iter_pos_nat {A : Type} (f : A -> A) (p : positive) (x : A) :
  iter_pos f p x = Nat.iter (Pos.to_nat p) f x.
Proof.
  revert x. induction p as [p IH | p IH |]; intros x; simpl iter_pos.
  - rewrite !IH, Pos2Nat.inj_xI. simpl Nat.mul. rewrite Nat.add_0_r.
    rewrite Nat.iter_succ_r, Nat.iter_add. reflexivity.
  - rewrite !IH, Pos2Nat.inj_xO. simpl Nat.mul. rewrite Nat.add_0_r.
    rewrite Nat.iter_add. reflexivity.
  - reflexivity.
Qed.

Lemma digits2_size (p : positive) : digits2_pos p = Pos.size p.
Proof. induction p as [p IH | p IH |]; simpl; congruence. Qed.

Lemma size_bounds (p : positive) :
  2 ^ (Z.pos (digits2_pos p) - 1) <= Z.pos p < 2 ^ Z.pos (digits2_pos p).
Proof.
  rewrite digits2_size. pose proof (Pos.size_gt p) as G. pose proof (Pos.size_le p) as L.
  apply Pos2Z.pos_lt_pos in G. apply Pos2Z.pos_le_pos in L.
  rewrite Pos2Z.inj_pow in G, L.
  set (s := Z.pos (Pos.size p)) in *.
  assert (E : 2 ^ s = 2 * 2 ^ (s - 1)).
  { rewrite <- Z.pow_succ_r by (unfold s; lia). f_equal. lia. }
  set (a := 2 ^ s) in *. set (b := 2 ^ (s - 1)) in *. clearbody a b. lia.
Qed.

Lemma size_unique (p : positive) (d : Z) :
  2 ^ (d - 1) <= Z.pos p < 2 ^ d -> Z.pos (digits2_pos p) = d.
Proof.
  intros [L U]. pose proof (size_bounds p) as [L' U'].
  assert (0 < d).
  { destruct (Z_lt_le_dec 0 d) as [H | H]; [exact H | exfalso].
    destruct (Z.eq_dec d 0) as [-> | N]; [change (2 ^ 0) with 1 in U; lia |].
    rewrite Z.pow_neg_r in U by lia. lia. }
  assert (d - 1 < Z.pos (digits2_pos p)).
  { apply (Z.pow_lt_mono_r_iff 2); lia. }
  assert (Z.pos (digits2_pos p) - 1 < d).
  { apply (Z.pow_lt_mono_r_iff 2); lia. }
  lia.
Qed.

(** Shifting out zero bits is exact. *)
Lemma shr_exact (k : nat) (M q : positive) :
  Z.pos M = Z.pos q * 2 ^ Z.of_nat k ->
  Nat.iter k shr_1 (Build_shr_record (Z.pos M) false false)
  = Build_shr_record (Z.pos q) false false.
Proof.
  revert M. induction k as [| k IH]; intros M E.
  - simpl in *. f_equal. lia.
  - rewrite Nat.iter_succ_r. rewrite Nat2Z.inj_succ, Z.pow_succ_r in E by lia.
    destruct M as [M | M |]; try lia. simpl shr_1. apply IH. lia.
Qed.

Lemma shr_fexp_canonical (q : positive) (e : Z) :
  Z.pos (digits2_pos q) = 53 -> -1074 <= e <= 971 ->
  shr_fexp 53 1024 (Z.pos q) e loc_Exact = (Build_shr_record (Z.pos q) false false, e).
Proof.
  intros D He.
  assert (F : fexp 53 1024 (53 + e) - e = 0) by (unfold fexp, emin; lia).
  unfold shr_fexp. change (Zdigits2 (Z.pos q)) with (Z.pos (digits2_pos q)).
  rewrite D, F. reflexivity.
Qed.

Lemma round_aux_canonical (s : bool) (q : positive) (e : Z) :
  Z.pos (digits2_pos q) = 53 -> -1074 <= e <= 971 ->
  binary_round_aux 53 1024 s (Z.pos q) e loc_Exact = S754_finite s q e.
Proof.
  intros D He. unfold binary_round_aux.
  rewrite (shr_fexp_canonical q e D He).
  cbn [shr_m loc_of_shr_record round_nearest_even].
  rewrite (shr_fexp_canonical q e D He). cbn [shr_m].
  destruct (e <=? 1024 - 53) eqn:L; [reflexivity | apply Z.leb_gt in L; lia].
Qed.

Lemma round_aux_shr (s : bool) (M q : positive) (E k : Z) :
  0 <= k -> Z.pos M = Z.pos q * 2 ^ k ->
  Z.pos (digits2_pos q) = 53 -> -1074 <= E + k <= 971 ->
  binary_round_aux 53 1024 s (Z.pos M) E loc_Exact = S754_finite s q (E + k).
Proof.
  intros Hk HM D He.
  destruct (Z.eq_dec k 0) as [-> | Hk0].
  { rewrite Z.pow_0_r, Z.mul_1_r in HM. injection HM as ->.
    rewrite Z.add_0_r in *. apply round_aux_canonical; assumption. }
  assert (DM : Z.pos (digits2_pos M) = 53 + k).
  { apply size_unique. pose proof (size_bounds q) as [L U]. rewrite D in L, U.
    rewrite HM. replace (53 + k - 1) with (52 + k) by lia.
    rewrite !Z.pow_add_r by lia. change (53 - 1) with 52 in L.
    pose proof (Z.pow_pos_nonneg 2 k ltac:(lia) Hk). nia. }
  assert (F : fexp 53 1024 (53 + k + E) - E = k) by (unfold fexp, emin; lia).
  unfold binary_round_aux. unfold shr_fexp at 1.
  change (Zdigits2 (Z.pos M)) with (Z.pos (digits2_pos M)). rewrite DM, F.
  destruct k as [| pk | pk]; try lia.
  unfold shr at 1. rewrite iter_pos_nat. cbn [shr_record_of_loc].
  rewrite (shr_exact (Pos.to_nat pk) M q) by (rewrite positive_nat_Z; exact HM).
  cbn [shr_m loc_of_shr_record round_nearest_even].
  rewrite (shr_fexp_canonical q _ D He). cbn [shr_m].
  destruct (E + Z.pos pk <=? 1024 - 53) eqn:L; [reflexivity | apply Z.leb_gt in L; lia].
Qed.


Lemma pow2_split (a b : Z) : 0 <= a -> 0 <= b -> 2 ^ (a + b) = 2 ^ a * 2 ^ b.
Proof. intros. apply Z.pow_add_r; assumption. Qed.

Lemma shift_value (m d : positive) :
  Z.pos (Pos.iter xO m d) = Z.pos m * 2 ^ Z.pos d.
Proof.
  change (Pos.iter xO m d) with (shift_pos d m).
  rewrite shift_pos_correct, Z.mul_comm. reflexivity.
Qed.

Lemma scaled_bounds (n lo hi k : Z) :
  0 <= lo -> 0 <= hi -> 0 <= k -> 2 ^ lo <= n < 2 ^ hi ->
  2 ^ (lo + k) <= n * 2 ^ k < 2 ^ (hi + k).
Proof.
  intros Hlo Hhi Hk [L U]. rewrite !pow2_split by assumption.
  pose proof (Z.pow_pos_nonneg 2 k ltac:(lia) Hk) as P.
  split; [apply Z.mul_le_mono_nonneg_r | apply Z.mul_lt_mono_pos_r]; lia.
Qed.

Lemma normalize_whole (m E n : Z) :
  0 < n < 2 ^ 53 -> -52 <= E <= 0 -> m = n * 2 ^ (- E) ->
  canonical (binary_normalize 53 1024 m E false) n.
Proof.
  intros Hn HE Hm.
  destruct n as [| pn | pn]; try lia.
  pose proof (size_bounds pn) as B.
  assert (Hd : 1 <= Z.pos (digits2_pos pn) <= 53).
  { split; [lia |].
    destruct (Z_le_gt_dec (Z.pos (digits2_pos pn)) 53) as [H | H]; [exact H | exfalso].
    assert (2 ^ 53 <= 2 ^ (Z.pos (digits2_pos pn) - 1)) by (apply Z.pow_le_mono_r; lia).
    lia. }
  set (d := Z.pos (digits2_pos pn)) in *. clearbody d.
  pose proof (scaled_bounds (Z.pos pn) (d - 1) d (- E) ltac:(lia) ltac:(lia) ltac:(lia) B) as BM.
  pose proof (scaled_bounds (Z.pos pn) (d - 1) d (53 - d) ltac:(lia) ltac:(lia) ltac:(lia) B) as Bq.
  rewrite <- Hm in BM.
  pose proof (Z.pow_nonneg 2 (d - 1 + - E) ltac:(lia)) as P1.
  pose proof (Z.pow_pos_nonneg 2 (d - 1 + - E) ltac:(lia) ltac:(lia)) as P2.
  destruct m as [| M | M]; try lia.
  set (q := Z.to_pos (Z.pos pn * 2 ^ (53 - d))).
  pose proof (Z.pow_pos_nonneg 2 (d - 1 + (53 - d)) ltac:(lia) ltac:(lia)) as P3.
  assert (Hq : Z.pos q = Z.pos pn * 2 ^ (53 - d)) by (unfold q; rewrite Z2Pos.id; lia).
  rewrite <- Hq in Bq.
  assert (Dq : Z.pos (digits2_pos q) = 53).
  { apply size_unique. replace (53 - 1) with (d - 1 + (53 - d)) by lia.
    replace 53 with (d + (53 - d)) at 2 by lia. exact Bq. }
  assert (DM : Z.pos (digits2_pos M) = d - E).
  { apply size_unique. replace (d - E - 1) with (d - 1 + - E) by lia.
    replace (d - E) with (d + - E) by lia. exact BM. }
  exists q, (d - 53). split; [| split; [exact Dq | split; [lia |]]].
  2:{ rewrite Hq. f_equal. f_equal. lia. }
  unfold binary_normalize, binary_round. rewrite DM.
  replace (fexp 53 1024 (d - E + E)) with (d - 53) by (unfold fexp, emin; lia).
  unfold shl_align. destruct (d - 53 - E) as [| k | k] eqn:K.
  - replace (d - 53) with (E + 0) by lia. apply round_aux_shr; try lia.
    rewrite Hm, Hq, Z.pow_0_r, Z.mul_1_r. f_equal. f_equal. lia.
  - replace (d - 53) with (E + Z.pos k) by lia. apply round_aux_shr; try lia.
    rewrite Hm, Hq, <- Z.mul_assoc, <- pow2_split by lia. f_equal. f_equal. lia.
  - assert (Pos.iter xO M k = q) as ->.
    { apply Pos2Z.inj. rewrite shift_value, Hm, Hq, <- Z.mul_assoc, <- pow2_split by lia.
      f_equal. f_equal. lia. }
    apply round_aux_canonical; [exact Dq | lia].
Qed.

Lemma ofZ_whole (n : Z) : 0 < n < 2 ^ 53 -> canonical (Binary64.ofZ n) n.
Proof.
  intros H. apply normalize_whole; [exact H | lia |].
  rewrite Z.pow_0_r. lia.
Qed.

Lemma whole_unique (x y : spec_float) (n : Z)   : canonical x n -> canonical y n -> x = y.
Proof.
  intros (q & e & -> & D & He & Hq) (q' & e' & -> & D' & He' & Hq').
  pose proof (size_bounds q) as [L U]. pose proof (size_bounds q') as [L' U'].
  rewrite D in L, U. rewrite D' in L', U'. change (53 - 1) with 52 in *.
  assert (e = e').
  { destruct (Z.lt_trichotomy e e') as [H | [H | H]]; [exfalso | exact H | exfalso].
    - replace (- e) with ((- e') + (e' - e)) in Hq by lia.
      rewrite pow2_split, Z.mul_assoc, <- Hq' in Hq by lia.
      assert (2 ^ 1 <= 2 ^ (e' - e)) by (apply Z.pow_le_mono_r; lia).
      change (2 ^ 1) with 2 in *. change (2 ^ 53) with (2 * 2 ^ 52) in *. nia.
    - replace (- e') with ((- e) + (e - e')) in Hq' by lia.
      rewrite pow2_split, Z.mul_assoc, <- Hq in Hq' by lia.
      assert (2 ^ 1 <= 2 ^ (e - e')) by (apply Z.pow_le_mono_r; lia).
      change (2 ^ 1) with 2 in *. change (2 ^ 53) with (2 * 2 ^ 52) in *. nia. }
  subst e'. f_equal. apply Pos2Z.inj. congruence.
Qed.

Lemma shl_align_value (m : positive) (e ez : Z) :
  ez <= e ->
  Z.pos (fst (shl_align m e ez)) = Z.pos m * 2 ^ (e - ez).
Proof.
  intros H. unfold shl_align. destruct (ez - e) as [| k | k] eqn:K; try lia; simpl fst.
  - replace (e - ez) with 0 by lia. lia.
  - rewrite shift_value. f_equal. f_equal. lia.
Qed.

Lemma add_whole (x y : spec_float) (a b : Z) :
  canonical x a -> canonical y b -> 0 < a -> 0 < b -> a + b < 2 ^ 53 ->
  canonical (Binary64.add x y) (a + b).
Proof.
  intros (qa & ea & -> & Da & Hea & Ha) (qb & eb & -> & Db & Heb & Hb) Pa Pb Hs.
  unfold Binary64.add, SFadd. cbn [cond_Zopp].
  set (ez := Z.min ea eb).
  apply normalize_whole; [lia | unfold ez; lia |].
  rewrite !shl_align_value by (unfold ez; lia).
  rewrite Ha, Hb, <- !Z.mul_assoc, <- !pow2_split by (unfold ez; lia).
  replace (- ea + (ea - ez)) with (- ez) by lia.
  replace (- eb + (eb - ez)) with (- ez) by lia. lia.
Qed.

(** Adding canonical numbers that are not negative is exact below 2^53. *)
Lemma add_ofZ (a b : Z) :
  0 <= a -> 0 <= b -> a + b < 2 ^ 53 ->
  Binary64.add (Binary64.ofZ a) (Binary64.ofZ b) = Binary64.ofZ (a + b).
Proof.
  intros Ha Hb Hs.
  destruct (Z.eq_dec a 0) as [-> | Na].
  - rewrite Z.add_0_l. change (Binary64.ofZ 0) with (S754_zero false).
    destruct (Z.eq_dec b 0) as [-> | Nb]; [reflexivity |].
    destruct (ofZ_whole b ltac:(lia)) as (q & e & -> & _). reflexivity.
  - destruct (Z.eq_dec b 0) as [-> | Nb].
    + rewrite Z.add_0_r. change (Binary64.ofZ 0) with (S754_zero false).
      destruct (ofZ_whole a ltac:(lia)) as (q & e & -> & _). reflexivity.
    + apply (whole_unique _ _ (a + b)).
      * apply add_whole; try lia; apply ofZ_whole; lia.
      * apply ofZ_whole. lia.
Qed.

Lemma sumOf_from (ns : list Z) (acc : Z) :
  Forall (fun n => 0 <= n) ns -> 0 <= acc -> acc + fold_right Z.add 0 ns < 2 ^ 53 ->
  fold_left Binary64.add (map Binary64.ofZ ns) (Binary64.ofZ acc)
  = Binary64.ofZ (acc + fold_right Z.add 0 ns).
Proof.
  revert acc. induction ns as [| n ns IH]; intros acc Hns Hacc Hs; simpl.
  - f_equal. lia.
  - inversion Hns as [| ? ? Hn Hns']; subst. simpl in Hs.
    assert (0 <= fold_right Z.add 0 ns).
    { clear -Hns'. induction Hns'; simpl; lia. }
    rewrite add_ofZ by lia. rewrite IH by (try assumption; lia). f_equal. lia.
Qed.

Lemma sumOf_whole (ns : list Z) :
  Forall (fun n => 0 <= n) ns -> fold_right Z.add 0 ns < 2 ^ 53 ->
  sumOf (map Binary64.ofZ ns) = Binary64.ofZ (fold_right Z.add 0 ns).
Proof.
  intros Hns Hs. unfold sumOf. change Binary64.zero with (Binary64.ofZ 0).
  rewrite sumOf_from by (try assumption; lia). reflexivity.
Qed.

(** ** Comparing canonical numbers *)

Lemma compare_whole (x y : spec_float) (a b : Z) :
  canonical x a -> canonical y b -> SFcompare x y = Some (a ?= b).
Proof.
  intros (q & e & -> & D & He & Hq) (q' & e' & -> & D' & He' & Hq').
  pose proof (size_bounds q) as [L U]. pose proof (size_bounds q') as [L' U'].
  rewrite D in L, U. rewrite D' in L', U'. change (53 - 1) with 52 in *.
  change (2 ^ 53) with (2 * 2 ^ 52) in *.
  pose proof (Z.pow_pos_nonneg 2 (- e) ltac:(lia) ltac:(lia)) as P.
  pose proof (Z.pow_pos_nonneg 2 (- e') ltac:(lia) ltac:(lia)) as P'.
  cbn [SFcompare]. f_equal. destruct (Z.compare_spec e e') as [E | E | E].
  - subst e'. change (Pos.compare_cont Eq q q') with (Z.pos q ?= Z.pos q').
    rewrite Hq, Hq'.
    destruct (Z.compare_spec a b) as [C | C | C].
    + subst. apply Z.compare_refl.
    + apply Z.compare_lt_iff. apply Z.mul_lt_mono_pos_r; lia.
    + apply Z.compare_gt_iff. apply Z.mul_lt_mono_pos_r; lia.
  - symmetry. apply Z.compare_lt_iff.
    replace (- e) with ((- e') + (e' - e)) in Hq by lia.
    rewrite pow2_split, Z.mul_assoc in Hq by lia.
    assert (Y : 2 ^ 1 <= 2 ^ (e' - e)) by (apply Z.pow_le_mono_r; lia).
    change (2 ^ 1) with 2 in Y.
    destruct (Z_lt_le_dec a b) as [C | C]; [exact C | exfalso].
    assert (T : b * 2 ^ (- e') <= a * 2 ^ (- e')) by (apply Z.mul_le_mono_nonneg_r; lia).
    set (t := a * 2 ^ (- e')) in *. set (y := 2 ^ (e' - e)) in *.
    clearbody t y. nia.
  - symmetry. apply Z.compare_gt_iff.
    replace (- e') with ((- e) + (e - e')) in Hq' by lia.
    rewrite pow2_split, Z.mul_assoc in Hq' by lia.
    assert (Y : 2 ^ 1 <= 2 ^ (e - e')) by (apply Z.pow_le_mono_r; lia).
    change (2 ^ 1) with 2 in Y.
    destruct (Z_lt_le_dec b a) as [C | C]; [exact C | exfalso].
    assert (T : a * 2 ^ (- e) <= b * 2 ^ (- e)) by (apply Z.mul_le_mono_nonneg_r; lia).
    set (t := b * 2 ^ (- e)) in *. set (y := 2 ^ (e - e')) in *.
    clearbody t y. nia.
Qed.

Lemma compare_ofZ (a b : Z) :
  0 <= a < 2 ^ 53 -> 0 <= b < 2 ^ 53 ->
  SFcompare (Binary64.ofZ a) (Binary64.ofZ b) = Some (a ?= b).
Proof.
  intros Ha Hb.
  destruct (Z.eq_dec a 0) as [-> | Na]; destruct (Z.eq_dec b 0) as [-> | Nb].
  - reflexivity.
  - destruct (ofZ_whole b ltac:(lia)) as (q & e & -> & _).
    change (Binary64.ofZ 0) with (S754_zero false). cbn [SFcompare].
    f_equal. symmetry. apply Z.compare_lt_iff. lia.
  - destruct (ofZ_whole a ltac:(lia)) as (q & e & -> & _).
    change (Binary64.ofZ 0) with (S754_zero false). cbn [SFcompare].
    f_equal. symmetry. apply Z.compare_gt_iff. lia.
  - apply compare_whole; apply ofZ_whole; lia.
Qed.

Lemma ltb_ofZ (a b : Z) :
  0 <= a < 2 ^ 53 -> 0 <= b < 2 ^ 53 ->
  SFltb (Binary64.ofZ a) (Binary64.ofZ b) = (a <? b).
Proof.
  intros Ha Hb. unfold SFltb, Z.ltb. rewrite (compare_ofZ a b Ha Hb).
  destruct (a ?= b); reflexivity.
Qed.

Lemma leb_ofZ (a b : Z) :
  0 <= a < 2 ^ 53 -> 0 <= b < 2 ^ 53 ->
  SFleb (Binary64.ofZ a) (Binary64.ofZ b) = (a <=? b).
Proof.
  intros Ha Hb. unfold SFleb, Z.leb. rewrite (compare_ofZ a b Ha Hb).
  destruct (a ?= b); reflexivity.
Qed.

(** ** Four fifths of a multiple of five *)

(** Shifting out bits of which the highest is zero leaves the round bit
    clear. *)
Lemma shr_low (n : nat) (q : positive) :
  forall (P : positive) (rb st : bool) (r : Z),
    Z.pos P = Z.pos q * 2 ^ Z.of_nat (S n) + r -> 0 <= r < 2 ^ Z.of_nat n ->
    exists st',
      Nat.iter (S n) shr_1 (Build_shr_record (Z.pos P) rb st)
      = Build_shr_record (Z.pos q) false st'.
Proof.
  induction n as [| n IH]; intros P rb st r HP Hr.
  - change (2 ^ Z.of_nat 0) with 1 in Hr. change (2 ^ Z.of_nat 1) with 2 in HP.
    assert (r = 0) by lia. subst r.
    destruct P as [P | P |]; try lia. simpl. eexists. f_equal. lia.
  - rewrite Nat.iter_succ_r.
    rewrite (Nat2Z.inj_succ (S n)), Z.pow_succ_r in HP by lia.
    rewrite (Nat2Z.inj_succ n), Z.pow_succ_r in Hr by lia.
    pose proof (Z.pow_pos_nonneg 2 (Z.of_nat (S n)) ltac:(lia) ltac:(lia)) as Pp.
    destruct P as [P | P |]; cbn [shr_1].
    + rewrite Pos2Z.inj_xI in HP.
      set (h := Z.pos P - Z.pos q * 2 ^ Z.of_nat (S n)).
      assert (Er : r - 1 = h * 2) by (unfold h; lia).
      assert (Eh : (r - 1) / 2 = h) by (rewrite Er; apply Z.div_mul; lia).
      apply (IH P _ _ ((r - 1) / 2)); rewrite Eh; unfold h; [lia |].
      fold h. lia.
    + rewrite Pos2Z.inj_xO in HP.
      set (h := Z.pos P - Z.pos q * 2 ^ Z.of_nat (S n)).
      assert (Er : r = h * 2) by (unfold h; lia).
      assert (Eh : r / 2 = h) by (rewrite Er; apply Z.div_mul; lia).
      apply (IH P _ _ (r / 2)); rewrite Eh; unfold h; [lia |].
      fold h. lia.
    + exfalso. nia.
Qed.

Lemma round_aux_low (s : bool) (P q : positive) (E n r : Z) :
  0 < n -> Z.pos P = Z.pos q * 2 ^ n + r -> 0 <= 2 * r < 2 ^ n ->
  Z.pos (digits2_pos q) = 53 -> -1074 <= E + n <= 971 ->
  binary_round_aux 53 1024 s (Z.pos P) E loc_Exact = S754_finite s q (E + n).
Proof.
  intros Hn HP Hr D He.
  pose proof (size_bounds q) as [L U]. rewrite D in L, U. change (53 - 1) with 52 in L.
  pose proof (Z.pow_pos_nonneg 2 n ltac:(lia) ltac:(lia)) as Pn.
  assert (DP : Z.pos (digits2_pos P) = 53 + n).
  { apply size_unique. replace (53 + n - 1) with (52 + n) by lia.
    rewrite !pow2_split by lia. nia. }
  assert (F : fexp 53 1024 (53 + n + E) - E = n) by (unfold fexp, emin; lia).
  unfold binary_round_aux. unfold shr_fexp at 1.
  change (Zdigits2 (Z.pos P)) with (Z.pos (digits2_pos P)). rewrite DP, F.
  destruct n as [| pn | pn]; try lia.
  unfold shr at 1. rewrite iter_pos_nat. cbn [shr_record_of_loc].
  destruct (Pos2Nat.is_succ pn) as [k Ek]. rewrite Ek.
  assert (Zk : Z.pos pn = Z.of_nat (S k)) by (rewrite <- Ek, positive_nat_Z; reflexivity).
  destruct (shr_low k q P false false r) as [st' ->].
  { rewrite <- Zk. exact HP. }
  { rewrite Zk, Nat2Z.inj_succ, Z.pow_succ_r in Hr by lia. lia. }
  cbn [shr_m loc_of_shr_record].
  replace (round_nearest_even (Z.pos q) (if st' then loc_Inexact Lt else loc_Exact))
    with (Z.pos q) by (destruct st'; reflexivity).
  assert (X : (match st' with
               | true => loc_Inexact Lt | false => loc_Exact end)
              = (if st' then loc_Inexact Lt else loc_Exact)) by reflexivity.
  destruct st'; cbn [round_nearest_even];
    rewrite (shr_fexp_canonical q _ D He); cbn [shr_m];
    (destruct (E + Z.pos pn <=? 1024 - 53) eqn:Le;
     [reflexivity | apply Z.leb_gt in Le; lia]).
Qed.

Lemma four_fifths :
  Binary64.ofDecimal (8 # 10) = S754_finite false 7205759403792794 (-53).
Proof. vm_compute. reflexivity. Qed.

(** The product of a canonical multiple of five and [0.8] is exact. *)
Lemma mul_four_fifths (j : Z) :
  0 < j -> 5 * j < 2 ^ 53 ->
  Binary64.mul (Binary64.ofZ (5 * j)) (Binary64.ofDecimal (8 # 10))
  = Binary64.ofZ (4 * j).
Proof.
  intros Hj Hb.
  destruct (ofZ_whole (5 * j) ltac:(lia)) as (qL & eL & -> & DL & HeL & HqL).
  destruct (ofZ_whole (4 * j) ltac:(lia)) as (q4 & e4 & -> & D4 & He4 & Hq4).
  rewrite four_fifths. unfold Binary64.mul, SFmul. cbn [xorb].
  pose proof (size_bounds q4) as [L4 U4]. rewrite D4 in L4, U4.
  replace (S754_finite false q4 e4) with (S754_finite false q4 (eL + -53 + (53 - eL + e4)))
    by (f_equal; lia).
  assert (X4 : 2 ^ (- e4) * 2 ^ (53 - eL + e4) = 2 ^ 53 * 2 ^ (- eL)).
  { rewrite <- !pow2_split by lia. f_equal. lia. }
  assert (Xn : 2 ^ (53 - eL + e4) * 2 ^ (- e4) = 2 ^ 53 * 2 ^ (- eL)) by lia.
  pose proof (Z.pow_pos_nonneg 2 (- eL) ltac:(lia) ltac:(lia)) as PL.
  pose proof (Z.pow_pos_nonneg 2 (- e4) ltac:(lia) ltac:(lia)) as P4.
  pose proof (Z.pow_pos_nonneg 2 (53 - eL + e4) ltac:(lia) ltac:(lia)) as Pn.
  apply (round_aux_low false _ q4 _ _ (2 * j * 2 ^ (- eL))); [lia | | | exact D4 | lia].
  - rewrite Pos2Z.inj_mul, HqL, Hq4.
    change (Z.pos 7205759403792794) with 7205759403792794.
    change (2 ^ 53) with 9007199254740992 in *. nia.
  - split; [nia |].
    change (2 ^ 53) with 9007199254740992 in *.
    set (a := 2 ^ (- eL)) in *. set (b := 2 ^ (- e4)) in *.
    set (c := 2 ^ (53 - eL + e4)) in *. clearbody a b c.
    assert (4 * j * b * a < 9007199254740992 * a) by nia.
    nia.
Qed.

(** ** The engine on whole amounts *)

Lemma toZ_ofZ (n : Z) : 0 <= n < 2 ^ 53 -> Binary64.toZ (Binary64.ofZ n) = n.
Proof.
  intros Hn. destruct (Z.eq_dec n 0) as [-> | N]; [reflexivity |].
  destruct (ofZ_whole n ltac:(lia)) as (q & e & -> & _ & He & Hq).
  unfold Binary64.toZ. destruct (0 <=? e) eqn:E.
  - apply Z.leb_le in E. replace e with 0 in * by lia.
    rewrite Hq. change (2 ^ (- 0)) with 1. change (2 ^ 0) with 1. lia.
  - rewrite Hq. apply Z.div_mul.
    pose proof (Z.pow_pos_nonneg 2 (- e) ltac:(lia) ltac:(lia)). lia.
Qed.

Lemma isWhole_ofZ (x : Binary64.t) :
  Binary64.isWhole x ->
  0 <= Binary64.toZ x < 2 ^ 53 /\ x = Binary64.ofZ (Binary64.toZ x).
Proof. intros (n & Hn & ->). rewrite (toZ_ofZ n Hn). auto. Qed.

Lemma exactSpend_bounds (counts : Engine64.Transaction.t -> bool)
    (txs : list Engine64.Transaction.t) :
  Forall (fun t => Binary64.isWhole (Engine64.Transaction.amount t)) txs ->
  0 <= exactSpend counts txs <= exactSpend (fun _ => true) txs.
Proof.
  unfold exactSpend. induction 1 as [| t txs Ht _ IH]; simpl; [lia |].
  apply isWhole_ofZ in Ht as [Ht _]. destruct (counts t); simpl; lia.
Qed.

(** The sum of the engine over whole amounts is the exact sum. *)
Lemma spendOf_exact (counts : Engine64.Transaction.t -> bool)
    (txs : list Engine64.Transaction.t) :
  wholeAmounts64 txs ->
  spendOf counts txs = Binary64.ofZ (exactSpend counts txs)
  /\ 0 <= exactSpend counts txs < 2 ^ 53.
Proof.
  intros [Hw Ht]. pose proof (exactSpend_bounds counts txs Hw) as B.
  split; [| lia]. unfold spendOf, exactSpend in *.
  assert (E : map Engine64.Transaction.amount (List.filter counts txs)
              = map Binary64.ofZ
                  (map (fun t => Binary64.toZ (Engine64.Transaction.amount t))
                     (List.filter counts txs))).
  { rewrite map_map. apply map_ext_in. intros t Hin.
    apply List.filter_In in Hin as [Hin _].
    rewrite List.Forall_forall in Hw. apply isWhole_ofZ, Hw, Hin. }
  rewrite E. apply sumOf_whole; [| lia].
  apply List.Forall_forall. intros n Hn. apply in_map_iff in Hn as (t & <- & Hin).
  apply List.filter_In in Hin as [Hin _].
  rewrite List.Forall_forall in Hw. apply isWhole_ofZ, Hw, Hin.
Qed.

(** Between whole numbers, with a limit that is a multiple of five, the
    rule of the engine is the rule of the specification. *)
Lemma thresholds_exact (alerts : list AlertItem.t) (ids : list string) (limit spend : Z) :
  0 < limit < 2 ^ 53 -> limit mod 5 = 0 -> 0 <= spend < 2 ^ 53 ->
  thresholds alerts ids (Binary64.ofZ limit) (Binary64.ofZ spend) ->
  exactRule alerts ids limit spend.
Proof.
  intros Hl H5 Hs [Hc Hw]. unfold exactRule.
  unfold Binary64.lt, Binary64.leq in *.
  pose proof (Z.div_mod limit 5 ltac:(lia)) as D. rewrite H5, Z.add_0_r in D.
  set (j := limit / 5) in *.
  assert (M : Binary64.mul (Binary64.ofZ limit) (Binary64.ofDecimal (8 # 10))
              = Binary64.ofZ (4 * j)).
  { rewrite D. apply mul_four_fifths; lia. }
  rewrite M in Hw. rewrite ltb_ofZ in Hc, Hw by lia. rewrite leb_ofZ in Hw by lia.
  rewrite Z.ltb_lt in Hc, Hw. rewrite Z.leb_le in Hw.
  split; [exact Hc |]. rewrite Hw. lia.
Qed.

Lemma above_zero_ofZ (n : Z) : 0 < n < 2 ^ 53 -> Binary64.lt Binary64.zero (Binary64.ofZ n).
Proof.
  intros H. unfold Binary64.lt. change Binary64.zero with (Binary64.ofZ 0).
  rewrite ltb_ofZ by lia. apply Z.ltb_lt. lia.
Qed.

(** X30. When the amounts are whole numbers that are not negative and add
    up to less than 2^53, and the limit is a whole multiple of five below
    2^53, the rule of the alert engine is the rule as the specification
    words it, in exact arithmetic: a critical alert for the limit exactly
    when the sum of the amounts that count is strictly greater than the
    limit, and a warning exactly when that sum is at least 80% of the
    limit and not strictly greater. This holds for the weekly limit, for
    every category limit and, the current year being one of 0 to 9999,
    for the monthly limit. *)
Theorem whole_amounts_exact_rule (tz : Z) (show : Binary64.t -> string) (now : Z)
    (budget : Engine64.BudgetState.t) (txs : list Engine64.Transaction.t) :
  wholeAmounts64 txs ->
  let alerts := Engine64.generateAlerts tz show now budget txs in
  let a := Engine64.BudgetState.allocations budget in
  (forall limit,
     Engine64.BudgetAllocations.weeklyLimit a = Binary64.ofZ limit ->
     0 < limit < 2 ^ 53 -> limit mod 5 = 0 ->
     exactRule alerts (weeklyLimitIds now) limit
       (exactSpend (fun t => inWeekOf tz now t && inBucket Weekly t) txs))
  /\ (forall limits cat limit,
        Engine64.BudgetAllocations.weeklyCategoryLimits a = Some limits ->
        lookupCategory limits cat = Some (Binary64.ofZ limit) ->
        0 < limit < 2 ^ 53 -> limit mod 5 = 0 ->
        exactRule alerts (categoryLimitIds now cat) limit
          (exactSpend
             (fun t => inWeekOf tz now t
                       && bool_decide (Engine64.Transaction.category t = cat)) txs))
  /\ (forall limit,
        0 <= Date.YearFromTime now <= 9999 ->
        Engine64.BudgetAllocations.monthlyLimit a = Binary64.ofZ limit ->
        0 < limit < 2 ^ 53 -> limit mod 5 = 0 ->
        exactRule alerts (monthlyLimitIds now) limit
          (exactSpend (fun t => inMonthOf now t && inBucket Monthly t) txs)).
Proof.
  intros Hw alerts a. split; [| split].
  - intros limit El Hl H5.
    destruct (spendOf_exact (fun t => inWeekOf tz now t && inBucket Weekly t) txs Hw)
      as [Es Bs].
    apply thresholds_exact; try assumption.
    rewrite <- El, <- Es. apply weekly_rule64. fold a. rewrite El.
    apply above_zero_ofZ, Hl.
  - intros limits cat limit Ec Ek Hl H5.
    destruct (spendOf_exact
                (fun t => inWeekOf tz now t
                          && bool_decide (Engine64.Transaction.category t = cat)) txs Hw)
      as [Es Bs].
    apply thresholds_exact; try assumption.
    rewrite <- Es. apply (category_rule64 tz show now budget txs limits cat _ Ec Ek).
    apply above_zero_ofZ, Hl.
  - intros limit Hy El Hl H5.
    destruct (spendOf_exact (fun t => inMonthOf now t && inBucket Monthly t) txs Hw)
      as [Es Bs].
    apply thresholds_exact; try assumption.
    rewrite <- El, <- Es. apply monthly_rule64; [exact Hy |]. fold a. rewrite El.
    apply above_zero_ofZ, Hl.
Qed.

(** The sample budget: 800 of the weekly limit of 1000 spent, which is
    80% of it. *)
Lemma whole_amounts_exact_rule_witness :
  wholeAmounts64 Sample64.transactions
  /\ exactSpend (fun t => inWeekOf Sample.IST Sample.now t && inBucket Weekly t)
       Sample64.transactions = 800
  /\ emits
       (Engine64.generateAlerts Sample.IST Sample64.show Sample.now Sample64.budget
          Sample64.transactions)
       (weeklyLimitIds Sample.now) warning.
Proof.
  assert (Hw : wholeAmounts64 Sample64.transactions).
  { split; [| vm_compute; reflexivity].
    repeat constructor;
      [exists 800 | exists 1700 | exists 500 | exists 90];
      (split; [lia | vm_compute; reflexivity]). }
  assert (Es : exactSpend (fun t => inWeekOf Sample.IST Sample.now t && inBucket Weekly t)
                 Sample64.transactions = 800) by (vm_compute; reflexivity).
  split; [exact Hw |]. split; [exact Es |].
  destruct (whole_amounts_exact_rule Sample.IST Sample64.show Sample.now Sample64.budget
              Sample64.transactions Hw) as [H _].
  destruct (H 1000) as [_ Hwarn]; [vm_compute; reflexivity | lia | reflexivity |].
  apply Hwarn. rewrite Es. lia.
Defined.
